(** * Open3D-ML: the PointNet++ encoder/decoder and the segmentation test run

    A shallow embedding of [ml3d/torch/models/pointnet.py] and of the
    methods of [SemanticSegmentation] from
    [ml3d/torch/pipelines/semantic_segmentation.py]; [__init__], which
    only calls the base class, and [save_logs], which nothing calls, are
    left out.

    Python exceptions are values of [exn]; fallible code lives in the
    [result] monad.  Tensors are abstract: [torch], [pointnet2_utils] and
    [gen_CNN] are not part of the repository sources, so they are taken as
    an interface ([TensorLib]) together with the size contracts the source
    comments and the specification give them ([TensorLaws]).

    Names are resolved as Python resolves them, against the globals of the
    module and the builtins.  [pointnet.py] binds [torch], [nn], [F],
    [List], [gen_CNN] and its five classes, and reads [pointnet2_utils]
    in lines 101-103, 153-154, 209 and 214 without binding it: each of
    these reads raises [NameError], as the read of [train_sampler] does in
    [run_test]. *)

From Stdlib Require Import ZArith QArith Qminmax Lia Lqa.
From stdpp Require Import base option list strings gmap.

Local Open Scope Z_scope.

(** ** Python values that fail: exceptions and the result monad *)

Module Py.

Inductive exn : Type :=
| AssertionError (args : list string)
| AttributeError (name : string)
| IndexError
| NameError (name : string)
| UnboundLocalError (name : string)
| NotImplementedError
| TypeError
| RuntimeError
| OtherError (cls : string).

Inductive result (A : Type) : Type :=
| Ok (a : A)
| Raise (e : exn).
Arguments Ok {A} a.
Arguments Raise {A} e.

#[global] Instance result_ret : MRet result := fun A a => Ok a.
#[global] Instance result_bind : MBind result := fun A B f r =>
  match r with
  | Ok a => f a
  | Raise e => Raise e
  end.

Definition is_ok {A} (r : result A) : bool :=
  match r with Ok _ => true | Raise _ => false end.

(** [l[i]] with Python's negative indices. *)
Definition py_pos {A} (l : list A) (i : Z) : Z :=
  if i <? 0 then i + Z.of_nat (length l) else i.

Definition py_index {A} (l : list A) (i : Z) : result A :=
  let j := py_pos l i in
  if (0 <=? j) && (j <? Z.of_nat (length l)) then
    match l !! Z.to_nat j with
    | Some a => Ok a
    | None => Raise IndexError
    end
  else Raise IndexError.

(** [l[i] = a]. *)
Definition py_setitem {A} (l : list A) (i : Z) (a : A) : result (list A) :=
  let j := py_pos l i in
  if (0 <=? j) && (j <? Z.of_nat (length l)) then Ok (<[Z.to_nat j := a]> l)
  else Raise IndexError.

(** [range(start, stop, step)] for a non-zero step. *)
Definition py_range3 (start stop step : Z) : list Z :=
  let n := if 0 <? step then (stop - start + step - 1) / step
           else (start - stop - step - 1) / (- step) in
  (fun k : nat => start + Z.of_nat k * step) <$> seq 0 (Z.to_nat n).

Definition py_range (n : nat) : list Z := py_range3 0 (Z.of_nat n) 1.

(** A [for] loop that threads the loop-carried state and stops at the first
    exception. *)
Fixpoint for_in {S I} (body : S -> I -> result S) (l : list I) (s : S)
  : result S :=
  match l with
  | [] => Ok s
  | i :: l' => s' ← body s i; for_in body l' s'
  end.

End Py.
Export Py.

(** ** The tensor interface *)

(** What the model uses of [torch], of [pointnet2_utils] and of [gen_CNN].
    [contiguous()] changes the memory layout only and is not represented. *)
Class TensorLib : Type := {
  tensor : Type;
  (** [t.size()] *)
  size : tensor -> list Z;
  (** [t[..., start:stop]] *)
  slice_last : Z -> option Z -> tensor -> tensor;
  (** [t.transpose(d0, d1)] *)
  transpose : Z -> Z -> tensor -> result tensor;
  (** [torch.cat(ts, dim)] *)
  cat : list tensor -> Z -> result tensor;
  (** [F.max_pool2d(t, kernel_size)], [F.avg_pool2d(t, kernel_size)] *)
  max_pool2d : tensor -> list Z -> result tensor;
  avg_pool2d : tensor -> list Z -> result tensor;
  (** [t.squeeze(-1)], [t.unsqueeze(-1)] *)
  squeeze_last : tensor -> tensor;
  unsqueeze_last : tensor -> tensor;
  (** [t.expand(sizes...)] *)
  expand : tensor -> list Z -> result tensor;
  (** [t + c], [c / t], [torch.sum(t, dim, keepdim=True)], [a / b] *)
  add_scalar : tensor -> Q -> tensor;
  rdiv_scalar : Q -> tensor -> tensor;
  sum_keepdim : tensor -> Z -> result tensor;
  div : tensor -> tensor -> result tensor;
  (** [pointnet2_utils] *)
  furthest_point_sample : tensor -> Z -> result tensor;
  gather_operation : tensor -> tensor -> result tensor;
  QueryAndGroup_forward :
    Q -> Z -> bool -> tensor -> option tensor -> option tensor -> result tensor;
  GroupAll_forward :
    bool -> tensor -> option tensor -> option tensor -> result tensor;
  three_nn : tensor -> tensor -> result (tensor * tensor);
  three_interpolate : tensor -> tensor -> tensor -> result tensor;
  (** the forward pass of the network [gen_CNN(channels, ...)] returns *)
  gen_CNN_forward : list Z -> tensor -> result tensor;
}.

(** The width an option of relative offsets adds to a grouped tensor. *)
Definition xyz_width (use_xyz : bool) : Z := if use_xyz then 3 else 0.

(** ** pointnet.py *)

Module Pointnet.

(** *** Construction *)

(** The grouper objects [PointnetSAModuleMSG.__init__] creates. *)
Inductive grouper : Type :=
| QueryAndGroup (radius : Q) (nsample : Z) (use_xyz : bool)
| GroupAll (use_xyz : bool).

(** [self.mlps[i]] is [gen_CNN(mlp_spec, ...)]: the network is fixed by the
    channel list read when it is built. *)
Record SAModule : Type := {
  npoint : option Z;
  groupers : list grouper;
  mlps : list (list Z);
  pool_method : string;
}.

Record FPModule : Type := { mlp : list Z }.

Record Pointnet2MSG : Type := {
  SA_modules : list SAModule;
  FP_modules : list FPModule;
}.

(** The integer lists [mlps[i]] are Python objects: the argument [mlps] holds
    references into a store of lists, and two scales may hold the same one. *)
Abbreviation loc := nat (only parsing).
Abbreviation heap := (list (list Z)) (only parsing).

Definition st (A : Type) : Type := heap -> result A * heap.

#[global] Instance st_ret : MRet st := fun A a h => (Ok a, h).
#[global] Instance st_bind : MBind st := fun A B f m h =>
  match m h with
  | (Ok a, h') => f a h'
  | (Raise e, h') => (Raise e, h')
  end.

Definition lift {A} (r : result A) : st A := fun h => (r, h).

(** Reading and writing a list object; Python has no dangling reference, the
    model answers [TypeError] on one. *)
Definition deref (l : loc) : st (list Z) := fun h =>
  match h !! l with
  | Some v => (Ok v, h)
  | None => (Raise TypeError, h)
  end.

Definition assign (l : loc) (v : list Z) : st unit := fun h =>
  (Ok tt, <[l := v]> h).

Fixpoint st_for_in {S I} (body : S -> I -> st S) (l : list I) (s : S) : st S :=
  match l with
  | [] => mret s
  | i :: l' => s' ← body s i; st_for_in body l' s'
  end.

(** The names bound at module level (lines 1-7 and the class statements)
    and the builtins the module reads. *)
Definition module_globals : list string :=
  ["torch"; "nn"; "F"; "List"; "gen_CNN"; "Pointnet2MSG";
   "_PointnetSAModuleBase"; "PointnetSAModuleMSG"; "PointnetSAModule";
   "PointnetFPModule"].

Definition builtins : list string := ["super"; "range"; "len"].

(** Reading a name that no statement of the function binds. *)
Definition load_global (name : string) : result unit :=
  if existsb (String.eqb name) (module_globals ++ builtins)
  then Ok tt
  else Raise (NameError name).

(** Lines 149-160: one iteration of the loop over the scales.  Both arms of
    the conditional expression of lines 153-154 start by reading
    [pointnet2_utils]. *)
Definition SA_init_step (npoint : option Z) (radii : list Q)
    (nsamples : list Z) (mlps : list loc) (use_xyz : bool)
    (self : list grouper * list (list Z)) (i : Z)
  : st (list grouper * list (list Z)) :=
  radius ← lift (py_index radii i);
  nsample ← lift (py_index nsamples i);
  g ← lift (match npoint with
            | Some _ =>
                _ ← load_global "pointnet2_utils";
                mret (QueryAndGroup radius nsample use_xyz)
            | None =>
                _ ← load_global "pointnet2_utils";
                mret (GroupAll use_xyz)
            end);
  mlp_spec ← lift (py_index mlps i);
  _ ← (if use_xyz then
         v ← deref mlp_spec;
         v0 ← lift (py_index v 0);
         w ← lift (py_setitem v 0 (v0 + 3));
         assign mlp_spec w
       else mret tt);
  spec ← deref mlp_spec;
  mret (self.1 ++ [g], self.2 ++ [spec]).

(** [PointnetSAModuleMSG.__init__]. *)
Definition PointnetSAModuleMSG_init (npoint : option Z) (radii : list Q)
    (nsamples : list Z) (mlps : list loc) (use_xyz : bool)
    (pool_method : string) : st SAModule :=
  if bool_decide (length radii = length nsamples
                  ∧ length nsamples = length mlps) then
    self ← st_for_in (SA_init_step npoint radii nsamples mlps use_xyz)
                     (py_range (length radii)) ([], []);
    mret {| npoint := npoint; groupers := self.1; mlps := self.2;
            pool_method := pool_method |}
  else lift (Raise (AssertionError [])).

(** [PointnetSAModule.__init__]: the single-scale stage. *)
Definition PointnetSAModule_init (mlp : loc) (npoint : option Z) (radius : Q)
    (nsample : Z) (use_xyz : bool) (pool_method : string) : st SAModule :=
  PointnetSAModuleMSG_init npoint [radius] [nsample] [mlp] use_xyz pool_method.

(** [PointnetFPModule.__init__]. *)
Definition PointnetFPModule_init (mlp : list Z) : FPModule := {| mlp := mlp |}.

Record SA_config : Type := {
  SA_npoints : list (option Z);
  SA_radius : list (list Q);
  SA_nsample : list (list Z);
  SA_mlps : list (list (list Z));
}.

(** Lines 29-31: prefix every scale with the running width and add up the
    final widths. *)
Definition prefix_step (in_channels : Z) (s : list (list Z) * Z) (idx : Z)
  : result (list (list Z) * Z) :=
  m ← py_index s.1 idx;
  mlps ← py_setitem s.1 idx (in_channels :: m);
  m' ← py_index mlps idx;
  w ← py_index m' (-1);
  mret (mlps, s.2 + w).

Record init_state : Type := {
  in_channels : Z;
  out_channels : option Z;
  skip_channel_list : list Z;
  modules : list SAModule;
}.

(** Lines 26-43: one iteration of the loop over the SA stages.  The lists
    handed to the stage are the fresh ones line 30 builds, so the stage is
    run on a store that holds exactly them. *)
Definition Pointnet2MSG_init_step (use_xyz : bool) (cfg : SA_config)
    (s : init_state) (i : Z) : result init_state :=
  mlps0 ← py_index (SA_mlps cfg) i;
  '(mlps, out) ← for_in (prefix_step (in_channels s))
                        (py_range (length mlps0)) (mlps0, 0);
  npoint ← py_index (SA_npoints cfg) i;
  radii ← py_index (SA_radius cfg) i;
  nsamples ← py_index (SA_nsample cfg) i;
  m ← (PointnetSAModuleMSG_init npoint radii nsamples (seq 0 (length mlps))
         use_xyz "max_pool" mlps).1;
  mret {| in_channels := out; out_channels := Some out;
          skip_channel_list := skip_channel_list s ++ [out];
          modules := modules s ++ [m] |}.

(** Lines 47-51: one iteration of the loop over the FP stages. *)
Definition FP_init_step (fp_mlps : list (list Z)) (s : init_state)
    (fps : list FPModule) (i : Z) : result (list FPModule) :=
  pre_channel ←
    (if i + 1 <? Z.of_nat (length fp_mlps) then
       m ← py_index fp_mlps (i + 1); py_index m (-1)
     else match out_channels s with
          | Some c => Ok c
          | None => Raise (UnboundLocalError "out_channels")
          end);
  skip ← py_index (skip_channel_list s) i;
  m ← py_index fp_mlps i;
  mret (fps ++ [PointnetFPModule_init ((pre_channel + skip) :: m)]).

(** [Pointnet2MSG.__init__]. *)
Definition Pointnet2MSG_init_SA (in_channels : Z) (use_xyz : bool)
    (cfg : SA_config) : result init_state :=
  for_in (Pointnet2MSG_init_step use_xyz cfg)
         (py_range (length (SA_npoints cfg)))
         {| in_channels := in_channels; out_channels := None;
            skip_channel_list := [in_channels]; modules := [] |}.

Definition Pointnet2MSG_init (in_channels : Z) (use_xyz : bool)
    (cfg : SA_config) (fp_mlps : list (list Z)) : result Pointnet2MSG :=
  s ← Pointnet2MSG_init_SA in_channels use_xyz cfg;
  fps ← for_in (FP_init_step fp_mlps s) (py_range (length fp_mlps)) [];
  mret {| SA_modules := modules s; FP_modules := fps |}.

End Pointnet.

(** *** Interpolation weights *)

(** Line 210: the bias added to every distance. *)
Definition eps : Q := 1 # 100000000.

Definition sumQ (l : list Q) : Q := foldr Qplus 0%Q l.

(** Lines 210-212 read for one dense point on exact rationals: [dist] holds
    the distances to its three nearest sparse points, [norm] is the sum over
    [dim=2]. *)
Definition dist_recip (dist : list Q) : list Q :=
  (fun d => 1 / (d + eps))%Q <$> dist.

Definition norm (dist : list Q) : Q := sumQ (dist_recip dist).

Definition weight (dist : list Q) : list Q :=
  (fun r => r / norm dist)%Q <$> dist_recip dist.

(** *** Forward passes *)

Section Forward.
Context {T : TensorLib}.
Import Pointnet.

(** Calling a method on [None]. *)
Definition not_none {A} (attr : string) (o : option A) : result A :=
  match o with
  | Some a => Ok a
  | None => Raise (AttributeError attr)
  end.

(** Handing [None] to an extension function that expects a tensor. *)
Definition tensor_arg {A} (o : option A) : result A :=
  match o with
  | Some a => Ok a
  | None => Raise TypeError
  end.

(** [Pointnet2MSG._break_up_pc]. *)
Definition _break_up_pc (pc : tensor) : result (tensor * option tensor) :=
  let xyz := slice_last 0 (Some 3) pc in
  w ← py_index (size pc) (-1);
  features ← (if 3 <? w then
                f ← transpose 1 2 (slice_last 3 None pc); mret (Some f)
              else mret None);
  mret (xyz, features).

(** [self.groupers[i](xyz, new_xyz, features)]. *)
Definition grouper_forward (g : grouper) (xyz : tensor)
    (new_xyz features : option tensor) : result tensor :=
  match g with
  | QueryAndGroup radius nsample use_xyz =>
      QueryAndGroup_forward radius nsample use_xyz xyz new_xyz features
  | GroupAll use_xyz => GroupAll_forward use_xyz xyz new_xyz features
  end.

(** Lines 110-119: pooling over the neighbour dimension. *)
Definition pool (pool_method : string) (new_features : tensor)
  : result tensor :=
  if String.eqb pool_method "max_pool" then
    k ← py_index (size new_features) 3;
    max_pool2d new_features [1; k]
  else if String.eqb pool_method "avg_pool" then
    k ← py_index (size new_features) 3;
    avg_pool2d new_features [1; k]
  else Raise NotImplementedError.

(** Lines 106-122: one iteration of the loop over the scales. *)
Definition SA_forward_step (self : SAModule) (xyz : tensor)
    (new_xyz features : option tensor) (new_features_list : list tensor)
    (i : Z) : result (list tensor) :=
  g ← py_index (groupers self) i;
  new_features ← grouper_forward g xyz new_xyz features;
  net ← py_index (mlps self) i;
  new_features ← gen_CNN_forward net new_features;
  new_features ← pool (pool_method self) new_features;
  mret (new_features_list ++ [squeeze_last new_features]).

(** [_PointnetSAModuleBase.forward].  The sampling of lines 101-104 reads
    [pointnet2_utils] twice, for [gather_operation] and, among its
    arguments, for [furthest_point_sample]. *)
Definition SA_forward (self : SAModule) (xyz features new_xyz : option tensor)
  : result (option tensor * tensor) :=
  xyz ← not_none "transpose" xyz;
  xyz_flipped ← transpose 1 2 xyz;
  new_xyz ← match new_xyz with
            | Some c => Ok (Some c)
            | None =>
                match npoint self with
                | Some n =>
                    _ ← load_global "pointnet2_utils";
                    _ ← load_global "pointnet2_utils";
                    idx ← furthest_point_sample xyz n;
                    g ← gather_operation xyz_flipped idx;
                    c ← transpose 1 2 g;
                    mret (Some c)
                | None => Ok None
                end
            end;
  new_features_list ←
    for_in (SA_forward_step self xyz new_xyz features)
           (py_range (length (groupers self))) [];
  out ← cat new_features_list 1;
  mret (new_xyz, out).

(** Lines 208-216: the features of the sparse set brought to the dense
    points; lines 209 and 214 read [pointnet2_utils]. *)
Definition FP_interpolate (unknown known known_feats : option tensor)
  : result tensor :=
  match known with
  | Some known =>
      _ ← load_global "pointnet2_utils";
      unknown ← tensor_arg unknown;
      '(dist, idx) ← three_nn unknown known;
      let dist_recip := rdiv_scalar 1 (add_scalar dist eps) in
      norm ← sum_keepdim dist_recip 2;
      weight ← div dist_recip norm;
      _ ← load_global "pointnet2_utils";
      known_feats ← tensor_arg known_feats;
      three_interpolate known_feats idx weight
  | None =>
      known_feats ← not_none "expand" known_feats;
      unknown ← not_none "size" unknown;
      n ← py_index (size unknown) 1;
      expand known_feats (take 2 (size known_feats) ++ [n])
  end.

(** [PointnetFPModule.forward]. *)
Definition FP_forward (self : FPModule)
    (unknown known unknow_feats known_feats : option tensor) : result tensor :=
  interpolated_feats ← FP_interpolate unknown known known_feats;
  new_features ← match unknow_feats with
                 | Some unknow_feats => cat [interpolated_feats; unknow_feats] 1
                 | None => Ok interpolated_feats
                 end;
  new_features ← gen_CNN_forward (mlp self) (unsqueeze_last new_features);
  mret (squeeze_last new_features).

(** The depth history: [l_xyz] and [l_features]. *)
Definition history : Type := list (option tensor) * list (option tensor).

(** Lines 66-69. *)
Definition forward_SA_step (self : Pointnet2MSG) (l : history) (i : Z)
  : result history :=
  m ← py_index (SA_modules self) i;
  xyz ← py_index l.1 i;
  features ← py_index l.2 i;
  '(li_xyz, li_features) ← SA_forward m xyz features None;
  mret (l.1 ++ [li_xyz], l.2 ++ [Some li_features]).

(** Lines 71-74. *)
Definition forward_FP_step (self : Pointnet2MSG) (l : history) (i : Z)
  : result history :=
  m ← py_index (FP_modules self) i;
  unknown ← py_index l.1 (i - 1);
  known ← py_index l.1 i;
  unknow_feats ← py_index l.2 (i - 1);
  known_feats ← py_index l.2 i;
  out ← FP_forward m unknown known unknow_feats known_feats;
  l_features ← py_setitem l.2 (i - 1) (Some out);
  mret (l.1, l_features).

(** Lines 63-69: the encoder pass. *)
Definition forward_encode (self : Pointnet2MSG) (pointcloud : tensor)
  : result history :=
  '(xyz, features) ← _break_up_pc pointcloud;
  for_in (forward_SA_step self) (py_range (length (SA_modules self)))
         ([Some xyz], [features]).

(** Lines 71-74: the decoder loop, run on the depth history [l]. *)
Definition forward_decode (self : Pointnet2MSG) (l : history)
  : result history :=
  for_in (forward_FP_step self)
         (py_range3 (-1) (- (Z.of_nat (length (FP_modules self)) + 1)) (-1)) l.

(** Line 76: [return l_xyz[0], l_features[0]]. *)
Definition forward_return (l : history)
  : result (option tensor * option tensor) :=
  xyz ← py_index l.1 0;
  features ← py_index l.2 0;
  mret (xyz, features).

(** Lines 63-74: the depth history when the decoder loop ends. *)
Definition forward_history (self : Pointnet2MSG) (pointcloud : tensor)
  : result history :=
  l ← forward_encode self pointcloud;
  forward_decode self l.

(** [Pointnet2MSG.forward]. *)
Definition forward (self : Pointnet2MSG) (pointcloud : tensor)
  : result (option tensor * option tensor) :=
  l ← forward_history self pointcloud;
  forward_return l.

End Forward.

(** *** Size contracts of the interface *)

(** The channel width of a [(B, C, ...)] tensor. *)
Definition width {T : TensorLib} (t : tensor) : Z := default 0 (size t !! 1%nat).

Definition sumZ (l : list Z) : Z := foldr Z.add 0 l.

(** Modelled from the spec: the shapes the external primitives return on
    well-shaped arguments (section 6 of the specification and the shape
    comments of [pointnet.py]); [torch], [pointnet2_utils] and [gen_CNN] are
    not in the sources.  A network built from the channel list [c :: ws]
    accepts [c] channels and returns the last width of [ws]. *)
Class TensorLaws (T : TensorLib) : Prop := {
  slice_xyz_size : forall t b n w, size t = [b; n; w] -> 0 <= w ->
    size (slice_last 0 (Some 3) t) = [b; n; Z.min 3 w];
  slice_features_size : forall t b n w, size t = [b; n; w] -> 0 <= w ->
    size (slice_last 3 None t) = [b; n; Z.max 0 (w - 3)];
  transpose_size : forall t a b c, size t = [a; b; c] ->
    exists t', transpose 1 2 t = Ok t' /\ size t' = [a; c; b];
  furthest_point_sample_size : forall xyz b n m, size xyz = [b; n; 3] ->
    0 < m <= n ->
    exists idx, furthest_point_sample xyz m = Ok idx /\ size idx = [b; m];
  gather_operation_size : forall f idx b c n m, size f = [b; c; n] ->
    size idx = [b; m] ->
    exists g, gather_operation f idx = Ok g /\ size g = [b; c; m];
  QueryAndGroup_size : forall r k u xyz c f b n m ch,
    size xyz = [b; n; 3] -> size c = [b; m; 3] -> size f = [b; ch; n] ->
    exists g, QueryAndGroup_forward r k u xyz (Some c) (Some f) = Ok g
              /\ size g = [b; ch + xyz_width u; m; k];
  QueryAndGroup_size_xyz : forall r k xyz c b n m,
    size xyz = [b; n; 3] -> size c = [b; m; 3] ->
    exists g, QueryAndGroup_forward r k true xyz (Some c) None = Ok g
              /\ size g = [b; 3; m; k];
  GroupAll_size : forall u xyz c f b n ch,
    size xyz = [b; n; 3] -> size f = [b; ch; n] ->
    exists g, GroupAll_forward u xyz c (Some f) = Ok g
              /\ size g = [b; ch + xyz_width u; 1; n];
  GroupAll_size_xyz : forall xyz c b n,
    size xyz = [b; n; 3] ->
    exists g, GroupAll_forward true xyz c None = Ok g
              /\ size g = [b; 3; 1; n];
  gen_CNN_size : forall x b c h n ws w,
    size x = [b; c; h; n] ->
    exists y, gen_CNN_forward (c :: ws ++ [w]) x = Ok y
              /\ size y = [b; w; h; n];
  max_pool2d_size : forall x b c m k, size x = [b; c; m; k] ->
    0 < m -> 0 < k ->
    exists y, max_pool2d x [1; k] = Ok y /\ size y = [b; c; m; 1];
  avg_pool2d_size : forall x b c m k, size x = [b; c; m; k] ->
    0 < m -> 0 < k ->
    exists y, avg_pool2d x [1; k] = Ok y /\ size y = [b; c; m; 1];
  squeeze_last_size : forall x s, size x = s ++ [1] ->
    size (squeeze_last x) = s;
  unsqueeze_last_size : forall x, size (unsqueeze_last x) = size x ++ [1];
  cat_nil : forall d, is_ok (cat [] d) = false;
  cat_size : forall ts b m, ts <> [] ->
    Forall (fun t => size t = [b; width t; m]) ts ->
    exists y, cat ts 1 = Ok y /\ size y = [b; sumZ (width <$> ts); m];
  three_nn_size : forall u k b n m, size u = [b; n; 3] -> size k = [b; m; 3] ->
    exists d i, three_nn u k = Ok (d, i)
                /\ size d = [b; n; 3] /\ size i = [b; n; 3];
  add_scalar_size : forall t q, size (add_scalar t q) = size t;
  rdiv_scalar_size : forall t q, size (rdiv_scalar q t) = size t;
  sum_keepdim_size : forall t b n k, size t = [b; n; k] ->
    exists s, sum_keepdim t 2 = Ok s /\ size s = [b; n; 1];
  div_size : forall a c b n k, size a = [b; n; k] -> size c = [b; n; 1] ->
    exists y, div a c = Ok y /\ size y = [b; n; k];
  three_interpolate_size : forall f i w b c n m, size f = [b; c; m] ->
    size i = [b; n; 3] -> size w = [b; n; 3] ->
    exists y, three_interpolate f i w = Ok y /\ size y = [b; c; n];
  expand_size : forall f b c n, size f = [b; c; 1] ->
    exists y, expand f [b; c; n] = Ok y /\ size y = [b; c; n];
}.

(** ** The size-only tensors *)

(** An instance of the interface in which a tensor is its size: every
    operation computes the size of its result and raises where the sizes do
    not fit.  It is the instance the concrete runs below are computed in. *)
Module Shape.

Definition clamp (w i : Z) : Z := Z.max 0 (Z.min i w).

Definition slice_last (start : Z) (stop : option Z) (s : list Z) : list Z :=
  match reverse s with
  | [] => []
  | w :: pre =>
      reverse pre ++ [Z.max 0 (clamp w (default w stop) - clamp w start)]
  end.

Definition transpose (d0 d1 : Z) (s : list Z) : result (list Z) :=
  a ← py_index s d0;
  b ← py_index s d1;
  s' ← py_setitem s d0 b;
  py_setitem s' d1 a.

Definition same_but (d : nat) (s s' : list Z) : bool :=
  bool_decide (<[d := 0]> s = <[d := 0]> s').

Definition cat (ts : list (list Z)) (dim : Z) : result (list Z) :=
  match ts with
  | [] => Raise RuntimeError
  | s :: _ =>
      if forallb (same_but (Z.to_nat dim) s) ts then
        py_setitem s dim (sumZ ((fun t => default 0 (t !! Z.to_nat dim)) <$> ts))
      else Raise RuntimeError
  end.

Definition pool2d (s kernel : list Z) : result (list Z) :=
  match s, kernel with
  | [b; c; h; w], [kh; kw] =>
      if (0 <? kh) && (0 <? kw) && (kh <=? h) && (kw <=? w) then
        Ok [b; c; (h - kh) / kh + 1; (w - kw) / kw + 1]
      else Raise RuntimeError
  | _, _ => Raise RuntimeError
  end.

Definition squeeze_last (s : list Z) : list Z :=
  match reverse s with
  | 1 :: pre => reverse pre
  | _ => s
  end.

Definition expand (s sizes : list Z) : result (list Z) :=
  if bool_decide (length s = length sizes)
     && forallb (fun p => (p.1 =? p.2) || (p.1 =? 1)) (zip s sizes)
  then Ok sizes else Raise RuntimeError.

Definition sum_keepdim (s : list Z) (dim : Z) : result (list Z) :=
  py_setitem s dim 1.

Definition div (a c : list Z) : result (list Z) :=
  if bool_decide (length a = length c)
     && forallb (fun p => (p.1 =? p.2) || (p.1 =? 1) || (p.2 =? 1)) (zip a c)
  then Ok (zip_with (fun x y => if x =? 1 then y else x) a c)
  else Raise RuntimeError.

Definition furthest_point_sample (xyz : list Z) (m : Z) : result (list Z) :=
  match xyz with
  | [b; n; 3] => if (0 <? m) && (m <=? n) then Ok [b; m] else Raise RuntimeError
  | _ => Raise RuntimeError
  end.

Definition gather_operation (f idx : list Z) : result (list Z) :=
  match f, idx with
  | [b; c; n], [b'; m] => if b =? b' then Ok [b; c; m] else Raise RuntimeError
  | _, _ => Raise RuntimeError
  end.

Definition grouped (u : bool) (b m k : Z) (features : option (list Z))
    (n : Z) : result (list Z) :=
  match features with
  | Some [b'; ch; n'] =>
      if (b =? b') && (n =? n') then Ok [b; ch + xyz_width u; m; k]
      else Raise RuntimeError
  | Some _ => Raise RuntimeError
  | None => if u then Ok [b; 3; m; k] else Raise (AssertionError [])
  end.

Definition QueryAndGroup_forward (r : Q) (k : Z) (u : bool) (xyz : list Z)
    (new_xyz features : option (list Z)) : result (list Z) :=
  match xyz, new_xyz with
  | [b; n; 3], Some [b'; m; 3] =>
      if b =? b' then grouped u b m k features n else Raise RuntimeError
  | _, _ => Raise RuntimeError
  end.

Definition GroupAll_forward (u : bool) (xyz : list Z)
    (new_xyz features : option (list Z)) : result (list Z) :=
  match xyz with
  | [b; n; 3] => grouped u b 1 n features n
  | _ => Raise RuntimeError
  end.

Definition three_nn (u k : list Z) : result (list Z * list Z) :=
  match u, k with
  | [b; n; 3], [b'; m; 3] =>
      if b =? b' then Ok ([b; n; 3], [b; n; 3]) else Raise RuntimeError
  | _, _ => Raise RuntimeError
  end.

Definition three_interpolate (f i w : list Z) : result (list Z) :=
  match f, i, w with
  | [b; c; m], [b1; n; 3], [b2; n'; 3] =>
      if (b =? b1) && (b =? b2) && (n =? n') then Ok [b; c; n]
      else Raise RuntimeError
  | _, _, _ => Raise RuntimeError
  end.

Definition gen_CNN_forward (channels : list Z) (x : list Z)
  : result (list Z) :=
  match channels, x with
  | c :: w0 :: ws, [b; c'; h; n] =>
      if c =? c' then Ok [b; List.last ws w0; h; n] else Raise RuntimeError
  | _ :: _ :: _, _ => Raise RuntimeError
  | _, _ => Ok x
  end.

#[global] Instance lib : TensorLib :=
  Build_TensorLib (list Z) (fun s => s)
    slice_last transpose cat pool2d pool2d squeeze_last (fun s => s ++ [1])
    expand (fun s _ => s) (fun _ s => s) sum_keepdim div
    furthest_point_sample gather_operation QueryAndGroup_forward
    GroupAll_forward three_nn three_interpolate gen_CNN_forward.

End Shape.

(** ** Pooling on values *)

(** Lines 110-117 on the values of a [(B, C, npoint, nsample)] tensor, held
    as nested lists: the kernel [[1, nsample]] reduces every row of the last
    dimension to one entry. *)
Module Pooling.

Definition max_pool_row (row : list Q) : result (list Q) :=
  match row with
  | [] => Raise RuntimeError
  | v :: vs => Ok [foldl Qmax v vs]
  end.

Definition avg_pool_row (row : list Q) : result (list Q) :=
  match row with
  | [] => Raise RuntimeError
  | _ => Ok [(sumQ row / inject_Z (Z.of_nat (length row)))%Q]
  end.

Fixpoint mapM {A B} (f : A -> result B) (l : list A) : result (list B) :=
  match l with
  | [] => Ok []
  | a :: l' => b ← f a; bs ← mapM f l'; mret (b :: bs)
  end.

Definition values : Type := list (list (list (list Q))).

Definition pool_rows (f : list Q -> result (list Q)) (t : values)
  : result values :=
  mapM (mapM (mapM f)) t.

Definition max_pool2d : values -> result values := pool_rows max_pool_row.
Definition avg_pool2d : values -> result values := pool_rows avg_pool_row.

(** Modelled from the spec: the ball query is not in the sources; it fills a
    neighbourhood that has fewer neighbours than its capacity by repeating
    the first valid neighbour, here [k] more times. *)
Definition pad_row (k : nat) (row : list Q) : list Q :=
  match row with
  | [] => []
  | v :: _ => row ++ replicate k v
  end.

Definition pad (k : nat) (t : values) : values :=
  fmap (M := list) (fmap (M := list) (fmap (M := list) (pad_row k))) t.

End Pooling.

(** ** semantic_segmentation.py: the test run *)

Module Pipeline.

(** Python values as far as the run tells them apart.  [VObj] is an object
    of a class outside the sources, [VSelf] the pipeline object. *)
#[warnings="-register-all"] Inductive value : Type :=
| VNone
| VBool (b : bool)
| VInt (n : Z)
| VStr (s : string)
| VList (l : list value)
| VObj (name : string)
| VSelf.

(** What the run does to the world outside the pipeline object. *)
Inductive event : Type :=
| EGetattr (o : value) (name : string)
| ECall (f : value) (args : list value)
| ESetattr (o : value) (name : string) (v : value).

(** The code outside the sources ([torch], the dataset, the model, the
    logger, ...): what an attribute read or a call answers after the events
    so far; either may raise. *)
Record world : Type := {
  ext_getattr : list event -> value -> string -> result value;
  ext_call : list event -> value -> list value -> result value;
}.

(** The attributes of the pipeline object and the events so far. *)
Record state : Type := {
  attrs : gmap string value;
  trace : list event;
}.

(** A loop may not end: [Diverges] is the run that uses up its fuel. *)
Inductive outcome (A : Type) : Type :=
| Done (a : A)
| Throw (e : exn)
| Diverges.
Arguments Done {A} a.
Arguments Throw {A} e.
Arguments Diverges {A}.

Definition M (A : Type) : Type := state -> outcome A * state.

#[global] Instance M_ret : MRet M := fun A a s => (Done a, s).
#[global] Instance M_bind : MBind M := fun A B f m s =>
  match m s with
  | (Done a, s') => f a s'
  | (Throw e, s') => (Throw e, s')
  | (Diverges, s') => (Diverges, s')
  end.

Definition raise {A} (e : exn) : M A := fun s => (Throw e, s).

Definition of_result {A} (r : result A) : outcome A :=
  match r with
  | Ok a => Done a
  | Raise e => Throw e
  end.

Definition emit (e : event) (s : state) : state :=
  {| attrs := attrs s; trace := trace s ++ [e] |}.

(** The names bound at module level (lines 1-33 and the class statement)
    and the builtins the module reads. *)
Definition module_globals : list string :=
  ["torch"; "pickle"; "nn"; "np"; "logging"; "sys"; "warnings"; "datetime";
   "tqdm"; "SummaryWriter"; "Dataset"; "IterableDataset"; "DataLoader";
   "Path"; "confusion_matrix"; "exists"; "join"; "isfile"; "dirname";
   "abspath"; "BasePipeline"; "get_sampler"; "TorchDataloader";
   "DefaultBatcher"; "ConcatBatcher"; "latest_torch_ckpt"; "SemSegLoss";
   "SemSegMetric"; "make_dir"; "LogRecord"; "Config"; "PIPELINE";
   "get_runid"; "code2md"; "DataProcessing"; "log"; "SemanticSegmentation"].

Definition builtins : list string :=
  ["range"; "len"; "getattr"; "hasattr"; "enumerate"; "super";
   "FileNotFoundError"; "True"; "False"; "None"].

(** Reading a name that no statement of the function binds. *)
Definition load_global (name : string) : M value :=
  if existsb (String.eqb name) (module_globals ++ builtins)
  then mret (VObj name)
  else raise (NameError name).

Section Run.
Variable w : world.

(** [o.name] *)
Definition getattr (o : value) (name : string) : M value := fun s =>
  match o with
  | VNone => (Throw (AttributeError name), s)
  | VSelf =>
      match attrs s !! name with
      | Some v => (Done v, s)
      | None => (Throw (AttributeError name), s)
      end
  | _ => (of_result (ext_getattr w (trace s) o name), emit (EGetattr o name) s)
  end.

(** [o.name = v] *)
Definition setattr (o : value) (name : string) (v : value) : M unit := fun s =>
  match o with
  | VNone => (Throw (AttributeError name), s)
  | VSelf => (Done tt, {| attrs := <[name := v]> (attrs s); trace := trace s |})
  | _ => (Done tt, emit (ESetattr o name v) s)
  end.

(** [f(args)] *)
Definition call (f : value) (args : list value) : M value := fun s =>
  match f with
  | VNone => (Throw TypeError, s)
  | _ => (of_result (ext_call w (trace s) f args), emit (ECall f args) s)
  end.

(** [hasattr(self, name)], with the attribute when it is there. *)
Definition hasattr_self (name : string) : M (option value) := fun s =>
  (Done (attrs s !! name), s).

(** [o[k]] *)
Definition getitem (o k : value) : M value :=
  f ← getattr o "__getitem__"; call f [k].

Definition truthy (v : value) : bool :=
  match v with
  | VNone => false
  | VBool b => b
  | VInt n => negb (n =? 0)
  | VStr s => negb (String.eqb s "")
  | VList l => match l with [] => false | _ => true end
  | _ => true
  end.

Definition is_none (v : value) : bool :=
  match v with VNone => true | _ => false end.

Definition str_eq (v : value) (s : string) : bool :=
  match v with VStr t => String.eqb t s | _ => false end.

(** [log.info(fmt.format(x))] *)
Definition log_info_format (fmt : string) (x : M value) : M unit :=
  log ← load_global "log";
  info ← getattr log "info";
  format ← getattr (VStr fmt) "format";
  v ← x;
  msg ← call format [v];
  _ ← call info [msg];
  mret tt.

(** [log.info(msg)] *)
Definition log_info (msg : string) : M unit :=
  log ← load_global "log";
  info ← getattr log "info";
  _ ← call info [VStr msg];
  mret tt.

(** [with cm: body]: [__exit__] runs however the body ends. *)
Definition with_ {A} (cm : value) (body : M A) : M A := fun s =>
  match (enter ← getattr cm "__enter__"; call enter []) s with
  | (Done _, s1) =>
      match body s1 with
      | (Diverges, s2) => (Diverges, s2)
      | (r, s2) =>
          match (exit ← getattr cm "__exit__"; call exit []) s2 with
          | (Done _, s3) => (r, s3)
          | (Throw e, s3) => (Throw e, s3)
          | (Diverges, s3) => (Diverges, s3)
          end
      end
  | (Throw e, s1) => (Throw e, s1)
  | (Diverges, s1) => (Diverges, s1)
  end.

Definition no_grad {A} (body : M A) : M A :=
  torch ← load_global "torch";
  f ← getattr torch "no_grad";
  cm ← call f [];
  with_ cm body.

Fixpoint for_each {A} (body : A -> M unit) (l : list A) : M unit :=
  match l with
  | [] => mret tt
  | a :: l' => _ ← body a; for_each body l'
  end.

(** Lines 147-151: [while True] with a [break]. *)
Fixpoint inference_loop (fuel : nat) (model : value) : M unit :=
  match fuel with
  | O => fun s => (Diverges, s)
  | S fuel' =>
      f ← getattr model "inference_preprocess";
      inputs ← call f [];
      data ← getitem inputs (VStr "data");
      results ← call model [data];
      f ← getattr model "inference_end";
      stop ← call f [inputs; results];
      if truthy stop then mret tt else inference_loop fuel' model
  end.

(** [SemanticSegmentation.run_inference]. *)
Definition run_inference (fuel : nat) (data : value) : M value :=
  cfg ← getattr VSelf "cfg";
  model ← getattr VSelf "model";
  device ← getattr VSelf "device";
  f ← getattr model "to";
  _ ← call f [device];
  _ ← setattr model "device" device;
  f ← getattr model "eval";
  _ ← call f [];
  f ← getattr model "inference_begin";
  _ ← call f [data];
  _ ← no_grad (inference_loop fuel model);
  getattr model "inference_result".

(** [SemanticSegmentation.get_batcher]. *)
Definition get_batcher (device : value) (split : string) : M value :=
  _ ← load_global "getattr";
  model ← getattr VSelf "model";
  cfg ← getattr model "cfg";
  batcher_name ← getattr cfg "batcher";
  if str_eq batcher_name "DefaultBatcher" then
    c ← load_global "DefaultBatcher"; call c []
  else if str_eq batcher_name "ConcatBatcher" then
    c ← load_global "ConcatBatcher"; call c [device]
  else mret VNone.

(** [SemanticSegmentation.load_ckpt] with [is_resume=True]. *)
Definition load_ckpt (ckpt_path : value) : M unit :=
  join ← load_global "join";
  cfg ← getattr VSelf "cfg";
  logs_dir ← getattr cfg "logs_dir";
  train_ckpt_dir ← call join [logs_dir; VStr "checkpoint"];
  make_dir ← load_global "make_dir";
  _ ← call make_dir [train_ckpt_dir];
  path ←
    (if is_none ckpt_path then
       f ← load_global "latest_torch_ckpt";
       p ← call f [train_ckpt_dir];
       if negb (is_none p) then
         _ ← log_info "ckpt_path not given. Restore from the latest ckpt";
         mret (Some p)
       else
         _ ← log_info "Initializing from scratch.";
         mret None
     else mret (Some ckpt_path));
  match path with
  | None => mret tt
  | Some ckpt_path =>
      exists_ ← load_global "exists";
      found ← call exists_ [ckpt_path];
      if negb (truthy found) then
        _ ← load_global "FileNotFoundError";
        raise (OtherError "FileNotFoundError")
      else
        _ ← log_info "Loading checkpoint";
        torch ← load_global "torch";
        load ← getattr torch "load";
        device ← getattr VSelf "device";
        ckpt ← call load [ckpt_path; device];
        model ← getattr VSelf "model";
        f ← getattr model "load_state_dict";
        sd ← getitem ckpt (VStr "model_state_dict");
        _ ← call f [sd];
        has ← (c ← getattr ckpt "__contains__";
               call c [VStr "optimizer_state_dict"]);
        optimizer ← hasattr_self "optimizer";
        _ ← match optimizer with
            | Some optimizer =>
                if truthy has then
                  _ ← log_info "Loading checkpoint optimizer_state_dict";
                  f ← getattr optimizer "load_state_dict";
                  sd ← getitem ckpt (VStr "optimizer_state_dict");
                  _ ← call f [sd];
                  mret tt
                else mret tt
            | None => mret tt
            end;
        has ← (c ← getattr ckpt "__contains__";
               call c [VStr "scheduler_state_dict"]);
        scheduler ← hasattr_self "scheduler";
        match scheduler with
        | Some scheduler =>
            if truthy has then
              _ ← log_info "Loading checkpoint scheduler_state_dict";
              f ← getattr scheduler "load_state_dict";
              sd ← getitem ckpt (VStr "scheduler_state_dict");
              _ ← call f [sd];
              mret tt
            else mret tt
        | None => mret tt
        end
  end.

(** The local variables bound by lines 161-179. *)
Record locals : Type := {
  model : value;
  dataset : value;
  device : value;
  cfg : value;
  metric : value;
  batcher : value;
  test_dataset : value;
  test_sampler : value;
}.

(** Lines 161-182: [run_test] up to the point where the call of line 180 has
    evaluated [TorchDataloader], [test_dataset], [model.preprocess] and
    [model.transform], and reads its next argument. *)
Definition run_test_setup : M (locals * list value) :=
  model ← getattr VSelf "model";
  dataset ← getattr VSelf "dataset";
  device ← getattr VSelf "device";
  cfg ← getattr VSelf "cfg";
  _ ← setattr model "device" device;
  f ← getattr model "to";
  _ ← call f [device];
  datetime ← load_global "datetime";
  f ← getattr datetime "now";
  now ← call f [];
  f ← getattr now "strftime";
  timestamp ← call f [VStr "%Y-%m-%d_%H:%M:%S"];
  c ← load_global "SemSegMetric";
  metric ← call c [VSelf; model; dataset; device];
  _ ← log_info_format "DEVICE : {}" (mret device);
  join ← load_global "join";
  logs_dir ← getattr cfg "logs_dir";
  add ← getattr (VStr "log_test_") "__add__";
  name ← call add [timestamp];
  add ← getattr name "__add__";
  name ← call add [VStr ".txt"];
  log_file_path ← call join [logs_dir; name];
  _ ← log_info_format "Logging in file : {}" (mret log_file_path);
  log ← load_global "log";
  addHandler ← getattr log "addHandler";
  logging ← load_global "logging";
  c ← getattr logging "FileHandler";
  handler ← call c [log_file_path];
  _ ← call addHandler [handler];
  batcher ← get_batcher device "test";
  f ← getattr dataset "get_split";
  test_dataset ← call f [VStr "test"];
  test_sampler ← getattr test_dataset "sampler";
  c ← load_global "TorchDataloader";
  preprocess ← getattr model "preprocess";
  transform ← getattr model "transform";
  mret ({| model := model; dataset := dataset; device := device; cfg := cfg;
           metric := metric; batcher := batcher;
           test_dataset := test_dataset; test_sampler := test_sampler |},
        [c; test_dataset; preprocess; transform]).

(** [cfg.get(key, True)] *)
Definition cfg_get_true (cfg : value) (key : string) : M value :=
  f ← getattr cfg "get"; call f [VStr key; VBool true].

(** Lines 203-216: the body of the test loop. *)
Definition run_test_body (fuel : nat) (l : locals) (datset_split idx : value)
  : M unit :=
  f ← getattr datset_split "get_attr";
  attr ← call f [idx];
  skip ← (c ← cfg_get_true (cfg l) "test_continue";
          if truthy c then
            f ← getattr (dataset l) "is_tested"; call f [attr]
          else mret c);
  if truthy skip then mret tt
  else
    f ← getattr datset_split "get_data";
    data ← call f [idx];
    results ← run_inference fuel data;
    predict_label ← getitem results (VStr "predict_labels");
    c ← cfg_get_true (cfg l) "test_compute_metric";
    _ ← (if truthy c then
           f ← getattr (metric l) "acc_np_label";
           label ← getitem data (VStr "label");
           acc ← call f [predict_label; label];
           f ← getattr (metric l) "iou_np_label";
           label ← getitem data (VStr "label");
           iou ← call f [predict_label; label];
           accs ← getattr VSelf "test_accs";
           f ← getattr accs "append";
           _ ← call f [acc];
           ious ← getattr VSelf "test_ious";
           f ← getattr ious "append";
           _ ← call f [iou];
           mret tt
         else mret tt);
    f ← getattr (dataset l) "save_test_result";
    _ ← call f [results; attr];
    mret tt.

(** Lines 218-222. *)
Definition log_nanmean (fmt attr : string) : M unit :=
  log_info_format fmt
    (np ← load_global "np";
     nanmean ← getattr np "nanmean";
     np ← load_global "np";
     array ← getattr np "array";
     xs ← getattr VSelf attr;
     a ← call array [xs];
     col ← getitem a (VInt (-1));
     call nanmean [col]).

(** [SemanticSegmentation.run_test]. *)
Definition run_test (fuel : nat) : M unit :=
  '(l, args) ← run_test_setup;
  sampler ← load_global "train_sampler";
  dcfg ← getattr (dataset l) "cfg";
  use_cache ← getattr dcfg "use_cache";
  dcfg ← getattr (dataset l) "cfg";
  get ← getattr dcfg "get";
  steps ← call get [VStr "steps_per_epoch_train"; VNone];
  test_split ← call (default VNone (head args))
                    (tail args ++ [sampler; use_cache; steps]);
  c ← load_global "DataLoader";
  batch_size ← getattr (cfg l) "batch_size";
  get_sampler ← load_global "get_sampler";
  sampler ← load_global "train_sampler";
  sampler ← call get_sampler [sampler];
  b ← getattr VSelf "batcher";
  collate_fn ← getattr b "collate_fn";
  test_loader ← call c [test_split; batch_size; sampler; collate_fn];
  mcfg ← getattr (model l) "cfg";
  ckpt_path ← getattr mcfg "ckpt_path";
  _ ← load_ckpt ckpt_path;
  d ← getattr VSelf "dataset";
  f ← getattr d "get_split";
  datset_split ← call f [VStr "test"];
  _ ← log_info "Started testing";
  _ ← setattr VSelf "test_accs" (VList []);
  _ ← setattr VSelf "test_ious" (VList []);
  _ ← no_grad
        (tqdm ← load_global "tqdm";
         _ ← load_global "range";
         len ← load_global "len";
         n ← call len [test_split];
         match n with
         | VInt n =>
             _ ← call tqdm [VList (VInt <$> py_range (Z.to_nat n)); VStr "test"];
             for_each (run_test_body fuel l datset_split)
                      (VInt <$> py_range (Z.to_nat n))
         | _ => raise TypeError
         end);
  c ← cfg_get_true (cfg l) "test_compute_metric";
  if truthy c then
    _ ← log_nanmean "test acc: {}" "test_accs";
    log_nanmean "test iou: {}" "test_ious"
  else mret tt.

(** *** The other methods of the pipeline

    The conventions are those of [run_test]: arguments are passed in source
    order, a binary operator is the method of its left operand, and an
    f-string is represented by its template after the attributes it reads
    have been read.  Integers are compared and added as Python does it;
    every other operand is code outside the sources, and so are the methods
    of a list, whose elements the run does not follow. *)

(** Numbers as Python computes with them: a [bool] is an [int]. *)
Definition as_int (v : value) : option Z :=
  match v with
  | VInt n => Some n
  | VBool b => Some (if b then 1 else 0)
  | _ => None
  end.

(** [a op b] for an operator [None] does not have. *)
Definition binop (method : string) (a b : value) : M value :=
  match a with
  | VNone => raise TypeError
  | _ => f ← getattr a method; call f [b]
  end.

(** [a == b], [a != b] *)
Definition py_eq (a b : value) : M value :=
  match as_int a, as_int b with
  | Some x, Some y => mret (VBool (x =? y))
  | _, _ =>
      match a with
      | VNone =>
          match b with
          | VNone => mret (VBool true)
          | VObj _ | VSelf => f ← getattr b "__eq__"; call f [a]
          | _ => mret (VBool false)
          end
      | _ => f ← getattr a "__eq__"; call f [b]
      end
  end.

Definition py_ne (a b : value) : M value :=
  match as_int a, as_int b with
  | Some x, Some y => mret (VBool (negb (x =? y)))
  | _, _ =>
      match a with
      | VNone =>
          match b with
          | VNone => mret (VBool false)
          | VObj _ | VSelf => f ← getattr b "__ne__"; call f [a]
          | _ => mret (VBool true)
          end
      | _ => f ← getattr a "__ne__"; call f [b]
      end
  end.

(** [a + b], [a - b], [a % b] *)
Definition py_add (a b : value) : M value :=
  match as_int a, as_int b with
  | Some x, Some y => mret (VInt (x + y))
  | _, _ => binop "__add__" a b
  end.

Definition py_sub (a b : value) : M value :=
  match as_int a, as_int b with
  | Some x, Some y => mret (VInt (x - y))
  | _, _ => binop "__sub__" a b
  end.

Definition py_mod (a b : value) : M value :=
  match as_int a, as_int b with
  | Some x, Some y =>
      if y =? 0 then raise (OtherError "ZeroDivisionError")
      else mret (VInt (x mod y))
  | _, _ => binop "__mod__" a b
  end.

(** [o[k]] and [o[k] = v]; [None] has neither. *)
Definition subscript (o k : value) : M value :=
  match o with
  | VNone => raise TypeError
  | _ => getitem o k
  end.

Definition store_subscript (o k v : value) : M unit :=
  match o with
  | VNone => raise TypeError
  | _ => f ← getattr o "__setitem__"; _ ← call f [k; v]; mret tt
  end.

(** The iterator protocol.  [next_] answers [None] when the iterator is
    exhausted. *)
Definition is_stop (e : exn) : bool :=
  match e with
  | OtherError cls => String.eqb cls "StopIteration"
  | _ => false
  end.

Definition iter_ (v : value) : M value :=
  match v with
  | VNone => raise TypeError
  | _ => f ← getattr v "__iter__"; call f []
  end.

Definition next_ (it : value) : M (option value) := fun s =>
  match (f ← getattr it "__next__"; call f []) s with
  | (Done v, s') => (Done (Some v), s')
  | (Throw e, s') => if is_stop e then (Done None, s') else (Throw e, s')
  | (Diverges, s') => (Diverges, s')
  end.

(** [for x in it: body]; an iterator need not end. *)
Fixpoint for_iter (fuel : nat) (it : value) (body : value -> M unit)
  : M unit :=
  match fuel with
  | O => fun s => (Diverges, s)
  | S fuel' =>
      x ← next_ it;
      match x with
      | None => mret tt
      | Some v => _ ← body v; for_iter fuel' it body
      end
  end.

(** [[t for t in it]] *)
Fixpoint collect (fuel : nat) (it : value) (acc : list value)
  : M (list value) :=
  match fuel with
  | O => fun s => (Diverges, s)
  | S fuel' =>
      x ← next_ it;
      match x with
      | None => mret acc
      | Some v => collect fuel' it (acc ++ [v])
      end
  end.

(** [x1, ..., xn = v] *)
Fixpoint take_next (n : nat) (it : value) : M (list value) :=
  match n with
  | O => mret []
  | S n' =>
      x ← next_ it;
      match x with
      | None => raise (OtherError "ValueError")
      | Some v => xs ← take_next n' it; mret (v :: xs)
      end
  end.

Definition unpack (n : nat) (v : value) : M (list value) :=
  it ← iter_ v;
  xs ← take_next n it;
  x ← next_ it;
  match x with
  | None => mret xs
  | Some _ => raise (OtherError "ValueError")
  end.

(** The float literal [0.5]; the model does not compute with floats. *)
Definition half : value := VObj "0.5".

(** [np.zeros(shape=shape, dtype=np.<dtype>)] *)
Definition np_zeros (shape : M value) (dtype : string) : M value :=
  np ← load_global "np";
  zeros ← getattr np "zeros";
  shape ← shape;
  np ← load_global "np";
  dtype ← getattr np dtype;
  call zeros [shape; dtype].

(** [this_possiblility[this_possiblility > 0.5].shape[0]] *)
Definition count_visited (this_possiblility : value) : M value :=
  mask ← binop "__gt__" this_possiblility half;
  visited ← subscript this_possiblility mask;
  shape ← getattr visited "shape";
  subscript shape (VInt 0).

(** [self.<buffers>[self.curr_cloud_id]] *)
Definition current_buffer (buffers : string) : M value :=
  bs ← getattr VSelf buffers;
  cur ← getattr VSelf "curr_cloud_id";
  subscript bs cur.

Definition store_current_buffer (buffers : string) (v : value) : M unit :=
  bs ← getattr VSelf buffers;
  cur ← getattr VSelf "curr_cloud_id";
  store_subscript bs cur v.

(** [SemanticSegmentation.update_tests]. *)
Definition update_tests (sampler inputs results : value) : M unit :=
  cur ← getattr VSelf "curr_cloud_id";
  cloud_id ← getattr sampler "cloud_id";
  changed ← py_ne cur cloud_id;
  if truthy changed then
    cloud_id ← getattr sampler "cloud_id";
    _ ← setattr VSelf "curr_cloud_id" cloud_id;
    possibilities ← getattr sampler "possibilities";
    cloud_id ← getattr sampler "cloud_id";
    p ← subscript possibilities cloud_id;
    shape ← getattr p "shape";
    num_points ← subscript shape (VInt 0);
    tqdm ← load_global "tqdm";
    format ← getattr (VStr "validation {}/{}") "format";
    cur ← getattr VSelf "curr_cloud_id";
    len ← load_global "len";
    dataset ← getattr sampler "dataset";
    n ← call len [dataset];
    desc ← call format [cur; n];
    pbar ← call tqdm [num_points; desc];
    _ ← setattr VSelf "pbar" pbar;
    _ ← setattr VSelf "pbar_update" (VInt 0);
    test_probs ← getattr VSelf "test_probs";
    append ← getattr test_probs "append";
    z ← np_zeros (model ← getattr VSelf "model";
                  cfg ← getattr model "cfg";
                  num_classes ← getattr cfg "num_classes";
                  mret (VList [num_points; num_classes])) "float16";
    _ ← call append [z];
    test_labels ← getattr VSelf "test_labels";
    append ← getattr test_labels "append";
    z ← np_zeros (mret (VList [num_points])) "int16";
    _ ← call append [z];
    mret tt
  else
    possibilities ← getattr sampler "possibilities";
    cloud_id ← getattr sampler "cloud_id";
    this_possiblility ← subscript possibilities cloud_id;
    pbar ← getattr VSelf "pbar";
    update ← getattr pbar "update";
    visited ← count_visited this_possiblility;
    pbar_update ← getattr VSelf "pbar_update";
    delta ← py_sub visited pbar_update;
    _ ← call update [delta];
    visited ← count_visited this_possiblility;
    _ ← setattr VSelf "pbar_update" visited;
    model ← getattr VSelf "model";
    update_probs ← getattr model "update_probs";
    probs ← current_buffer "test_probs";
    labels ← current_buffer "test_labels";
    r ← call update_probs [inputs; results; probs; labels];
    xs ← unpack 2 r;
    _ ← store_current_buffer "test_probs" (default VNone (xs !! 0%nat));
    store_current_buffer "test_labels" (default VNone (xs !! 1%nat)).

(** Lines 282-283: [np.concatenate([t for t in self.<buffers>], axis=0)] *)
Definition concatenate_buffers (fuel : nat) (buffers : string) : M value :=
  np ← load_global "np";
  concatenate ← getattr np "concatenate";
  bs ← getattr VSelf buffers;
  it ← iter_ bs;
  ts ← collect fuel it [];
  call concatenate [VList ts; VInt 0].

(** Lines 272-280: the body of the validation loop. *)
Definition run_valid_body (model Loss device valid_sampler item : value)
  : M unit :=
  xs ← unpack 2 item;
  let inputs := default VNone (xs !! 1%nat) in
  data ← subscript inputs (VStr "data");
  results ← call model [data];
  get_loss ← getattr model "get_loss";
  r ← call get_loss [Loss; results; inputs; device];
  ys ← unpack 3 r;
  let predict_scores := default VNone (ys !! 2%nat) in
  size ← getattr predict_scores "size";
  sz ← call size [];
  last ← subscript sz (VInt (-1));
  empty ← py_eq last (VInt 0);
  if truthy empty then mret tt
  else update_tests valid_sampler inputs results.

(** [X(self, model, dataset, device)] for [SemSegLoss] and [SemSegMetric] *)
Definition construct (cls : string) (model dataset device : value)
  : M value :=
  c ← load_global cls; call c [VSelf; model; dataset; device].

(** [log.addHandler(logging.FileHandler(join(cfg.logs_dir,
    prefix + timestamp + '.txt')))] with its two messages. *)
Definition log_to_file (cfg timestamp : value) (prefix : string) : M unit :=
  join ← load_global "join";
  logs_dir ← getattr cfg "logs_dir";
  add ← getattr (VStr prefix) "__add__";
  name ← call add [timestamp];
  add ← getattr name "__add__";
  name ← call add [VStr ".txt"];
  log_file_path ← call join [logs_dir; name];
  _ ← log_info_format "Logging in file : {}" (mret log_file_path);
  log ← load_global "log";
  addHandler ← getattr log "addHandler";
  logging ← load_global "logging";
  c ← getattr logging "FileHandler";
  handler ← call c [log_file_path];
  _ ← call addHandler [handler];
  mret tt.

(** [datetime.now().strftime('%Y-%m-%d_%H:%M:%S')] *)
Definition timestamp_now : M value :=
  datetime ← load_global "datetime";
  f ← getattr datetime "now";
  now ← call f [];
  f ← getattr now "strftime";
  call f [VStr "%Y-%m-%d_%H:%M:%S"].

(** [TorchDataloader(dataset=split, preprocess=model.preprocess,
    transform=model.transform, sampler=sampler,
    use_cache=dataset.cfg.use_cache, ...)]; [steps], when given, is the key
    of [steps_per_epoch=dataset.cfg.get(key, None)]. *)
Definition torch_dataloader (model dataset split sampler : value)
    (steps : option string) : M value :=
  c ← load_global "TorchDataloader";
  preprocess ← getattr model "preprocess";
  transform ← getattr model "transform";
  dcfg ← getattr dataset "cfg";
  use_cache ← getattr dcfg "use_cache";
  match steps with
  | Some key =>
      dcfg ← getattr dataset "cfg";
      get ← getattr dcfg "get";
      n ← call get [VStr key; VNone];
      call c [split; preprocess; transform; sampler; use_cache; n]
  | None => call c [split; preprocess; transform; sampler; use_cache]
  end.

(** [DataLoader(split, batch_size=cfg.<batch_size>,
    sampler=get_sampler(sampler), collate_fn=self.batcher.collate_fn)] *)
Definition data_loader (cfg split sampler : value) (batch_size : string)
  : M value :=
  c ← load_global "DataLoader";
  batch_size ← getattr cfg batch_size;
  get_sampler ← load_global "get_sampler";
  sampler ← call get_sampler [sampler];
  b ← getattr VSelf "batcher";
  collate_fn ← getattr b "collate_fn";
  call c [split; batch_size; sampler; collate_fn].

(** The local variables [run_valid] binds in lines 230-246. *)
Record valid_locals : Type := {
  v_model : value;
  v_dataset : value;
  v_device : value;
  v_cfg : value;
  v_Loss : value;
  v_valid_dataset : value;
  v_valid_sampler : value;
}.

(** Lines 230-246: [run_valid] up to the sampler of the validation split. *)
Definition run_valid_setup : M valid_locals :=
  model ← getattr VSelf "model";
  dataset ← getattr VSelf "dataset";
  device ← getattr VSelf "device";
  cfg ← getattr VSelf "cfg";
  timestamp ← timestamp_now;
  Loss ← construct "SemSegLoss" model dataset device;
  metric ← construct "SemSegMetric" model dataset device;
  _ ← log_info_format "DEVICE : {}" (mret device);
  _ ← log_to_file cfg timestamp "log_valid_";
  batcher ← get_batcher device "training";
  f ← getattr dataset "get_split";
  valid_dataset ← call f [VStr "validation"];
  valid_sampler ← getattr valid_dataset "sampler";
  mret {| v_model := model; v_dataset := dataset; v_device := device;
          v_cfg := cfg; v_Loss := Loss; v_valid_dataset := valid_dataset;
          v_valid_sampler := valid_sampler |}.

(** [SemanticSegmentation.run_valid]. *)
Definition run_valid (fuel : nat) : M unit :=
  l ← run_valid_setup;
  valid_split ← torch_dataloader (v_model l) (v_dataset l)
                  (v_valid_dataset l) (v_valid_sampler l) None;
  valid_loader ← data_loader (v_cfg l) valid_split (v_valid_sampler l)
                   "batch_size";
  d ← getattr VSelf "dataset";
  f ← getattr d "get_split";
  datset_split ← call f [VStr "validation"];
  _ ← log_info "Started validation";
  _ ← setattr VSelf "valid_losses" (VList []);
  _ ← setattr VSelf "valid_accs" (VList []);
  _ ← setattr VSelf "valid_ious" (VList []);
  f ← getattr (v_valid_sampler l) "get_point_sampler";
  ps ← call f [];
  _ ← setattr (v_model l) "trans_point_sampler" ps;
  _ ← setattr VSelf "curr_cloud_id" (VInt (-1));
  _ ← setattr VSelf "test_probs" (VList []);
  _ ← setattr VSelf "test_labels" (VList []);
  _ ← no_grad
        (enumerate ← load_global "enumerate";
         e ← call enumerate [valid_loader];
         it ← iter_ e;
         for_iter fuel it
           (run_valid_body (v_model l) (v_Loss l) (v_device l)
              (v_valid_sampler l)));
  test_probs ← concatenate_buffers fuel "test_probs";
  test_labels ← concatenate_buffers fuel "test_labels";
  confusion_matrix ← load_global "confusion_matrix";
  np ← load_global "np";
  argmax ← getattr np "argmax";
  pred ← call argmax [test_probs; VInt 1];
  conf_matrix ← call confusion_matrix [test_labels; pred];
  dp ← load_global "DataProcessing";
  f ← getattr dp "IoU_from_confusions";
  IoUs ← call f [conf_matrix];
  dp ← load_global "DataProcessing";
  f ← getattr dp "Acc_from_confusions";
  Accs ← call f [conf_matrix];
  mret tt.

(** [SemanticSegmentation.load_ckpt] with both arguments; [load_ckpt] above
    is the call with [is_resume=True]. *)
Definition load_ckpt_with (ckpt_path is_resume : value) : M unit :=
  join ← load_global "join";
  cfg ← getattr VSelf "cfg";
  logs_dir ← getattr cfg "logs_dir";
  train_ckpt_dir ← call join [logs_dir; VStr "checkpoint"];
  make_dir ← load_global "make_dir";
  _ ← call make_dir [train_ckpt_dir];
  path ←
    (if is_none ckpt_path then
       f ← load_global "latest_torch_ckpt";
       p ← call f [train_ckpt_dir];
       if negb (is_none p) then
         if truthy is_resume then
           _ ← log_info "ckpt_path not given. Restore from the latest ckpt";
           mret (Some p)
         else
           _ ← log_info "Initializing from scratch.";
           mret None
       else
         _ ← log_info "Initializing from scratch.";
         mret None
     else mret (Some ckpt_path));
  match path with
  | None => mret tt
  | Some ckpt_path =>
      exists_ ← load_global "exists";
      found ← call exists_ [ckpt_path];
      if negb (truthy found) then
        _ ← load_global "FileNotFoundError";
        raise (OtherError "FileNotFoundError")
      else
        _ ← log_info "Loading checkpoint";
        torch ← load_global "torch";
        load ← getattr torch "load";
        device ← getattr VSelf "device";
        ckpt ← call load [ckpt_path; device];
        model ← getattr VSelf "model";
        f ← getattr model "load_state_dict";
        sd ← getitem ckpt (VStr "model_state_dict");
        _ ← call f [sd];
        has ← (c ← getattr ckpt "__contains__";
               call c [VStr "optimizer_state_dict"]);
        optimizer ← hasattr_self "optimizer";
        _ ← match optimizer with
            | Some optimizer =>
                if truthy has then
                  _ ← log_info "Loading checkpoint optimizer_state_dict";
                  f ← getattr optimizer "load_state_dict";
                  sd ← getitem ckpt (VStr "optimizer_state_dict");
                  _ ← call f [sd];
                  mret tt
                else mret tt
            | None => mret tt
            end;
        has ← (c ← getattr ckpt "__contains__";
               call c [VStr "scheduler_state_dict"]);
        scheduler ← hasattr_self "scheduler";
        match scheduler with
        | Some scheduler =>
            if truthy has then
              _ ← log_info "Loading checkpoint scheduler_state_dict";
              f ← getattr scheduler "load_state_dict";
              sd ← getitem ckpt (VStr "scheduler_state_dict");
              _ ← call f [sd];
              mret tt
            else mret tt
        | None => mret tt
        end
  end.

(** A builtin the module does not shadow. *)
Definition load_builtin (name : string) : M value := mret (VObj name).

(** [SemanticSegmentation.save_ckpt]. *)
Definition save_ckpt (epoch : value) : M unit :=
  join ← load_global "join";
  cfg ← getattr VSelf "cfg";
  logs_dir ← getattr cfg "logs_dir";
  path_ckpt ← call join [logs_dir; VStr "checkpoint"];
  make_dir ← load_global "make_dir";
  _ ← call make_dir [path_ckpt];
  torch ← load_global "torch";
  save ← getattr torch "save";
  dict ← load_builtin "dict";
  model ← getattr VSelf "model";
  f ← getattr model "state_dict";
  model_state_dict ← call f [];
  optimizer ← getattr VSelf "optimizer";
  f ← getattr optimizer "state_dict";
  optimizer_state_dict ← call f [];
  scheduler ← getattr VSelf "scheduler";
  f ← getattr scheduler "state_dict";
  scheduler_state_dict ← call f [];
  d ← call dict [epoch; model_state_dict; optimizer_state_dict;
                 scheduler_state_dict];
  join ← load_global "join";
  path ← call join [path_ckpt; VStr "ckpt_{epoch:05d}.pth"];
  _ ← call save [d; path];
  log_info "Epoch {epoch:3d}: save ckpt to {path_ckpt:s}".

(** [writer.add_text(tag, self.cfg_tb[key], 0)], through [code2md] for the
    configurations. *)
Definition add_text (writer : value) (tag key : string) (md : bool)
  : M unit :=
  add_text ← getattr writer "add_text";
  code2md ← (if md then c ← load_global "code2md"; mret (Some c)
             else mret None);
  cfg_tb ← getattr VSelf "cfg_tb";
  text ← subscript cfg_tb (VStr key);
  text ← match code2md with
         | Some c => call c [text; VStr "json"]
         | None => mret text
         end;
  _ ← call add_text [VStr tag; text; VInt 0];
  mret tt.

(** [SemanticSegmentation.save_config]. *)
Definition save_config (writer : value) : M unit :=
  _ ← add_text writer "Description/Open3D-ML" "readme" false;
  _ ← add_text writer "Description/Command line" "cmd_line" false;
  _ ← add_text writer "Configuration/Dataset" "dataset" true;
  _ ← add_text writer "Configuration/Model" "model" true;
  add_text writer "Configuration/Pipeline" "pipeline" true.

(** [model.trans_point_sampler = sampler.get_point_sampler()] *)
Definition set_point_sampler (model sampler : value) : M unit :=
  f ← getattr sampler "get_point_sampler";
  ps ← call f [];
  setattr model "trans_point_sampler" ps.

(** Lines 393-435: one epoch.  The training steps are commented out in the
    source; what is left switches the model between its modes, validates
    and saves. *)
Definition run_train_epoch (fuel : nat) (model cfg train_sampler
    valid_sampler epoch : value) : M unit :=
  log ← load_global "log";
  info ← getattr log "info";
  max_epoch ← getattr cfg "max_epoch";
  _ ← call info [VStr "=== EPOCH {epoch:d}/{cfg.max_epoch:d} ==="];
  f ← getattr model "train";
  _ ← call f [];
  _ ← setattr VSelf "losses" (VList []);
  _ ← setattr VSelf "accs" (VList []);
  _ ← setattr VSelf "ious" (VList []);
  _ ← set_point_sampler model train_sampler;
  f ← getattr model "eval";
  _ ← call f [];
  _ ← set_point_sampler model valid_sampler;
  _ ← run_valid fuel;
  freq ← getattr cfg "save_ckpt_freq";
  r ← py_mod epoch freq;
  due ← py_eq r (VInt 0);
  if truthy due then save_ckpt epoch else mret tt.

(** [for epoch in range(0, stop)] *)
Definition for_range (fuel : nat) (stop : M value) (body : value -> M unit)
  : M unit :=
  range ← load_global "range";
  stop ← stop;
  match as_int stop with
  | Some n => for_each body (VInt <$> py_range3 0 n 1)
  | None =>
      r ← call range [VInt 0; stop];
      it ← iter_ r;
      for_iter fuel it body
  end.

(** [SemanticSegmentation.run_train]. *)
Definition run_train (fuel : nat) : M unit :=
  model ← getattr VSelf "model";
  device ← getattr VSelf "device";
  _ ← setattr model "device" device;
  dataset ← getattr VSelf "dataset";
  cfg ← getattr VSelf "cfg";
  f ← getattr model "to";
  _ ← call f [device];
  _ ← log_info_format "DEVICE : {}" (mret device);
  timestamp ← timestamp_now;
  _ ← log_to_file cfg timestamp "log_train_";
  Loss ← construct "SemSegLoss" model dataset device;
  metric ← construct "SemSegMetric" model dataset device;
  batcher ← get_batcher device "training";
  _ ← setattr VSelf "batcher" batcher;
  f ← getattr dataset "get_split";
  train_dataset ← call f [VStr "training"];
  train_sampler ← getattr train_dataset "sampler";
  train_split ← torch_dataloader model dataset train_dataset train_sampler
                  (Some "steps_per_epoch_train");
  train_loader ← data_loader cfg train_split train_sampler "batch_size";
  f ← getattr dataset "get_split";
  valid_dataset ← call f [VStr "validation"];
  valid_sampler ← getattr valid_dataset "sampler";
  valid_split ← torch_dataloader model dataset valid_dataset valid_sampler
                  (Some "steps_per_epoch_valid");
  valid_loader ← data_loader cfg valid_split valid_sampler "val_batch_size";
  f ← getattr model "get_optimizer";
  r ← call f [cfg];
  xs ← unpack 2 r;
  _ ← setattr VSelf "optimizer" (default VNone (xs !! 0%nat));
  _ ← setattr VSelf "scheduler" (default VNone (xs !! 1%nat));
  mcfg ← getattr model "cfg";
  get ← getattr mcfg "get";
  is_resume ← call get [VStr "is_resume"; VBool true];
  mcfg ← getattr model "cfg";
  ckpt_path ← getattr mcfg "ckpt_path";
  _ ← load_ckpt_with ckpt_path is_resume;
  dataset_name ← (if negb (is_none dataset) then getattr dataset "name"
                  else mret (VStr ""));
  join ← load_global "join";
  scfg ← getattr VSelf "cfg";
  train_sum_dir ← getattr scfg "train_sum_dir";
  cls ← getattr model "__class__";
  name ← getattr cls "__name__";
  name ← binop "__add__" name (VStr "_");
  name ← binop "__add__" name dataset_name;
  name ← binop "__add__" name (VStr "_torch");
  tensorboard_dir ← call join [train_sum_dir; name];
  get_runid ← load_global "get_runid";
  runid ← call get_runid [tensorboard_dir];
  join ← load_global "join";
  scfg ← getattr VSelf "cfg";
  train_sum_dir ← getattr scfg "train_sum_dir";
  name ← binop "__add__" runid (VStr "_");
  path ← load_global "Path";
  p ← call path [tensorboard_dir];
  base ← getattr p "name";
  name ← binop "__add__" name base;
  dir ← call join [train_sum_dir; name];
  _ ← setattr VSelf "tensorboard_dir" dir;
  c ← load_global "SummaryWriter";
  d ← getattr VSelf "tensorboard_dir";
  writer ← call c [d];
  _ ← save_config writer;
  _ ← log_info_format "Writing summary in {}."
        (getattr VSelf "tensorboard_dir");
  _ ← log_info "Started training";
  for_range fuel
    (max_epoch ← getattr cfg "max_epoch"; py_add max_epoch (VInt 1))
    (run_train_epoch fuel model cfg train_sampler valid_sampler).

End Run.

(** The events of a run that belong to a processed test example: fetching
    its data, running the model on it, saving its result. *)
Definition example_event (e : event) : bool :=
  match e with
  | EGetattr _ name =>
      existsb (String.eqb name)
        ["get_attr"; "get_data"; "inference_begin"; "save_test_result";
         "acc_np_label"; "iou_np_label"]
  | _ => false
  end.

End Pipeline.
(** ** Reference functions *)

(** The objects the loops of the constructors are written to build, without
    the loops. *)
Module Ref.
Import Pointnet.

Definition mk_grouper (npoint : option Z) (use_xyz : bool) (radius : Q)
    (nsample : Z) : grouper :=
  match npoint with
  | Some _ => QueryAndGroup radius nsample use_xyz
  | None => GroupAll use_xyz
  end.

(** The stage [self] with another pooling method. *)
Definition with_pool_method (pm : string) (self : Pointnet.SAModule)
  : Pointnet.SAModule :=
  {| Pointnet.npoint := Pointnet.npoint self; groupers := groupers self;
     mlps := mlps self; pool_method := pm |}.

(** The stage without scales, the only one
    [PointnetSAModuleMSG.__init__] returns. *)
Definition bare_stage (npoint : option Z) (pm : string) : Pointnet.SAModule :=
  {| Pointnet.npoint := npoint; groupers := []; mlps := [];
     pool_method := pm |}.

End Ref.

(** Shapes of the tensors a stage receives. *)
Section Shapes.
Context {T : TensorLib}.

(** The feature tensor of a depth with [n] points and width [c]; a point
    cloud without extra columns has none, and then the width is 0. *)
Definition feat_ok (b c n : Z) (features : option tensor) : Prop :=
  match features with
  | Some f => size f = [b; c; n]
  | None => c = 0
  end.

Definition xyz_ok (b n : Z) (xyz : option tensor) : Prop :=
  exists x, xyz = Some x /\ size x = [b; n; 3].

(** The centres a stage works with, and how many there are. *)
Definition centres_ok (b : Z) (npoint : option Z) (c : option tensor) : Prop :=
  match npoint with
  | Some m => xyz_ok b m c
  | None => c = None
  end.

End Shapes.

Definition centres (npoint : option Z) : Z := default 1 npoint.

(** [mlps[k][-1]], the final width of a transform. *)
Definition final_width (m : list Z) : Z := List.last m 0.

(** Stage objects as [_PointnetSAModuleBase.forward] takes them: one grouper
    and one transform per scale.  [forward] is a method of the base class
    and is stated for any such object. *)
Module Model.
Import Pointnet Ref.

Definition out_width (m : list (list Z)) : Z := sumZ (final_width <$> m).

Definition mk_stage (u : bool) (np : option Z) (radii : list Q) (ns : list Z)
    (c : Z) (m : list (list Z)) (pm : string) : SAModule :=
  {| npoint := np; groupers := zip_with (mk_grouper np u) radii ns;
     mlps := (fun s => (c + xyz_width u) :: s) <$> m; pool_method := pm |}.

Definition nonempty {A} (l : list A) : bool :=
  match l with [] => false | _ => true end.

(** A stage whose three lists agree in length, with at least one scale,
    positive capacities and at least one width per transform. *)
Definition stage_ok (radii : list Q) (ns : list Z) (m : list (list Z))
  : bool :=
  (length radii =? length ns)%nat && (length ns =? length m)%nat
  && nonempty m && forallb (fun k => 0 <? k) ns && forallb nonempty m.

End Model.

(** ** Concrete configurations *)

Module Examples.
Import Pointnet.

(** Three stages of one scale each, for a point cloud of 16 points with 4
    extra columns. *)
Definition partial_cfg : SA_config :=
  {| SA_npoints := [Some 8; Some 4; Some 2];
     SA_radius := [[0.1%Q]; [0.5%Q]; [1%Q]];
     SA_nsample := [[4]; [4]; [4]];
     SA_mlps := [[[8]]; [[4]]; [[16]]] |}.

(** 1024 points, three multiscale stages with targets 512, 128 and 1. *)
Definition full_cfg : SA_config :=
  {| SA_npoints := [Some 512; Some 128; Some 1];
     SA_radius := [[0.1%Q; 0.5%Q]; [0.5%Q; 1%Q]; [1%Q; 2%Q]];
     SA_nsample := [[16; 32]; [16; 32]; [16; 32]];
     SA_mlps := [[[16; 16; 32]; [32; 32; 64]];
                 [[64; 64; 128]; [64; 96; 128]];
                 [[128; 196; 256]; [128; 196; 256]]] |}.

Definition full_fp_mlps : list (list Z) := [[128; 128]; [256; 256]; [512; 512]].

(** The first stage has no scale; the second stage has two radii and one
    capacity. *)
Definition mismatched_cfg : SA_config :=
  {| SA_npoints := [Some 8; Some 4];
     SA_radius := [[]; [0.5%Q; 1%Q]];
     SA_nsample := [[]; [4]];
     SA_mlps := [[]; [[4]; [4]]] |}.

(** Three stages without scales. *)
Definition bare_cfg : SA_config :=
  {| SA_npoints := [Some 8; Some 4; None];
     SA_radius := [[]; []; []];
     SA_nsample := [[]; []; []];
     SA_mlps := [[]; []; []] |}.

End Examples.

(** *** What a run leaves behind *)

Module Trace.
Import Pipeline.

(** [s'] extends [s] by events none of which belongs to a processed test
    example, and the two agree on every attribute of the pipeline object
    but [device]. *)
Definition inert (s s' : state) : Prop :=
  (exists evs, trace s' = trace s ++ evs
               /\ forallb (fun e => negb (example_event e)) evs = true)
  /\ forall name, name <> "device" -> attrs s' !! name = attrs s !! name.

(** A computation that ends and leaves every state inert. *)
Definition quiet {A} (m : M A) : Prop :=
  forall s, (m s).1 <> Diverges /\ inert s (m s).2.

(** How [run_test] ends, given how its setup ended. *)
Definition after_setup {A} (r : outcome A) : outcome unit :=
  match r with
  | Done _ => Throw (NameError "train_sampler")
  | Throw e => Throw e
  | Diverges => Diverges
  end.

(** A world in which every attribute is there and every call returns. *)
Definition obliging : world :=
  {| ext_getattr := fun _ _ name => Ok (VObj name);
     ext_call := fun _ _ _ => Ok (VObj "result") |}.

(** The pipeline object after [__init__] with the given [dataset]. *)
Definition fresh (dataset : value) : state :=
  {| attrs := list_to_map [("model", VObj "model"); ("dataset", dataset);
                           ("device", VObj "device"); ("cfg", VObj "cfg")];
     trace := [] |}.

End Trace.

(** *** What a method reads *)

Module Reads.
Import Pipeline.

(** The event reads an attribute with one of the [names]. *)
Definition reads (names : list string) (e : event) : bool :=
  match e with
  | EGetattr _ name => existsb (String.eqb name) names
  | _ => false
  end.

(** From [s] on the computation reads none of the [names]. *)
Definition clean (names : list string) {A} (m : M A) (s : state) : Prop :=
  exists evs, trace (m s).2 = trace s ++ evs
              /\ forallb (fun e => negb (reads names e)) evs = true.

(** The computation reads none of the [names]; a [strict] one moreover
    ends and assigns no attribute of the pipeline object. *)
Definition sound (names : list string) (strict : bool) {A} (m : M A)
  : Prop :=
  forall s, clean names m s
            /\ (strict = true ->
                (m s).1 <> Diverges /\ attrs (m s).2 = attrs s).

(** What the part of [run_train] that the source has commented out would
    read: the steps of the optimizer and of the scheduler, back-propagation,
    gradient clipping and the scalars of the summary. *)
Definition training_names : list string :=
  ["zero_grad"; "backward"; "step"; "clip_grad_value_"; "add_scalar"].

(** What [update_tests] reads to open the buffers of a cloud, and what it
    reads to accumulate into them. *)
Definition opening_names : list string := ["append"; "zeros"].
Definition accumulating_names : list string :=
  ["update_probs"; "__setitem__"].

(** What the validation loop reads. *)
Definition loop_names : list string :=
  ["__next__"; "get_loss"; "update_probs"; "concatenate"].

(** What restoring a checkpoint reads. *)
Definition restoring_names : list string := ["load"; "load_state_dict"].

(** On a pipeline object whose attributes satisfy [P] the computation ends
    with an exception, having assigned no attribute and read none of the
    [names]. *)
Definition throws (names : list string) (P : gmap string value -> Prop)
    {A} (m : M A) : Prop :=
  forall s, P (attrs s) ->
    (exists e, (m s).1 = Throw e) /\ attrs (m s).2 = attrs s
    /\ clean names m s.

(** A world in which no path exists. *)
Definition nothing_exists (w : world) : Prop :=
  forall tr args v,
    ext_call w tr (VObj "exists") args = Ok v -> truthy v = false.

Definition is_obj (name : string) (v : value) : bool :=
  match v with
  | VObj n => String.eqb n name
  | _ => false
  end.

(** Such a world: [exists] answers [False], every other call returns. *)
Definition no_files : world :=
  {| ext_getattr := fun _ _ name => Ok (VObj name);
     ext_call := fun _ f _ =>
       if is_obj "exists" f then Ok (VBool false) else Ok (VObj "result") |}.

End Reads.

(** * Properties *)

(** ** Python lists, ranges and loops *)

Section PyFacts.
Context {A : Type}.
Implicit Types (l : list A) (a : A).

Lemma bind_Ok {B C} (r : result B) (f : B -> result C) (c : C) :
  r ≫= f = Ok c -> exists b, r = Ok b /\ f b = Ok c.
Proof. destruct r as [b|e]; simpl; [eauto | discriminate]. Qed.

Lemma py_index_nat l (i : nat) a :
  l !! i = Some a -> py_index l (Z.of_nat i) = Ok a.
Proof.
  intros Hi. pose proof (lookup_lt_Some _ _ _ Hi) as Hlt.
  unfold py_index, py_pos.
  destruct (Z.ltb_spec (Z.of_nat i) 0); [lia|].
  destruct (Z.leb_spec 0 (Z.of_nat i)); [|lia].
  destruct (Z.ltb_spec (Z.of_nat i) (Z.of_nat (length l))); [|lia].
  simpl. rewrite Nat2Z.id, Hi. reflexivity.
Qed.

Lemma py_index_neg l (k : nat) a :
  (0 < k <= length l)%nat -> l !! (length l - k)%nat = Some a ->
  py_index l (- Z.of_nat k) = Ok a.
Proof.
  intros Hk Hi. unfold py_index, py_pos.
  destruct (Z.ltb_spec (- Z.of_nat k) 0); [|lia].
  destruct (Z.leb_spec 0 (- Z.of_nat k + Z.of_nat (length l))); [|lia].
  destruct (Z.ltb_spec (- Z.of_nat k + Z.of_nat (length l))
                       (Z.of_nat (length l))); [|lia].
  simpl.
  replace (Z.to_nat (- Z.of_nat k + Z.of_nat (length l)))
    with (length l - k)%nat by lia.
  rewrite Hi. reflexivity.
Qed.

Lemma py_index_last l a : py_index (l ++ [a]) (-1) = Ok a.
Proof.
  apply (py_index_neg _ 1).
  - rewrite length_app. simpl. lia.
  - rewrite length_app. simpl.
    replace (length l + 1 - 1)%nat with (length l) by lia.
    apply list_lookup_middle. reflexivity.
Qed.

Lemma py_index_Ok l (i : Z) a :
  py_index l i = Ok a -> exists j : nat, l !! j = Some a.
Proof.
  unfold py_index. destruct (_ && _); [|discriminate].
  destruct (l !! _) eqn:E; [|discriminate].
  intros [= ->]. eauto.
Qed.

Lemma py_setitem_nat l (i : nat) a :
  (i < length l)%nat -> py_setitem l (Z.of_nat i) a = Ok (<[i := a]> l).
Proof.
  intros Hlt. unfold py_setitem, py_pos.
  destruct (Z.ltb_spec (Z.of_nat i) 0); [lia|].
  destruct (Z.leb_spec 0 (Z.of_nat i)); [|lia].
  destruct (Z.ltb_spec (Z.of_nat i) (Z.of_nat (length l))); [|lia].
  simpl. rewrite Nat2Z.id. reflexivity.
Qed.

Lemma py_setitem_neg l (k : nat) a :
  (0 < k <= length l)%nat ->
  py_setitem l (- Z.of_nat k) a = Ok (<[(length l - k)%nat := a]> l).
Proof.
  intros Hk. unfold py_setitem, py_pos.
  destruct (Z.ltb_spec (- Z.of_nat k) 0); [|lia].
  destruct (Z.leb_spec 0 (- Z.of_nat k + Z.of_nat (length l))); [|lia].
  destruct (Z.ltb_spec (- Z.of_nat k + Z.of_nat (length l))
                       (Z.of_nat (length l))); [|lia].
  simpl. f_equal. f_equal. lia.
Qed.

End PyFacts.

Lemma py_range_seq (n : nat) : py_range n = Z.of_nat <$> seq 0 n.
Proof.
  unfold py_range, py_range3. simpl.
  match goal with
  | |- context [Z.to_nat ?e] =>
      replace (Z.to_nat e) with n by (rewrite Z.div_1_r; lia)
  end.
  apply list_fmap_ext. intros _ k _. lia.
Qed.

Lemma py_range3_down (n : nat) :
  py_range3 (-1) (- (Z.of_nat n + 1)) (-1)
  = (fun k : nat => - Z.of_nat (S k)) <$> seq 0 n.
Proof.
  unfold py_range3. simpl.
  match goal with
  | |- context [Z.to_nat ?e] =>
      replace (Z.to_nat e) with n
        by (change (- (-1)) with 1; rewrite Z.div_1_r; lia)
  end.
  apply list_fmap_ext. intros _ k _. lia.
Qed.

Lemma for_in_app {St I} (body : St -> I -> result St) (l1 l2 : list I) (s : St) :
  for_in body (l1 ++ l2) s = for_in body l1 s ≫= for_in body l2.
Proof.
  revert s. induction l1 as [|i l1 IH]; intros s; simpl; [reflexivity|].
  destruct (body s i); simpl; [apply IH | reflexivity].
Qed.

(** The loop rule: an invariant indexed by the number of iterations done. *)
Lemma for_in_fmap_seq {St} (P : nat -> St -> Prop) (g : nat -> Z)
    (body : St -> Z -> result St) (n : nat) (s0 : St) :
  P 0%nat s0 ->
  (forall (k : nat) s, (k < n)%nat -> P k s ->
     exists s', body s (g k) = Ok s' /\ P (S k) s') ->
  exists s, for_in body (g <$> seq 0 n) s0 = Ok s /\ P n s.
Proof.
  intros H0 Hstep. induction n as [|n IH].
  - exists s0. split; [reflexivity | exact H0].
  - destruct IH as (s & Hs & HP).
    { intros k s Hk. apply Hstep. lia. }
    destruct (Hstep n s) as (s' & Hb & HP'); [lia | exact HP |].
    exists s'. split; [|exact HP'].
    rewrite seq_S, fmap_app, for_in_app, Hs. simpl. rewrite Hb. reflexivity.
Qed.

Lemma for_in_range {St} (P : nat -> St -> Prop) (body : St -> Z -> result St)
    (n : nat) (s0 : St) :
  P 0%nat s0 ->
  (forall (k : nat) s, (k < n)%nat -> P k s ->
     exists s', body s (Z.of_nat k) = Ok s' /\ P (S k) s') ->
  exists s, for_in body (py_range n) s0 = Ok s /\ P n s.
Proof. rewrite py_range_seq. apply for_in_fmap_seq. Qed.

Lemma for_in_range_down {St} (P : nat -> St -> Prop) (body : St -> Z -> result St)
    (n : nat) (s0 : St) :
  P 0%nat s0 ->
  (forall (k : nat) s, (k < n)%nat -> P k s ->
     exists s', body s (- Z.of_nat (S k)) = Ok s' /\ P (S k) s') ->
  exists s, for_in body (py_range3 (-1) (- (Z.of_nat n + 1)) (-1)) s0 = Ok s
            /\ P n s.
Proof. rewrite py_range3_down. apply for_in_fmap_seq. Qed.

Lemma for_in_range_raise {St} (body : St -> Z -> result St) (n : nat)
    (s : St) (e : exn) :
  (0 < n)%nat -> body s 0 = Raise e -> for_in body (py_range n) s = Raise e.
Proof.
  intros Hn Hb. rewrite py_range_seq. destruct n as [|n]; [lia|].
  simpl. change (Z.of_nat 0) with 0. rewrite Hb. reflexivity.
Qed.
(** ** Loops that may stop early *)

Section LoopFacts.

(** What a loop over [f 0, f 1, ...] has established when it returns. *)
Lemma for_in_seq_inv {St} (P : nat -> St -> Prop) (body : St -> Z -> result St)
    (f : nat -> Z) (n a : nat) (s s' : St) :
  P a s ->
  (forall k t t', (a <= k < a + n)%nat -> P k t -> body t (f k) = Ok t' ->
     P (S k) t') ->
  for_in body (f <$> seq a n) s = Ok s' -> P (a + n)%nat s'.
Proof.
  revert a s. induction n as [|n IH]; intros a s Ha Hstep Hrun.
  - simpl in Hrun. injection Hrun as <-. rewrite Nat.add_0_r. exact Ha.
  - simpl in Hrun. destruct (body s (f a)) as [t|e] eqn:Hb; [|discriminate].
    simpl in Hrun. replace (a + S n)%nat with (S a + n)%nat by lia.
    apply (IH (S a) t); [| |exact Hrun].
    + apply (Hstep a s t); [lia | exact Ha | exact Hb].
    + intros k u u' Hk. apply Hstep. lia.
Qed.

(** A loop one of whose iterations cannot succeed does not return. *)
Lemma for_in_seq_fails {St} (P : nat -> St -> Prop)
    (body : St -> Z -> result St) (f : nat -> Z) (n a stop : nat) (s : St) :
  P a s ->
  (forall k t t', (a <= k < stop)%nat -> P k t -> body t (f k) = Ok t' ->
     P (S k) t') ->
  (forall t, P stop t -> is_ok (body t (f stop)) = false) ->
  (a <= stop < a + n)%nat ->
  is_ok (for_in body (f <$> seq a n) s) = false.
Proof.
  revert a s. induction n as [|n IH]; intros a s Ha Hstep Hfail Hk; [lia|].
  simpl. destruct (body s (f a)) as [t|e] eqn:Hb; [|reflexivity]. simpl.
  destruct (decide (a = stop)) as [->|Hne].
  - specialize (Hfail s Ha). rewrite Hb in Hfail. discriminate.
  - apply (IH (S a) t); [| |exact Hfail|lia].
    + apply (Hstep a s t); [lia | exact Ha | exact Hb].
    + intros k u u' Hk'. apply Hstep. lia.
Qed.

(** The same with the exception: every iteration that fails raises [e]. *)
Lemma for_in_seq_raises {St} (P : nat -> St -> Prop)
    (body : St -> Z -> result St) (f : nat -> Z) (e : exn) (n a stop : nat)
    (s : St) :
  P a s ->
  (forall k t, (a <= k < stop)%nat -> P k t ->
     body t (f k) = Raise e \/ exists t', body t (f k) = Ok t' /\ P (S k) t') ->
  (forall t, P stop t -> body t (f stop) = Raise e) ->
  (a <= stop < a + n)%nat ->
  for_in body (f <$> seq a n) s = Raise e.
Proof.
  revert a s. induction n as [|n IH]; intros a s Ha Hstep Hfail Hk; [lia|].
  simpl. destruct (decide (a = stop)) as [->|Hne].
  - rewrite (Hfail s Ha). reflexivity.
  - destruct (Hstep a s ltac:(lia) Ha) as [->|(t & -> & Ht)]; [reflexivity|].
    simpl. apply (IH (S a) t); [exact Ht| |exact Hfail|lia].
    intros k u Hk'. apply Hstep. lia.
Qed.

End LoopFacts.

Lemma py_index_Ok_nat {A} (l : list A) (k : nat) (a : A) :
  py_index l (Z.of_nat k) = Ok a -> l !! k = Some a.
Proof.
  unfold py_index, py_pos.
  destruct (Z.ltb_spec (Z.of_nat k) 0); [lia|].
  destruct (_ && _); [|discriminate]. rewrite Nat2Z.id.
  destruct (l !! k); [|discriminate]. intros E. injection E as ->.
  reflexivity.
Qed.


(** ** Construction of a stage *)

Section StFacts.
Import Pointnet Ref.

(** [pointnet2_utils] is not among the names the module binds. *)
Lemma pointnet2_utils_unbound :
  load_global "pointnet2_utils" = Raise (NameError "pointnet2_utils").
Proof. reflexivity. Qed.

Lemma st_for_in_frame {St I} (body : St -> I -> st St) (l : list I) :
  (forall s i h, (body s i h).2 = h) ->
  forall s h, (st_for_in body l s h).2 = h.
Proof.
  intros Hb. induction l as [|i l IH]; intros s h; [reflexivity|].
  simpl. unfold mbind, st_bind. specialize (Hb s i h).
  destruct (body s i h) as [[s'|e] h']; simpl in Hb; subst h';
    [apply IH | reflexivity].
Qed.

(** No iteration of the constructor's loop gets past lines 153-154, and none
    writes to the store. *)
Lemma SA_init_step_fails np radii ns (mlps : list loc) u self (i : Z)
    (h : heap) :
  exists e, SA_init_step np radii ns mlps u self i h = (Raise e, h).
Proof.
  unfold SA_init_step, mbind, st_bind, lift.
  destruct (py_index radii i) as [r|e]; [|eauto].
  destruct (py_index ns i) as [n|e]; [|eauto].
  destruct np; simpl; eauto.
Qed.

Lemma SA_init_step_unbound np radii ns (mlps : list loc) u self (k : nat)
    (h : heap) :
  (k < length radii)%nat -> (k < length ns)%nat ->
  SA_init_step np radii ns mlps u self (Z.of_nat k) h
  = (Raise (NameError "pointnet2_utils"), h).
Proof.
  intros Hr Hn.
  destruct (lookup_lt_is_Some_2 radii k Hr) as [r Hrk].
  destruct (lookup_lt_is_Some_2 ns k Hn) as [n Hnk].
  unfold SA_init_step, mbind, st_bind, lift.
  rewrite (py_index_nat _ _ _ Hrk), (py_index_nat _ _ _ Hnk).
  destruct np; reflexivity.
Qed.

(** The constructor returns the stage without scales and nothing else. *)
Lemma SA_init_bare np u pm (h : heap) :
  PointnetSAModuleMSG_init np [] [] [] u pm h = (Ok (bare_stage np pm), h).
Proof. reflexivity. Qed.

Lemma SA_init_unbound np radii ns (mlps : list loc) u pm (h : heap) :
  length radii = length ns -> length ns = length mlps -> radii <> [] ->
  PointnetSAModuleMSG_init np radii ns mlps u pm h
  = (Raise (NameError "pointnet2_utils"), h).
Proof.
  intros Hr Hn Hne. unfold PointnetSAModuleMSG_init.
  rewrite bool_decide_eq_true_2 by done.
  rewrite py_range_seq. destruct radii as [|r radii]; [done|].
  simpl. unfold mbind at 1. unfold st_bind at 1.
  unfold mbind at 1. unfold st_bind at 1.
  rewrite (SA_init_step_unbound np (r :: radii) ns mlps u ([], []) 0 h)
    by (simpl in *; lia).
  reflexivity.
Qed.

Lemma SA_init_cases np radii ns (mlps : list loc) u pm (h : heap) :
  PointnetSAModuleMSG_init np radii ns mlps u pm h
  = (Raise (AssertionError []), h)
  \/ PointnetSAModuleMSG_init np radii ns mlps u pm h
     = (Raise (NameError "pointnet2_utils"), h)
  \/ ((radii = [] /\ ns = [] /\ mlps = [])
      /\ PointnetSAModuleMSG_init np radii ns mlps u pm h
         = (Ok (bare_stage np pm), h)).
Proof.
  destruct (decide (length radii = length ns /\ length ns = length mlps))
    as [[Hr Hn]|Hne].
  - destruct radii as [|r radii].
    + destruct ns; [|discriminate]. destruct mlps; [|discriminate].
      right. right. split; [done | apply SA_init_bare].
    + right. left. apply SA_init_unbound; done.
  - left. unfold PointnetSAModuleMSG_init.
    rewrite bool_decide_eq_false_2 by exact Hne. reflexivity.
Qed.

End StFacts.

(** ** The forward pass of a stage *)

Section StageFacts.
Context {T : TensorLib} {L : TensorLaws T}.
Import Pointnet Ref.

Lemma final_width_snoc (c : Z) (ws : list Z) (w : Z) :
  final_width (c :: ws ++ [w]) = w.
Proof.
  unfold final_width. change (c :: ws ++ [w]) with ((c :: ws) ++ [w]).
  apply last_last.
Qed.

Lemma final_width_snoc' (ws : list Z) (w : Z) : final_width (ws ++ [w]) = w.
Proof. unfold final_width. apply last_last. Qed.

Lemma width_size (t : tensor) (b c : Z) (r : list Z) :
  size t = b :: c :: r -> width t = c.
Proof. unfold width. intros ->. reflexivity. Qed.

Lemma sumZ_app (l1 l2 : list Z) : sumZ (l1 ++ l2) = sumZ l1 + sumZ l2.
Proof. unfold sumZ. induction l1; simpl; lia. Qed.

Lemma pool_size pm (x : tensor) (b c m k : Z) :
  pm = "max_pool" \/ pm = "avg_pool" -> size x = [b; c; m; k] ->
  0 < m -> 0 < k ->
  exists y, pool pm x = Ok y /\ size y = [b; c; m; 1].
Proof.
  intros Hpm Hx Hm Hk. unfold pool.
  assert (Hi : py_index (size x) 3 = Ok k)
    by (rewrite Hx; apply (py_index_nat _ 3); reflexivity).
  destruct Hpm as [-> | ->]; simpl; rewrite Hi; simpl.
  - eapply max_pool2d_size; eauto.
  - eapply avg_pool2d_size; eauto.
Qed.

Lemma pool_unknown pm (x : tensor) :
  pm <> "max_pool" -> pm <> "avg_pool" -> pool pm x = Raise NotImplementedError.
Proof.
  intros H1 H2. unfold pool.
  destruct (String.eqb_spec pm "max_pool"); [done|].
  destruct (String.eqb_spec pm "avg_pool"); [done|]. reflexivity.
Qed.

Lemma grouper_forward_size np u r k (xyz : tensor) c feats b n ch :
  size xyz = [b; n; 3] -> centres_ok b np c -> feat_ok b ch n feats ->
  (feats = None -> u = true) ->
  exists g, grouper_forward (mk_grouper np u r k) xyz c feats = Ok g
            /\ size g = [b; ch + xyz_width u; centres np;
                         match np with Some _ => k | None => n end].
Proof.
  intros Hx Hc Hf Hu. destruct np as [m|]; simpl in *.
  - destruct Hc as (x' & -> & Hx'). destruct feats as [f|]; simpl in *.
    + eapply QueryAndGroup_size; eauto.
    + rewrite (Hu eq_refl), Hf. simpl. eapply QueryAndGroup_size_xyz; eauto.
  - subst c. destruct feats as [f|]; simpl in *.
    + eapply GroupAll_size; eauto.
    + rewrite (Hu eq_refl), Hf. simpl. eapply GroupAll_size_xyz; eauto.
Qed.

Section Scales.
Variables (np : option Z) (u : bool) (radii : list Q) (ns : list Z)
  (nets : list (list Z)) (pm : string).
Variables (b n ch : Z) (xyz : tensor) (c feats : option tensor).

Let self : SAModule :=
  {| npoint := np; groupers := zip_with (mk_grouper np u) radii ns;
     mlps := nets; pool_method := pm |}.

Hypothesis Hlen : length radii = length ns /\ length ns = length nets.
Hypothesis Hns :
  match np with Some _ => Forall (fun k => 0 < k) ns | None => True end.
Hypothesis Hnets :
  Forall (fun net => exists ws w, net = (ch + xyz_width u) :: ws ++ [w]) nets.
Hypothesis Hxyz : size xyz = [b; n; 3].
Hypothesis Hn : 0 < n.
Hypothesis Hc : centres_ok b np c.
Hypothesis Hcp : 0 < centres np.
Hypothesis Hf : feat_ok b ch n feats.
Hypothesis Hu : feats = None -> u = true.

Lemma SA_forward_step_grouped (k : nat) (lst : list tensor) :
  (k < length nets)%nat ->
  exists net ws w g y,
    nets !! k = Some net /\ net = (ch + xyz_width u) :: ws ++ [w]
    /\ py_index (groupers self) (Z.of_nat k) = Ok g
    /\ py_index (mlps self) (Z.of_nat k) = Ok net
    /\ (exists t ks, grouper_forward g xyz c feats = Ok t
          /\ gen_CNN_forward net t = Ok y
          /\ 0 < ks /\ size y = [b; w; centres np; ks]).
Proof.
  intros Hk. destruct Hlen as [Hl1 Hl2].
  destruct (lookup_lt_is_Some_2 nets k) as [net Hnet]; [lia|].
  destruct (lookup_lt_is_Some_2 radii k) as [r Hr]; [lia|].
  destruct (lookup_lt_is_Some_2 ns k) as [nsample Hnsample]; [lia|].
  destruct (proj1 (Forall_lookup _ _) Hnets k net Hnet) as (ws & w & ->).
  destruct (grouper_forward_size np u r nsample xyz c feats b n ch)
    as (t & Ht & Hts); try assumption.
  destruct (gen_CNN_size t _ _ _ _ ws w Hts) as (y & Hy & Hys).
  exists ((ch + xyz_width u) :: ws ++ [w]), ws, w,
    (mk_grouper np u r nsample), y.
  split; [exact Hnet|]. split; [reflexivity|]. split.
  { apply py_index_nat. simpl. rewrite lookup_zip_with, Hr. simpl.
    rewrite Hnsample. reflexivity. }
  split; [apply py_index_nat; exact Hnet|].
  exists t, (match np with Some _ => nsample | None => n end).
  split; [exact Ht|]. split; [exact Hy|]. split; [|exact Hys].
  destruct np; [|exact Hn].
  exact (proj1 (Forall_lookup _ _) Hns k nsample Hnsample).
Qed.

Lemma SA_forward_step_size (k : nat) (lst : list tensor) :
  pm = "max_pool" \/ pm = "avg_pool" -> (k < length nets)%nat ->
  exists t net, SA_forward_step self xyz c feats lst (Z.of_nat k)
                = Ok (lst ++ [t])
                /\ nets !! k = Some net
                /\ size t = [b; final_width net; centres np].
Proof.
  intros Hpm Hk.
  destruct (SA_forward_step_grouped k lst Hk)
    as (net & ws & w & g & y & Hnet & -> & Hg & Hm & t & ks & Ht & Hy & Hks & Hys).
  destruct (pool_size pm y _ _ _ _ Hpm Hys Hcp Hks) as (p & Hp & Hps).
  exists (squeeze_last p), ((ch + xyz_width u) :: ws ++ [w]).
  split; [|split; [exact Hnet|]].
  - unfold SA_forward_step. rewrite Hg. simpl. rewrite Ht. simpl.
    simpl in Hm. rewrite Hm. simpl. rewrite Hy. simpl.
    rewrite Hp. reflexivity.
  - rewrite final_width_snoc.
    apply (squeeze_last_size p [b; w; centres np]). exact Hps.
Qed.

Lemma SA_forward_step_unknown (lst : list tensor) :
  pm <> "max_pool" -> pm <> "avg_pool" -> nets <> [] ->
  SA_forward_step self xyz c feats lst 0 = Raise NotImplementedError.
Proof.
  intros H1 H2 Hne.
  destruct (SA_forward_step_grouped 0 lst)
    as (net & ws & w & g & y & Hnet & -> & Hg & Hm & t & ks & Ht & Hy & Hks & Hys).
  { destruct nets; [done | simpl; lia]. }
  unfold SA_forward_step. change (Z.of_nat 0) with 0 in Hg, Hm.
  rewrite Hg. simpl. rewrite Ht. simpl. simpl in Hm. rewrite Hm. simpl.
  rewrite Hy. simpl. rewrite pool_unknown by assumption.
  reflexivity.
Qed.

Lemma SA_forward_scales :
  pm = "max_pool" \/ pm = "avg_pool" -> nets <> [] ->
  exists lst out,
    for_in (SA_forward_step self xyz c feats)
           (py_range (length (groupers self))) [] = Ok lst
    /\ cat lst 1 = Ok out
    /\ size out = [b; sumZ (final_width <$> nets); centres np].
Proof.
  intros Hpm Hne. destruct Hlen as [Hl1 Hl2].
  assert (Hg : length (groupers self) = length nets).
  { simpl. rewrite length_zip_with. lia. }
  rewrite Hg.
  destruct (for_in_range
    (fun k lst => length lst = k
       /\ Forall (fun t => size t = [b; width t; centres np]) lst
       /\ width <$> lst = final_width <$> take k nets)
    (SA_forward_step self xyz c feats) (length nets) [])
    as (lst & Hrun & Hlst & Hsz & Hw).
  - simpl. split; [done|]. split; [constructor | done].
  - intros k lst Hk (Hlk & Hsz & Hw).
    destruct (SA_forward_step_size k lst Hpm Hk) as (t & net & Hs & Hnet & Ht).
    exists (lst ++ [t]). split; [exact Hs|]. split; [|split].
    + rewrite length_app. simpl. lia.
    + apply Forall_app. split; [exact Hsz|]. constructor; [|constructor].
      rewrite (width_size _ _ _ _ Ht). exact Ht.
    + rewrite (take_S_r _ _ _ Hnet), !fmap_app, Hw. simpl.
      rewrite (width_size _ _ _ _ Ht). reflexivity.
  - rewrite firstn_all in Hw.
    destruct (cat_size lst b (centres np)) as (out & Hout & Hos).
    { intros ->. simpl in Hlst. destruct nets; [done | discriminate]. }
    { exact Hsz. }
    exists lst, out. split; [exact Hrun|]. split; [exact Hout|].
    rewrite Hos, Hw. reflexivity.
Qed.

End Scales.

(** The sampling of lines 101-104 reads [pointnet2_utils]: a stage with a
    target count that is handed no centres does not return. *)
Lemma SA_forward_sampling_fails (self : SAModule) (xyz feats : option tensor)
    (m : Z) :
  npoint self = Some m -> is_ok (SA_forward self xyz feats None) = false.
Proof.
  intros Hnp. unfold SA_forward. rewrite Hnp.
  destruct (not_none "transpose" xyz) as [x|]; [|reflexivity].
  cbn [mbind result_bind].
  destruct (transpose 1 2 x) as [fl|]; [|reflexivity].
  cbn [mbind result_bind]. rewrite pointnet2_utils_unbound. reflexivity.
Qed.

Lemma SA_forward_sampling_unbound (self : SAModule) (xyz : tensor)
    (feats : option tensor) (m b n : Z) :
  npoint self = Some m -> size xyz = [b; n; 3] ->
  SA_forward self (Some xyz) feats None
  = Raise (NameError "pointnet2_utils").
Proof.
  intros Hnp Hx. unfold SA_forward. rewrite Hnp.
  destruct (transpose_size xyz _ _ _ Hx) as (fl & Hfl & _).
  change (not_none "transpose" (Some xyz)) with (Ok xyz).
  cbn [mbind result_bind]. rewrite Hfl.
  cbn [mbind result_bind]. rewrite pointnet2_utils_unbound. reflexivity.
Qed.

(** A stage without scales ends by concatenating an empty list. *)
Lemma SA_forward_no_scales (self : SAModule)
    (xyz feats new_xyz : option tensor) :
  groupers self = [] -> is_ok (SA_forward self xyz feats new_xyz) = false.
Proof.
  intros Hg. unfold SA_forward. rewrite Hg.
  destruct (not_none "transpose" xyz) as [x|]; [|reflexivity].
  cbn [mbind result_bind].
  destruct (transpose 1 2 x) as [fl|]; [|reflexivity].
  cbn [mbind result_bind].
  match goal with
  | |- is_ok (?m ≫= _) = false => destruct m as [c|]; [|reflexivity]
  end.
  simpl. pose proof (cat_nil 1) as Hcat.
  destruct (cat [] 1); [discriminate | reflexivity].
Qed.

(** The centres a stage returns are the ones it was handed, and [None] when
    it has no target count and was handed none. *)
Lemma SA_forward_centres (self : SAModule) (xyz feats new_xyz : option tensor)
    (c : option tensor) (out : tensor) :
  SA_forward self xyz feats new_xyz = Ok (c, out) ->
  match new_xyz with
  | Some _ => c = new_xyz
  | None => c = None /\ npoint self = None
  end.
Proof.
  unfold SA_forward.
  destruct (not_none "transpose" xyz) as [x|]; [|discriminate].
  cbn [mbind result_bind].
  destruct (transpose 1 2 x) as [fl|]; [|discriminate].
  cbn [mbind result_bind].
  destruct new_xyz as [c0|].
  - cbn [mbind result_bind].
    destruct (for_in _ _ []) as [lst|]; [|discriminate].
    cbn [mbind result_bind].
    destruct (cat lst 1) as [o|]; [|discriminate].
    intros H. injection H as <- _. reflexivity.
  - destruct (npoint self) as [m|].
    + rewrite pointnet2_utils_unbound. discriminate.
    + cbn [mbind result_bind].
      destruct (for_in _ _ []) as [lst|]; [|discriminate].
      cbn [mbind result_bind].
      destruct (cat lst 1) as [o|]; [|discriminate].
      intros H. injection H as <- _. done.
Qed.

End StageFacts.
(** ** Construction of the network *)

Section InitFacts.
Import Pointnet Ref Model.

Lemma nonempty_spec {A} (l : list A) : nonempty l = true <-> l <> [].
Proof. destruct l; simpl; split; try done. Qed.

Lemma final_width_cons (c : Z) (m : list Z) :
  m <> [] -> final_width (c :: m) = final_width m.
Proof. intros Hm. unfold final_width. destruct m; [done | reflexivity]. Qed.

Lemma stage_ok_spec radii ns m :
  stage_ok radii ns m = true ->
  (length radii = length ns /\ length ns = length m) /\ m <> []
  /\ Forall (fun k => 0 < k) ns /\ forallb nonempty m = true.
Proof.
  unfold stage_ok. rewrite !andb_true_iff.
  intros ((((H1 & H2) & H3) & H4) & H5).
  apply Nat.eqb_eq in H1, H2. apply nonempty_spec in H3.
  repeat split; try assumption.
  apply Forall_forall. intros k Hk. rewrite forallb_forall in H4.
  apply Z.ltb_lt, H4, list_elem_of_In, Hk.
Qed.

(** The transforms of a stage object made of the channel lists [m]. *)
Lemma stage_nets (u : bool) (c : Z) (m : list (list Z)) :
  forallb nonempty m = true ->
  Forall (fun net => exists ws w, net = (c + xyz_width u) :: ws ++ [w])
         ((fun s => (c + xyz_width u) :: s) <$> m)
  /\ sumZ (final_width <$> ((fun s => (c + xyz_width u) :: s) <$> m))
     = out_width m.
Proof.
  intros Hm. rewrite forallb_forall in Hm. split.
  - apply Forall_fmap, Forall_forall. intros s Hs. simpl.
    assert (Hne : s <> []) by (apply nonempty_spec, Hm, list_elem_of_In, Hs).
    destruct (exists_last Hne) as (ws & w & ->). eauto.
  - unfold out_width. rewrite <- list_fmap_compose. f_equal.
    apply list_fmap_ext. intros i s Hs. simpl.
    apply final_width_cons, nonempty_spec, Hm, list_elem_of_In.
    eapply list_elem_of_lookup_2. exact Hs.
Qed.

(** Lines 29-31 keep the number of scales. *)
Lemma prefix_loop_length (c : Z) (l : list Z) (s s' : list (list Z) * Z) :
  for_in (prefix_step c) l s = Ok s' -> length s'.1 = length s.1.
Proof.
  revert s. induction l as [|i l IH]; intros s H; simpl in H.
  - injection H as <-. reflexivity.
  - destruct (prefix_step c s i) as [t|] eqn:Hs; [|discriminate].
    simpl in H. rewrite (IH t H). clear IH H.
    unfold prefix_step in Hs.
    destruct (py_index s.1 i) as [m|]; [|discriminate]. simpl in Hs.
    destruct (py_setitem s.1 i (c :: m)) as [mlps|] eqn:Hset; [|discriminate].
    simpl in Hs. unfold py_setitem in Hset.
    destruct (_ && _); [|discriminate]. injection Hset as <-.
    destruct (py_index _ i) as [m'|]; [|discriminate]. simpl in Hs.
    destruct (py_index m' (-1)); [|discriminate]. simpl in Hs.
    injection Hs as <-. simpl. apply length_insert.
Qed.

(** An iteration of lines 26-43 that completes belongs to a stage
    configured without scales: it builds the stage without scales and
    records the width 0. *)
Lemma Pointnet2MSG_init_step_Ok u cfg (s s' : init_state) (i : Z) :
  Pointnet2MSG_init_step u cfg s i = Ok s' ->
  exists np,
    py_index (SA_npoints cfg) i = Ok np
    /\ py_index (SA_radius cfg) i = Ok []
    /\ py_index (SA_nsample cfg) i = Ok []
    /\ py_index (SA_mlps cfg) i = Ok []
    /\ s' = {| in_channels := 0; out_channels := Some 0;
               skip_channel_list := skip_channel_list s ++ [0];
               modules := modules s ++ [bare_stage np "max_pool"] |}.
Proof.
  unfold Pointnet2MSG_init_step. intros H.
  destruct (py_index (SA_mlps cfg) i) as [mlps0|]; [|discriminate].
  cbn [mbind result_bind] in H.
  destruct (for_in _ _ (mlps0, 0)) as [[mlps out]|] eqn:Hpre; [|discriminate].
  cbn [mbind result_bind] in H.
  destruct (py_index (SA_npoints cfg) i) as [np|]; [|discriminate].
  cbn [mbind result_bind] in H.
  destruct (py_index (SA_radius cfg) i) as [radii|]; [|discriminate].
  cbn [mbind result_bind] in H.
  destruct (py_index (SA_nsample cfg) i) as [ns|]; [|discriminate].
  cbn [mbind result_bind] in H.
  pose proof (prefix_loop_length _ _ _ _ Hpre) as Hlen. simpl in Hlen.
  destruct (SA_init_cases np radii ns (seq 0 (length mlps)) u "max_pool" mlps)
    as [E|[E|[(-> & -> & Hseq) E]]]; rewrite E in H; try discriminate.
  assert (Hm : mlps0 = []).
  { destruct mlps0; [reflexivity|]. destruct mlps; [discriminate|].
    discriminate Hseq. }
  subst mlps0. simpl in Hpre. injection Hpre as <- <-.
  simpl in H. injection H as <-. exists np. done.
Qed.

(** The loop over the SA stages, when it completes. *)
Lemma Pointnet2MSG_init_SA_inv u c0 cfg (s : init_state) :
  Pointnet2MSG_init_SA c0 u cfg = Ok s ->
  length (modules s) = length (SA_npoints cfg)
  /\ skip_channel_list s = c0 :: replicate (length (SA_npoints cfg)) 0
  /\ out_channels s = match SA_npoints cfg with [] => None | _ => Some 0 end
  /\ forall (i : nat) m, modules s !! i = Some m ->
       SA_npoints cfg !! i = Some (npoint m)
       /\ m = bare_stage (npoint m) "max_pool".
Proof.
  unfold Pointnet2MSG_init_SA. rewrite py_range_seq. intros H.
  apply (for_in_seq_inv
           (fun k (s : init_state) =>
              length (modules s) = k
              /\ skip_channel_list s = c0 :: replicate k 0
              /\ out_channels s = match k with O => None | _ => Some 0 end
              /\ forall (i : nat) m, modules s !! i = Some m ->
                   SA_npoints cfg !! i = Some (npoint m)
                   /\ m = bare_stage (npoint m) "max_pool")) in H.
  - simpl in H. destruct H as (H1 & H2 & H3 & H4).
    repeat split; try assumption; try (eapply H4; eassumption).
    rewrite H3. destruct (SA_npoints cfg); reflexivity.
  - simpl. repeat split; try done.
  - intros k t t' _ (H1 & H2 & H3 & H4) Hs.
    destruct (Pointnet2MSG_init_step_Ok _ _ _ _ _ Hs)
      as (np & Hnp & _ & _ & _ & ->). simpl.
    rewrite length_app, H1, H2. simpl.
    split; [lia|]. split.
    { f_equal. symmetry. apply replicate_cons_app. }
    split; [reflexivity|].
    intros i m Hi. destruct (decide (i < k)%nat) as [Hlt|Hge].
    + rewrite lookup_app_l in Hi by lia. apply H4, Hi.
    + rewrite lookup_app_r in Hi by lia.
      destruct (i - length (modules t))%nat eqn:E; [|discriminate].
      simpl in Hi. injection Hi as <-. simpl.
      assert (i = k) as -> by lia.
      apply py_index_Ok_nat in Hnp. done.
Qed.

End InitFacts.
(** ** The forward pass of an FP stage *)

Section ForwardFacts.
Context {T : TensorLib} {L : TensorLaws T}.
Import Pointnet Ref Model.

(** Line 209 reads [pointnet2_utils]: with [known] given the pass stops
    there. *)
Lemma FP_forward_unbound (self : FPModule) (k : tensor)
    (unknown unknow_feats known_feats : option tensor) :
  FP_forward self unknown (Some k) unknow_feats known_feats
  = Raise (NameError "pointnet2_utils").
Proof.
  unfold FP_forward, FP_interpolate. rewrite pointnet2_utils_unbound.
  reflexivity.
Qed.

Lemma FP_forward_no_known_feats (self : FPModule)
    (unknown known unknow_feats : option tensor) :
  is_ok (FP_forward self unknown known unknow_feats None) = false.
Proof.
  destruct known as [k|]; [rewrite FP_forward_unbound|]; reflexivity.
Qed.

(** Lines 216-226: the single column of [known_feats] is repeated for every
    point of [unknown]. *)
Lemma FP_forward_broadcast_size ws w b n c1 c2
    (unknown unknow_feats : option tensor) (kf : tensor) :
  xyz_ok b n unknown -> size kf = [b; c2; 1] ->
  feat_ok b c1 n unknow_feats ->
  exists out,
    FP_forward {| mlp := (c2 + c1) :: ws ++ [w] |} unknown None unknow_feats
               (Some kf) = Ok out
    /\ size out = [b; w; n].
Proof.
  intros (u & -> & Hu) Hkf Huf.
  assert (Hi : exists i,
    FP_interpolate (Some u) None (Some kf) = Ok i /\ size i = [b; c2; n]).
  { unfold FP_interpolate. simpl.
    assert (Hn : py_index (size u) 1 = Ok n)
      by (rewrite Hu; apply (py_index_nat _ 1); reflexivity).
    rewrite Hn. simpl. rewrite Hkf. simpl.
    apply expand_size. exact Hkf. }
  destruct Hi as (i & Hi & His).
  assert (Hc : exists nf,
    match unknow_feats with
    | Some unknow_feats => cat [i; unknow_feats] 1
    | None => Ok i
    end = Ok nf /\ size nf = [b; c2 + c1; n]).
  { destruct unknow_feats as [uf|]; simpl in Huf.
    - destruct (cat_size [i; uf] b n) as (nf & Hnf & Hnfs); [done| |].
      + repeat constructor.
        * rewrite (width_size _ _ _ _ His). exact His.
        * rewrite (width_size _ _ _ _ Huf). exact Huf.
      + exists nf. split; [exact Hnf|]. rewrite Hnfs. simpl.
        rewrite (width_size _ _ _ _ His), (width_size _ _ _ _ Huf).
        do 2 f_equal. lia.
    - exists i. split; [reflexivity|]. rewrite His, Huf. do 2 f_equal. lia. }
  destruct Hc as (nf & Hnf & Hnfs).
  assert (Hus : size (unsqueeze_last nf) = [b; c2 + c1; n; 1])
    by (rewrite unsqueeze_last_size, Hnfs; reflexivity).
  destruct (gen_CNN_size _ _ _ _ _ ws w Hus) as (y & Hy & Hys).
  exists (squeeze_last y). split.
  - unfold FP_forward. rewrite Hi. simpl. rewrite Hnf. simpl.
    rewrite Hy. reflexivity.
  - apply (squeeze_last_size y [b; w; n]). exact Hys.
Qed.

End ForwardFacts.
(** ** The depth history, whatever the tensors *)

Section HistoryFacts.
Context {T : TensorLib}.
Import Pointnet.

Lemma forward_SA_step_appends (self : Pointnet2MSG) (l l' : history) (i : Z) :
  forward_SA_step self l i = Ok l' ->
  exists x y, l'.1 = l.1 ++ [x] /\ l'.2 = l.2 ++ [y].
Proof.
  unfold forward_SA_step. intros H.
  destruct (py_index (SA_modules self) i) as [m|]; [|discriminate].
  destruct (py_index l.1 i) as [xyz|]; [|discriminate].
  destruct (py_index l.2 i) as [fs|]; [|discriminate]. simpl in H.
  destruct (SA_forward m xyz fs None) as [[c out]|]; [|discriminate].
  injection H as <-. eexists _, _. split; reflexivity.
Qed.

Lemma forward_FP_step_writes (self : Pointnet2MSG) (l l' : history) (i : Z) :
  forward_FP_step self l i = Ok l' ->
  l'.1 = l.1 /\ exists out, py_setitem l.2 (i - 1) (Some out) = Ok l'.2.
Proof.
  unfold forward_FP_step. intros H.
  destruct (py_index (FP_modules self) i) as [m|]; [|discriminate].
  destruct (py_index l.1 (i - 1)) as [u|]; [|discriminate].
  destruct (py_index l.1 i) as [k|]; [|discriminate].
  destruct (py_index l.2 (i - 1)) as [uf|]; [|discriminate].
  destruct (py_index l.2 i) as [kf|]; [|discriminate]. simpl in H.
  destruct (FP_forward m u k uf kf) as [out|]; [|discriminate]. simpl in H.
  destruct (py_setitem l.2 (i - 1) (Some out)) as [fs|] eqn:Hs; [|discriminate].
  injection H as <-. split; [reflexivity|]. exists out. exact Hs.
Qed.


Lemma py_index_out_of_range {A} (l : list A) (i : Z) :
  i < - Z.of_nat (length l) \/ Z.of_nat (length l) <= i ->
  py_index l i = Raise IndexError.
Proof.
  intros H. unfold py_index, py_pos.
  destruct (Z.ltb_spec i 0).
  - destruct (Z.leb_spec 0 (i + Z.of_nat (length l))); [lia | reflexivity].
  - destruct (Z.leb_spec 0 i); [|lia].
    destruct (Z.ltb_spec i (Z.of_nat (length l))); [lia | reflexivity].
Qed.

(** The encoder pass leaves one entry per depth, the first one being the
    split input. *)
Lemma forward_encode_history (self : Pointnet2MSG) (pc : tensor) (l : history) :
  forward_encode self pc = Ok l ->
  exists feats,
    _break_up_pc pc = Ok (slice_last 0 (Some 3) pc, feats)
    /\ length l.1 = S (length (SA_modules self))
    /\ length l.2 = S (length (SA_modules self))
    /\ l.1 !! 0%nat = Some (Some (slice_last 0 (Some 3) pc))
    /\ l.2 !! 0%nat = Some feats.
Proof.
  unfold forward_encode. intros H.
  destruct (_break_up_pc pc) as [[xyz feats]|] eqn:Hb; [|discriminate].
  assert (Hx : xyz = slice_last 0 (Some 3) pc).
  { unfold _break_up_pc in Hb.
    destruct (py_index (size pc) (-1)) as [w|]; [|discriminate].
    simpl in Hb. destruct (3 <? w).
    - destruct (transpose 1 2 (slice_last 3 None pc)); [|discriminate].
      simpl in Hb. injection Hb as <- _. reflexivity.
    - simpl in Hb. injection Hb as <- _. reflexivity. }
  subst xyz. exists feats. split; [reflexivity|].
  simpl in H. rewrite py_range_seq in H.
  apply (for_in_seq_inv
           (fun k (l : history) =>
              length l.1 = S k /\ length l.2 = S k
              /\ l.1 !! 0%nat = Some (Some (slice_last 0 (Some 3) pc))
              /\ l.2 !! 0%nat = Some feats)) in H; [exact H|done|].
  intros k t t' _ (H1 & H2 & H3 & H4) Hs.
  destruct (forward_SA_step_appends _ _ _ _ Hs) as (x & y & -> & ->).
  rewrite !length_app, H1, H2. simpl.
  split; [lia|]. split; [lia|].
  rewrite !lookup_app_l by lia. split; assumption.
Qed.


End HistoryFacts.

(** ** The size-only tensors keep the contracts *)

Lemma shape_cat_size (ts : list (list Z)) (b m : Z) :
  ts <> [] ->
  Forall (fun t : list Z => t = [b; default 0 (t !! 1%nat); m]) ts ->
  Shape.cat ts 1
  = Ok [b; sumZ ((fun t : list Z => default 0 (t !! 1%nat)) <$> ts); m].
Proof.
  intros Hne Hall. unfold Shape.cat. destruct ts as [|s ts]; [done|].
  assert (Hsame : forallb (Shape.same_but (Z.to_nat 1) s) (s :: ts) = true).
  { apply forallb_forall. intros t Ht. apply list_elem_of_In in Ht.
    rewrite Forall_forall in Hall.
    pose proof (Hall s ltac:(left)) as Hs. pose proof (Hall t Ht) as Htt.
    unfold Shape.same_but. apply bool_decide_eq_true_2.
    rewrite Hs, Htt. reflexivity. }
  rewrite Hsame.
  rewrite Forall_forall in Hall. rewrite (Hall s ltac:(left)) at 1.
  reflexivity.
Qed.

#[global] Instance shape_laws : TensorLaws Shape.lib.
Proof.
  split; simpl.
  - intros t b n w -> Hw. unfold Shape.slice_last, Shape.clamp. simpl.
    do 3 f_equal. lia.
  - intros t b n w -> Hw. unfold Shape.slice_last, Shape.clamp. simpl.
    do 3 f_equal. lia.
  - intros t a b c ->. eexists. split; reflexivity.
  - intros xyz b n m -> Hm. unfold Shape.furthest_point_sample.
    destruct (Z.ltb_spec 0 m); [|lia]. destruct (Z.leb_spec m n); [|lia].
    eexists. split; reflexivity.
  - intros f idx b c n m -> ->. unfold Shape.gather_operation.
    rewrite Z.eqb_refl. eexists. split; reflexivity.
  - intros r k u xyz c f b n m ch -> -> ->.
    unfold Shape.QueryAndGroup_forward, Shape.grouped.
    rewrite !Z.eqb_refl. eexists. split; reflexivity.
  - intros r k xyz c b n m -> ->. unfold Shape.QueryAndGroup_forward.
    rewrite Z.eqb_refl. eexists. split; reflexivity.
  - intros u xyz c f b n ch -> ->.
    unfold Shape.GroupAll_forward, Shape.grouped.
    rewrite !Z.eqb_refl. eexists. split; reflexivity.
  - intros xyz c b n ->. eexists. split; reflexivity.
  - intros x b c h n ws w ->. unfold Shape.gen_CNN_forward.
    destruct ws as [|w0 ws]; simpl; rewrite Z.eqb_refl.
    + eexists. split; reflexivity.
    + eexists. split; [reflexivity|]. rewrite last_last. reflexivity.
  - intros x b c m k -> Hm Hk. unfold Shape.pool2d.
    destruct (Z.ltb_spec 0 k); [|lia]. destruct (Z.leb_spec 1 m); [|lia].
    rewrite Z.leb_refl. simpl. eexists. split; [reflexivity|].
    rewrite Z.sub_diag, Z.div_0_l, Z.div_1_r by lia. do 3 f_equal. lia.
  - intros x b c m k -> Hm Hk. unfold Shape.pool2d.
    destruct (Z.ltb_spec 0 k); [|lia]. destruct (Z.leb_spec 1 m); [|lia].
    rewrite Z.leb_refl. simpl. eexists. split; [reflexivity|].
    rewrite Z.sub_diag, Z.div_0_l, Z.div_1_r by lia. do 3 f_equal. lia.
  - intros x s ->. unfold Shape.squeeze_last.
    rewrite reverse_app. simpl. apply reverse_involutive.
  - reflexivity.
  - reflexivity.
  - intros ts b m Hne Hall. eexists. split; [|reflexivity].
    apply shape_cat_size; assumption.
  - intros u k b n m -> ->. unfold Shape.three_nn. rewrite Z.eqb_refl.
    eexists _, _. repeat split; reflexivity.
  - reflexivity.
  - reflexivity.
  - intros t b n k ->. eexists. split; reflexivity.
  - intros a c b n k -> ->. unfold Shape.div. simpl.
    rewrite !Z.eqb_refl. simpl. rewrite !orb_true_r. simpl.
    eexists. split; [reflexivity|].
    destruct (b =? 1) eqn:Eb, (n =? 1) eqn:En, (k =? 1) eqn:Ek;
      rewrite ?Z.eqb_eq in *; subst; reflexivity.
  - intros f i w b c n m -> -> ->. unfold Shape.three_interpolate.
    rewrite !Z.eqb_refl. eexists. split; reflexivity.
  - intros f b c n ->. unfold Shape.expand. simpl.
    rewrite !Z.eqb_refl. simpl. rewrite orb_true_r. simpl.
    eexists. split; reflexivity.
Qed.
(** ** The claims about pointnet.py *)

Section Claims.
Import Pointnet Ref Model Examples.

(** *** C5 *)

(** C5, counterexample: a network whose stage 1 has two radii and one
    capacity fails to build with an [AssertionError] that carries no
    argument at all, so it does not name stage 1. *)
Lemma C5_counterexample :
  Pointnet2MSG_init 6 true mismatched_cfg [] = Raise (AssertionError [])
  /\ (PointnetSAModuleMSG_init (Some 4) [0.5%Q; 1%Q] [4] [0%nat; 1%nat] true
        "max_pool" [[6; 4]; [6; 4]]).1 = Raise (AssertionError []).
Proof. split; reflexivity. Qed.

(** C5, as amended: when the radii, the capacities and the channel lists
    of a stage do not all have the same length, the constructor raises an
    [AssertionError] without a message (it names no stage index); no stage
    is returned and the caller's lists are left as they were. *)
Theorem C5_length_mismatch_asserts npoint radii nsamples (mlps : list loc)
    use_xyz pool_method (h : heap) :
  ~ (length radii = length nsamples /\ length nsamples = length mlps) ->
  PointnetSAModuleMSG_init npoint radii nsamples mlps use_xyz pool_method h
  = (Raise (AssertionError []), h).
Proof.
  intros Hne. unfold PointnetSAModuleMSG_init.
  rewrite bool_decide_eq_false_2 by exact Hne. reflexivity.
Qed.

(** C5 at two radii, one capacity and two channel lists. *)
Lemma C5_witness :
  ~ (length [0.5%Q; 1%Q] = length [4] /\ length [4] = length [0%nat; 1%nat])
  /\ PointnetSAModuleMSG_init (Some 4) [0.5%Q; 1%Q] [4] [0%nat; 1%nat] true
       "max_pool" [[6; 4]; [6; 4]]
     = (Raise (AssertionError []), [[6; 4]; [6; 4]]).
Proof.
  assert (H : ~ (length [0.5%Q; 1%Q] = length [4]
                 /\ length [4] = length [0%nat; 1%nat]))
    by (simpl; intros [H _]; discriminate H).
  split; [exact H|].
  exact (C5_length_mismatch_asserts (Some 4) [0.5%Q; 1%Q] [4]
           [0%nat; 1%nat] true "max_pool" [[6; 4]; [6; 4]] H).
Defined.

(** *** C9 *)

(** C9: the constructor does not get as far as the write.  With
    [use_xyz=True] and one scale on the list [[3, 8]] it raises
    [NameError] at line 153, where [pointnet2_utils] is read, and the list
    is still [[3, 8]]; so it is with two scales on two lists.  Whatever the
    arguments, a construction with [use_xyz=True] leaves every list of the
    caller as it was. *)
Theorem C9_construction_stops_before_the_write :
  PointnetSAModuleMSG_init (Some 4) [0.5%Q] [8] [0%nat] true "max_pool"
    [[3; 8]]
  = (Raise (NameError "pointnet2_utils"), [[3; 8]])
  /\ PointnetSAModuleMSG_init (Some 4) [0.1%Q; 0.2%Q] [4; 4] [0%nat; 1%nat]
       true "max_pool" [[3; 8]; [3; 16]]
     = (Raise (NameError "pointnet2_utils"), [[3; 8]; [3; 16]])
  /\ forall np radii ns (mlps : list loc) pm (h : heap),
       (PointnetSAModuleMSG_init np radii ns mlps true pm h).2 = h.
Proof.
  split; [reflexivity|]. split; [reflexivity|].
  intros np radii ns mlps pm h.
  destruct (SA_init_cases np radii ns mlps true pm h)
    as [E|[E|[_ E]]]; rewrite E; reflexivity.
Qed.

End Claims.
Section ClaimsForward.
Context {T : TensorLib} {L : TensorLaws T}.
Import Pointnet Ref Model Examples.

(** *** C4 *)

Lemma SA_init_pool_method npoint radii nsamples (mlps : list loc) use_xyz pm
    (h : heap) :
  PointnetSAModuleMSG_init npoint radii nsamples mlps use_xyz pm h
  = match PointnetSAModuleMSG_init npoint radii nsamples mlps use_xyz
            "max_pool" h with
    | (Ok self, h') => (Ok (with_pool_method pm self), h')
    | (Raise e, h') => (Raise e, h')
    end.
Proof.
  unfold PointnetSAModuleMSG_init. destruct (bool_decide _); [|reflexivity].
  unfold mbind, st_bind.
  destruct (st_for_in _ _ _ h) as [[self|e] h']; reflexivity.
Qed.

Lemma SA_forward_step_unknown_pool (self : SAModule) (xyz : tensor)
    (c feats : option tensor) (lst : list tensor) (i : Z) :
  pool_method self <> "max_pool" -> pool_method self <> "avg_pool" ->
  is_ok (SA_forward_step self xyz c feats lst i) = false.
Proof.
  intros H1 H2. unfold SA_forward_step.
  destruct (py_index (groupers self) i); [simpl|reflexivity].
  destruct (grouper_forward _ _ _ _); [simpl|reflexivity].
  destruct (py_index (mlps self) i); [simpl|reflexivity].
  destruct (gen_CNN_forward _ _); [simpl|reflexivity].
  rewrite pool_unknown by assumption. reflexivity.
Qed.

Lemma SA_forward_unknown_pool (self : SAModule)
    (xyz feats new_xyz : option tensor) :
  pool_method self <> "max_pool" -> pool_method self <> "avg_pool" ->
  is_ok (SA_forward self xyz feats new_xyz) = false.
Proof.
  intros H1 H2. unfold SA_forward.
  destruct (not_none "transpose" xyz) as [x|]; [|reflexivity].
  cbn [mbind result_bind].
  destruct (transpose 1 2 x) as [fl|]; [|reflexivity].
  cbn [mbind result_bind].
  match goal with
  | |- is_ok (?m ≫= _) = false => destruct m as [c|]; [simpl|reflexivity]
  end.
  rewrite py_range_seq.
  destruct (length (groupers self)) as [|k]; simpl.
  - pose proof (cat_nil 1) as Hc. destruct (cat [] 1); [discriminate|].
    reflexivity.
  - pose proof (SA_forward_step_unknown_pool self x c feats [] 0 H1 H2)
      as Hs.
    change (Z.of_nat 0) with 0.
    destruct (SA_forward_step self x c feats [] 0); [discriminate|].
    reflexivity.
Qed.

(** The loop over the scales of a stage object with an unknown method, on
    a well-shaped input and the centres the stage works with. *)
Lemma SA_forward_loop_unknown np u radii ns (m : list (list Z)) pm ch b n
    (xyz : tensor) (c feats : option tensor) :
  pm <> "max_pool" -> pm <> "avg_pool" ->
  length radii = length ns /\ length ns = length m -> m <> [] ->
  forallb nonempty m = true ->
  match np with Some _ => Forall (fun k => 0 < k) ns | None => True end ->
  size xyz = [b; n; 3] -> 0 < n -> centres_ok b np c -> 0 < centres np ->
  feat_ok b ch n feats -> (feats = None -> u = true) ->
  for_in (SA_forward_step
            {| npoint := np; groupers := zip_with (mk_grouper np u) radii ns;
               mlps := (fun s => (ch + xyz_width u) :: s) <$> m;
               pool_method := pm |} xyz c feats)
         (py_range (length (zip_with (mk_grouper np u) radii ns))) []
  = Raise NotImplementedError.
Proof.
  intros H1 H2 Hlen Hne Hall Hpos Hx Hn Hc Hcp Hf Hu.
  destruct (stage_nets u ch m Hall) as [Hnets _].
  apply for_in_range_raise.
  - rewrite length_zip_with. destruct Hlen as [Hl1 Hl2].
    destruct m; [done|]. simpl in Hl2. lia.
  - apply (SA_forward_step_unknown np u radii ns
             ((fun s => (ch + xyz_width u) :: s) <$> m) pm b n ch xyz c
             feats ltac:(rewrite length_fmap; exact Hlen) Hpos Hnets Hx
             Hn Hc Hcp Hf Hu [] H1 H2).
    destruct m; [done | discriminate].
Qed.

(** C4, counterexample: the constructor returns a stage with the pooling
    method ["sum_pool"]. *)
Lemma C4_counterexample :
  PointnetSAModuleMSG_init (Some 4) [] [] [] true "sum_pool" []
  = (Ok {| npoint := Some 4; groupers := []; mlps := [];
           pool_method := "sum_pool" |}, []).
Proof. reflexivity. Qed.

(** C4, as amended: the constructor stores [pool_method] unchecked, so a
    construction with an unknown method returns or raises as the same
    construction with ["max_pool"] does.  The method is checked by the
    forward pass only: no call of [forward] on a stage with such a method
    returns, and on a well-shaped input, with centres handed to a
    ball-query stage or on a stage without a target count, the call raises
    [NotImplementedError] once the first scale has been grouped and
    transformed. *)
Theorem C4_unknown_pool_fails_in_forward pm :
  pm <> "max_pool" -> pm <> "avg_pool" ->
  (forall npoint radii nsamples (mlps : list loc) use_xyz (h : heap),
     PointnetSAModuleMSG_init npoint radii nsamples mlps use_xyz pm h
     = match PointnetSAModuleMSG_init npoint radii nsamples mlps use_xyz
               "max_pool" h with
       | (Ok self, h') => (Ok (with_pool_method pm self), h')
       | (Raise e, h') => (Raise e, h')
       end)
  /\ (forall self xyz feats new_xyz,
        pool_method self = pm ->
        is_ok (SA_forward self xyz feats new_xyz) = false)
  /\ (forall u p radii ns m ch b n k (xyz c : tensor) feats,
        stage_ok radii ns m = true ->
        size xyz = [b; n; 3] -> 0 < n -> size c = [b; k; 3] -> 0 < k ->
        feat_ok b ch n feats -> (feats = None -> u = true) ->
        SA_forward (mk_stage u (Some p) radii ns ch m pm) (Some xyz) feats
          (Some c) = Raise NotImplementedError)
  /\ (forall u radii ns m ch b n (xyz : tensor) feats,
        length radii = length ns -> length ns = length m -> m <> [] ->
        forallb nonempty m = true ->
        size xyz = [b; n; 3] -> 0 < n ->
        feat_ok b ch n feats -> (feats = None -> u = true) ->
        SA_forward (mk_stage u None radii ns ch m pm) (Some xyz) feats None
        = Raise NotImplementedError).
Proof.
  intros H1 H2. split; [|split; [|split]].
  - intros. apply SA_init_pool_method.
  - intros self xyz feats new_xyz <-. apply SA_forward_unknown_pool; assumption.
  - intros u p radii ns m ch b n k xyz c feats Hok Hx Hn Hc Hk Hf Hu.
    destruct (stage_ok_spec _ _ _ Hok) as (Hlen & Hne & Hpos & Hall).
    destruct (transpose_size xyz _ _ _ Hx) as (fl & Hfl & _).
    pose proof (SA_forward_loop_unknown (Some k) u radii ns m pm ch b n xyz
                  (Some c) feats H1 H2 Hlen Hne Hall Hpos Hx Hn
                  ltac:(exists c; done) Hk Hf Hu) as Hrun.
    assert (Hrun' :
      for_in (SA_forward_step (mk_stage u (Some p) radii ns ch m pm) xyz
                (Some c) feats)
             (py_range (length (groupers (mk_stage u (Some p) radii ns ch m
                                            pm)))) []
      = Raise NotImplementedError) by exact Hrun.
    unfold SA_forward. change (not_none "transpose" (Some xyz)) with (Ok xyz).
    cbn [mbind result_bind]. rewrite Hfl. cbn [mbind result_bind].
    rewrite Hrun'. reflexivity.
  - intros u radii ns m ch b n xyz feats Hl1 Hl2 Hne Hall Hx Hn Hf Hu.
    destruct (transpose_size xyz _ _ _ Hx) as (fl & Hfl & _).
    pose proof (SA_forward_loop_unknown None u radii ns m pm ch b n xyz
                  None feats H1 H2 (conj Hl1 Hl2) Hne Hall I Hx Hn
                  eq_refl ltac:(simpl; lia) Hf Hu) as Hrun.
    assert (Hrun' :
      for_in (SA_forward_step (mk_stage u None radii ns ch m pm) xyz
                None feats)
             (py_range (length (groupers (mk_stage u None radii ns ch m
                                            pm)))) []
      = Raise NotImplementedError) by exact Hrun.
    unfold SA_forward. change (not_none "transpose" (Some xyz)) with (Ok xyz).
    cbn [mbind result_bind]. rewrite Hfl.
    change (npoint (mk_stage u None radii ns ch m pm)) with (@None Z).
    cbn [mbind result_bind]. rewrite Hrun'. reflexivity.
Qed.

End ClaimsForward.
Section ClaimsStages.
Context {T : TensorLib} {L : TensorLaws T}.
Import Pointnet Ref Model Examples.

(** *** C8 *)

(** C8, as amended: a stage without a target point count, called without
    explicit centres on [n > 0] points, returns [None] in the place of the
    centres and a feature tensor with one column, whose width is the sum of
    the final widths of the scales. *)
Theorem C8_global_stage_returns_no_centres u radii ns (m : list (list Z)) pm
    ch b n (xyz : tensor) feats :
  length radii = length ns -> length ns = length m -> m <> [] ->
  forallb nonempty m = true -> pm = "max_pool" \/ pm = "avg_pool" ->
  size xyz = [b; n; 3] -> 0 < n ->
  feat_ok b ch n feats -> (feats = None -> u = true) ->
  exists out,
    SA_forward (mk_stage u None radii ns ch m pm) (Some xyz) feats None
    = Ok (None, out)
    /\ size out = [b; sumZ (final_width <$> m); 1].
Proof.
  intros Hl1 Hl2 Hne Hall Hpm Hx Hn Hf Hu.
  destruct (stage_nets u ch m Hall) as [Hnets Hsum].
  destruct (transpose_size xyz _ _ _ Hx) as (fl & Hfl & _).
  destruct (SA_forward_scales None u radii ns
              ((fun s => (ch + xyz_width u) :: s) <$> m) pm b n ch xyz
              None feats
              ltac:(rewrite length_fmap; exact (conj Hl1 Hl2)) I Hnets Hx Hn
              eq_refl ltac:(simpl; lia) Hf Hu Hpm
              ltac:(destruct m; [done | discriminate]))
    as (lst & out & Hrun & Hcat & Hos).
  assert (Hrun' :
    for_in (SA_forward_step (mk_stage u None radii ns ch m pm) xyz None
              feats)
           (py_range (length (groupers (mk_stage u None radii ns ch m pm))))
           [] = Ok lst)
    by exact Hrun.
  exists out. split; [|rewrite Hos, Hsum; reflexivity].
  unfold SA_forward. change (not_none "transpose" (Some xyz)) with (Ok xyz).
  cbn [mbind result_bind]. rewrite Hfl.
  change (npoint (mk_stage u None radii ns ch m pm)) with (@None Z).
  cbn [mbind result_bind]. rewrite Hrun'. cbn [mbind result_bind].
  rewrite Hcat. reflexivity.
Qed.

End ClaimsStages.

Section WitnessesStages.
Import Pointnet Ref Model Examples.

(** C8, counterexample: a stage without a target count on 16 points
    returns [None] where the centres are expected; and no stage without a
    target count, called without centres, returns a centres tensor. *)
Lemma C8_counterexample :
  SA_forward (T := Shape.lib)
    (mk_stage true None [0.1%Q] [4] 3 [[8]] "max_pool")
    (Some [2; 16; 3]) (Some [2; 3; 16]) None = Ok (None, [2; 8; 1])
  /\ forall (self : SAModule) (xyz feats : option tensor) (c out : tensor),
       npoint self = None ->
       SA_forward self xyz feats None <> Ok (Some c, out).
Proof.
  split; [reflexivity|].
  intros self xyz feats c out Hnp Hf.
  apply SA_forward_centres in Hf as [Hc _]. discriminate Hc.
Qed.

(** C8 at a stage of one scale on 16 points. *)
Lemma C8_witness :
  exists out,
    SA_forward (T := Shape.lib)
      (mk_stage true None [0.1%Q] [4] 3 [[8]] "max_pool")
      (Some [2; 16; 3]) (Some [2; 3; 16]) None = Ok (None, out)
    /\ size (TensorLib := Shape.lib) out = [2; sumZ (final_width <$> [[8]]); 1].
Proof.
  apply (C8_global_stage_returns_no_centres (T := Shape.lib) true [0.1%Q] [4]
           [[8]] "max_pool" 3 2 16 [2; 16; 3] (Some [2; 3; 16]));
    try reflexivity; try (left; reflexivity); try lia; discriminate.
Defined.

(** C4 at the method ["sum_pool"]: the stage without scales is built, and
    a stage object of one scale that is handed 5 centres raises
    [NotImplementedError] in its forward pass. *)
Lemma C4_witness :
  PointnetSAModuleMSG_init (Some 4) [] [] [] true "sum_pool" []
  = (Ok (with_pool_method "sum_pool" (bare_stage (Some 4) "max_pool")), [])
  /\ SA_forward (T := Shape.lib)
       (mk_stage true (Some 8) [0.1%Q] [4] 3 [[8]] "sum_pool")
       (Some [2; 16; 3]) (Some [2; 3; 16]) (Some [2; 5; 3])
     = Raise NotImplementedError.
Proof.
  assert (H1 : "sum_pool" <> "max_pool") by discriminate.
  assert (H2 : "sum_pool" <> "avg_pool") by discriminate.
  destruct (C4_unknown_pool_fails_in_forward (T := Shape.lib) "sum_pool"
              H1 H2) as (Hinit & _ & Hfw & _).
  split.
  - exact (Hinit (Some 4) [] [] [] true []).
  - apply (Hfw true 8 [0.1%Q] [4] [[8]] 3 2 16 5 [2; 16; 3] [2; 5; 3]
             (Some [2; 3; 16]));
      try reflexivity; try lia; discriminate.
Defined.

(** *** C3 *)

(** C3: no stage with a scale is built, and none is run on sampled
    centres.  The constructor of a stage of two scales raises [NameError]
    at line 153, where [pointnet2_utils] is read; so does the first
    iteration of the loop of [Pointnet2MSG.__init__], before line 43
    records a width; and the forward pass of a stage object with a target
    count raises [NameError] at line 101, before any scale is grouped. *)
Theorem C3_no_stage_with_a_scale_is_built_or_run :
  PointnetSAModuleMSG_init (Some 8) [0.1%Q; 0.2%Q] [4; 8] [0%nat; 1%nat]
    false "avg_pool" [[3; 8; 16]; [3; 32]]
  = (Raise (NameError "pointnet2_utils"), [[3; 8; 16]; [3; 32]])
  /\ Pointnet2MSG_init_SA 4 true partial_cfg
     = Raise (NameError "pointnet2_utils")
  /\ SA_forward (T := Shape.lib)
       (mk_stage false (Some 8) [0.1%Q; 0.2%Q] [4; 8] 3 [[8; 16]; [32]]
          "avg_pool")
       (Some [2; 16; 3]) (Some [2; 3; 16]) None
     = Raise (NameError "pointnet2_utils").
Proof. repeat split. Qed.

End WitnessesStages.
Section ClaimsNetwork.
Context {T : TensorLib}.
Import Pointnet Ref Model Examples.

(** *** C1 *)


End ClaimsNetwork.

Section ClaimsBuilt.
Context {T : TensorLib} {L : TensorLaws T}.
Import Pointnet Ref Model Examples.

(** A network the constructor has built with at least one SA stage does
    not complete a forward pass: its first stage has no scale. *)
Lemma built_forward_fails c0 u cfg (fp_mlps : list (list Z))
    (net : Pointnet2MSG) (pc : tensor) :
  Pointnet2MSG_init c0 u cfg fp_mlps = Ok net -> SA_npoints cfg <> [] ->
  is_ok (forward net pc) = false.
Proof.
  unfold Pointnet2MSG_init. intros Hinit Hne.
  destruct (Pointnet2MSG_init_SA c0 u cfg) as [s|] eqn:HSA; [|discriminate].
  cbn [mbind result_bind] in Hinit.
  destruct (for_in _ _ []) as [fps|]; [|discriminate].
  cbn [mbind result_bind] in Hinit. injection Hinit as <-.
  destruct (Pointnet2MSG_init_SA_inv u c0 cfg s HSA) as (Hlen & _ & _ & Hm).
  destruct (modules s) as [|m ms] eqn:Hms.
  { destruct (SA_npoints cfg); [done | discriminate]. }
  destruct (Hm 0%nat m eq_refl) as [_ Hbare].
  assert (Hg : groupers m = []) by (rewrite Hbare; reflexivity).
  assert (Henc : is_ok (forward_encode
                          {| SA_modules := m :: ms; FP_modules := fps |} pc)
                 = false).
  { unfold forward_encode.
    destruct (_break_up_pc pc) as [[xyz feats]|]; [|reflexivity].
    cbn [mbind result_bind]. rewrite py_range_seq.
    apply (for_in_seq_fails (fun _ _ => True) _ _ _ 0 0);
      [exact I | intros; exact I | | simpl; lia].
    intros t _. unfold forward_SA_step.
    change (py_index (SA_modules {| SA_modules := m :: ms;
                                    FP_modules := fps |}) (Z.of_nat 0))
      with (Ok m).
    cbn [mbind result_bind].
    destruct (py_index t.1 (Z.of_nat 0)) as [x|]; [|reflexivity].
    cbn [mbind result_bind].
    destruct (py_index t.2 (Z.of_nat 0)) as [f|]; [|reflexivity].
    cbn [mbind result_bind].
    pose proof (SA_forward_no_scales m x f None Hg) as Hf.
    destruct (SA_forward m x f None); [discriminate | reflexivity]. }
  unfold forward, forward_history.
  destruct (forward_encode _ pc); [discriminate | reflexivity].
Qed.

End ClaimsBuilt.

Section WitnessesNetwork.
Import Pointnet Ref Model Examples.



(** *** C2 *)

(** C2: no network as deep in FP stages as in SA stages completes a
    forward pass.  The constructor of the network of three multiscale
    stages and three FP stages raises [NameError] at line 153, where
    [pointnet2_utils] is read; and a network the constructor has built
    with at least one SA stage, whatever its FP stages, has a first stage
    without scales, whose forward pass fails on every input. *)
Theorem C2_no_forward_pass_completes :
  Pointnet2MSG_init 6 true full_cfg full_fp_mlps
  = Raise (NameError "pointnet2_utils")
  /\ forall (T : TensorLib) (L : TensorLaws T) c0 u cfg
       (fp_mlps : list (list Z)) (net : Pointnet2MSG) (pc : tensor),
       Pointnet2MSG_init c0 u cfg fp_mlps = Ok net -> SA_npoints cfg <> [] ->
       is_ok (forward net pc) = false.
Proof.
  split; [reflexivity|]. intros T L. apply built_forward_fails.
Qed.

(** C2 at one SA stage without scales and one FP stage. *)
Lemma C2_witness :
  exists net,
    Pointnet2MSG_init 4 true
      {| SA_npoints := [None]; SA_radius := [[]]; SA_nsample := [[]];
         SA_mlps := [[]] |} [[8]] = Ok net
    /\ length (FP_modules net) = length (SA_modules net)
    /\ is_ok (forward (T := Shape.lib) net [1; 1024; 7]) = false.
Proof.
  eexists. split; [reflexivity|]. split; [reflexivity|].
  apply (proj2 C2_no_forward_pass_completes Shape.lib shape_laws 4 true
           {| SA_npoints := [None]; SA_radius := [[]]; SA_nsample := [[]];
              SA_mlps := [[]] |} [[8]]); [reflexivity | discriminate].
Defined.

End WitnessesNetwork.

(** ** Interpolation weights *)

Section Weights.
Local Open Scope Q_scope.

Lemma eps_pos : 0 < eps.
Proof. reflexivity. Qed.

Lemma recip_pos (d : Q) : 0 <= d -> 0 < 1 / (d + eps).
Proof.
  intros Hd. apply Qlt_shift_div_l.
  - pose proof eps_pos. lra.
  - lra.
Qed.

Lemma recip_den (d : Q) : 0 <= d -> ~ d + eps == 0.
Proof. intros Hd. pose proof eps_pos. lra. Qed.

(** C6: for distances [d1, d2, d3 >= 0] every denominator of lines 210-212
    is non-zero, the three weights are strictly positive and they sum to
    exactly 1 on the rationals. *)
Theorem C6_weights_positive_sum_1 (d1 d2 d3 : Q) :
  0 <= d1 -> 0 <= d2 -> 0 <= d3 ->
  exists w1 w2 w3,
    weight [d1; d2; d3] = [w1; w2; w3]
    /\ w1 == (1 / (d1 + eps)) / norm [d1; d2; d3]
    /\ w2 == (1 / (d2 + eps)) / norm [d1; d2; d3]
    /\ w3 == (1 / (d3 + eps)) / norm [d1; d2; d3]
    /\ ~ d1 + eps == 0 /\ ~ d2 + eps == 0 /\ ~ d3 + eps == 0
    /\ 0 < norm [d1; d2; d3]
    /\ 0 < w1 /\ 0 < w2 /\ 0 < w3
    /\ w1 + w2 + w3 == 1.
Proof.
  intros H1 H2 H3.
  pose proof (recip_pos d1 H1) as P1. pose proof (recip_pos d2 H2) as P2.
  pose proof (recip_pos d3 H3) as P3.
  assert (HN : norm [d1; d2; d3]
               == 1 / (d1 + eps) + 1 / (d2 + eps) + 1 / (d3 + eps))
    by (unfold norm; simpl; ring).
  assert (HNpos : 0 < norm [d1; d2; d3]) by (rewrite HN; lra).
  assert (Hdiv : forall r, 0 < r -> 0 < r / norm [d1; d2; d3]).
  { intros r Hr. apply Qlt_shift_div_l; [exact HNpos | lra]. }
  eexists _, _, _. split; [reflexivity|].
  do 3 (split; [reflexivity|]).
  do 3 (split; [apply recip_den; assumption|]).
  split; [exact HNpos|].
  do 3 (split; [apply Hdiv; assumption|]).
  set (N := norm [d1; d2; d3]) in *.
  assert (HN0 : ~ N == 0) by lra.
  set (r1 := 1 / (d1 + eps)) in *. set (r2 := 1 / (d2 + eps)) in *.
  set (r3 := 1 / (d3 + eps)) in *.
  transitivity ((r1 + r2 + r3) / N); [field; exact HN0|].
  rewrite <- HN. field. exact HN0.
Qed.

(** C6 at the distances 0, 1 and 3/2. *)
Lemma C6_witness :
  exists w1 w2 w3,
    weight [0; 1; 3 # 2] = [w1; w2; w3]
    /\ w1 == (1 / (0 + eps)) / norm [0; 1; 3 # 2]
    /\ w2 == (1 / (1 + eps)) / norm [0; 1; 3 # 2]
    /\ w3 == (1 / ((3 # 2) + eps)) / norm [0; 1; 3 # 2]
    /\ ~ 0 + eps == 0 /\ ~ 1 + eps == 0 /\ ~ (3 # 2) + eps == 0
    /\ 0 < norm [0; 1; 3 # 2]
    /\ 0 < w1 /\ 0 < w2 /\ 0 < w3
    /\ w1 + w2 + w3 == 1.
Proof.
  apply (C6_weights_positive_sum_1 0 1 (3 # 2)); discriminate.
Defined.

End Weights.

(** ** Pooling over padded neighbourhoods *)

Section PooledPadding.
Import Pooling.

Lemma Qmax_absorb (m p : Q) : (p <= m)%Q -> Qmax m p = m.
Proof.
  intros H. unfold Qmax, GenericMinMax.gmax.
  destruct (Qcompare m p) eqn:E; try reflexivity.
  apply Qlt_alt in E. apply Qle_not_lt in H. contradiction.
Qed.

Lemma foldl_max_lb (vs : list Q) (a b : Q) :
  (b <= a)%Q -> (b <= foldl Qmax a vs)%Q.
Proof.
  revert a. induction vs as [|x vs IH]; intros a H; simpl; [exact H|].
  apply IH. eapply Qle_trans; [exact H | apply Q.le_max_l].
Qed.

Lemma foldl_max_ub (vs : list Q) (a x : Q) :
  x ∈ a :: vs -> (x <= foldl Qmax a vs)%Q.
Proof.
  revert a. induction vs as [|y vs IH]; intros a Hx.
  - apply list_elem_of_singleton in Hx as ->. apply Qle_refl.
  - simpl. apply elem_of_cons in Hx as [->|Hx].
    + apply foldl_max_lb, Q.le_max_l.
    + apply elem_of_cons in Hx as [->|Hx].
      * apply foldl_max_lb, Q.le_max_r.
      * apply IH. right. exact Hx.
Qed.

Lemma foldl_max_absorb (pads : list Q) (m : Q) :
  Forall (fun p => (p <= m)%Q) pads -> foldl Qmax m pads = m.
Proof.
  induction 1 as [|p pads Hp _ IH]; simpl; [reflexivity|].
  rewrite (Qmax_absorb m p Hp). exact IH.
Qed.

Lemma max_pool_row_duplicates (row pads : list Q) :
  row <> [] -> Forall (fun p => p ∈ row) pads ->
  max_pool_row (row ++ pads) = max_pool_row row.
Proof.
  intros Hrow Hpads. destruct row as [|v vs]; [congruence|].
  simpl. rewrite foldl_app. do 2 f_equal.
  apply foldl_max_absorb. eapply Forall_impl; [exact Hpads|].
  intros p Hp. apply foldl_max_ub. exact Hp.
Qed.

Lemma max_pool_row_pad (k : nat) (row : list Q) :
  max_pool_row (pad_row k row) = max_pool_row row.
Proof.
  destruct row as [|v vs] eqn:E; [reflexivity|].
  unfold pad_row. apply max_pool_row_duplicates; [discriminate|].
  apply Forall_forall. intros p Hp.
  apply elem_of_replicate in Hp as [-> _]. left.
Qed.

Lemma mapM_fmap {A B C} (f : B -> result C) (f' : A -> result C)
    (g : A -> B) (l : list A) :
  (forall a, f (g a) = f' a) -> mapM f (g <$> l) = mapM f' l.
Proof.
  intros H. induction l as [|a l IH]; [reflexivity|].
  change (g <$> a :: l) with (g a :: (g <$> l)). cbn [mapM].
  rewrite H, IH. reflexivity.
Qed.

(** C7: max pooling over the neighbour dimension gives the same values
    whether or not a neighbourhood has been filled up with copies of its
    first neighbour; more generally, appending to a non-empty row any values
    that already occur in it leaves its maximum unchanged. *)
Theorem C7_max_pool_ignores_padding :
  (forall (k : nat) (t : values), max_pool2d (pad k t) = max_pool2d t)
  /\ (forall row pads : list Q,
        row <> [] -> Forall (fun p => p ∈ row) pads ->
        max_pool_row (row ++ pads) = max_pool_row row).
Proof.
  split; [|exact max_pool_row_duplicates].
  intros k t. unfold max_pool2d, pool_rows, pad.
  apply mapM_fmap. intros a. apply mapM_fmap. intros a'.
  apply mapM_fmap. apply max_pool_row_pad.
Qed.

(** C7 at the row [1, 3, 2] padded with [1, 1, 3]. *)
Lemma C7_witness :
  max_pool_row ([1; 3; 2] ++ [1; 1; 3])%Q = max_pool_row [1; 3; 2]%Q.
Proof.
  apply (proj2 C7_max_pool_ignores_padding); [discriminate|].
  repeat constructor; set_solver.
Defined.

(** Average pooling has no such invariance: padding [1, 3] with one copy of
    its first value moves the average from 2 to 5/3. *)
Lemma avg_pool_row_biased :
  exists a b,
    avg_pool_row (pad_row 1 [1; 3]%Q) = Ok [a] /\ avg_pool_row [1; 3]%Q = Ok [b]
    /\ (a == 5 # 3)%Q /\ (b == 2)%Q /\ ~ (a == b)%Q.
Proof.
  eexists _, _. split; [reflexivity|]. split; [reflexivity|].
  split; [reflexivity|]. split; [reflexivity|]. discriminate.
Qed.

End PooledPadding.

(** ** The test run *)

Section TestRun.
Import Pipeline Trace.
Variable w : world.

Lemma inert_refl (s : state) : inert s s.
Proof.
  split; [|reflexivity]. exists []. rewrite app_nil_r. split; reflexivity.
Qed.

Lemma inert_trans (s1 s2 s3 : state) :
  inert s1 s2 -> inert s2 s3 -> inert s1 s3.
Proof.
  intros [(e1 & Ht1 & He1) Ha1] [(e2 & Ht2 & He2) Ha2]. split.
  - exists (e1 ++ e2). rewrite Ht2, Ht1, app_assoc, forallb_app, He1, He2.
    split; reflexivity.
  - intros name Hn. rewrite (Ha2 name Hn). apply Ha1, Hn.
Qed.

Lemma inert_emit (s : state) (e : event) :
  example_event e = false -> inert s (emit e s).
Proof.
  intros He. split; [|reflexivity]. exists [e]. split; [reflexivity|].
  simpl. rewrite He. reflexivity.
Qed.

Lemma quiet_ret {A} (a : A) : quiet (mret a).
Proof. intros s. split; [discriminate | apply inert_refl]. Qed.

Lemma quiet_raise {A} (e : exn) : quiet (raise (A := A) e).
Proof. intros s. split; [discriminate | apply inert_refl]. Qed.

Lemma quiet_bind {A B} (m : M A) (f : A -> M B) :
  quiet m -> (forall a, quiet (f a)) -> quiet (m ≫= f).
Proof.
  intros Hm Hf s. destruct (Hm s) as [Hd Hi].
  unfold mbind, M_bind. destruct (m s) as [[a|e|] s1]; simpl in *.
  - destruct (Hf a s1) as [Hd' Hi']. split; [exact Hd'|].
    eapply inert_trans; eassumption.
  - split; [discriminate | exact Hi].
  - congruence.
Qed.

Lemma of_result_ends {A} (r : result A) : of_result r <> Diverges.
Proof. destruct r; discriminate. Qed.

Lemma quiet_getattr (o : value) (name : string) :
  example_event (EGetattr o name) = false -> quiet (getattr w o name).
Proof.
  intros He s.
  destruct o; simpl;
    try (split; [apply of_result_ends | apply inert_emit; exact He]).
  - split; [discriminate | apply inert_refl].
  - destruct (attrs s !! name); (split; [discriminate | apply inert_refl]).
Qed.

Lemma quiet_call (f : value) (args : list value) : quiet (call w f args).
Proof.
  intros s.
  destruct f; simpl;
    try (split; [apply of_result_ends | apply inert_emit; reflexivity]).
  split; [discriminate | apply inert_refl].
Qed.

Lemma quiet_setattr_device (o v : value) : quiet (setattr o "device" v).
Proof.
  intros s.
  destruct o; simpl;
    try (split; [discriminate | apply inert_emit; reflexivity]).
  - split; [discriminate | apply inert_refl].
  - split; [discriminate|]. split.
    + exists []. rewrite app_nil_r. split; reflexivity.
    + intros name Hn. simpl. apply lookup_insert_ne. congruence.
Qed.

Lemma quiet_load_global (name : string) : quiet (load_global name).
Proof.
  unfold load_global.
  destruct (existsb _ _); [apply quiet_ret | apply quiet_raise].
Qed.

Ltac quiet_step :=
  first [ apply quiet_ret | apply quiet_raise | apply quiet_load_global
        | apply quiet_call | apply quiet_setattr_device
        | apply quiet_getattr; reflexivity
        | apply quiet_bind; [|intros ?] ].

Lemma quiet_log_info_format (fmt : string) (x : M value) :
  quiet x -> quiet (log_info_format w fmt x).
Proof.
  intros Hx. unfold log_info_format.
  repeat first [exact Hx | quiet_step].
Qed.

Lemma quiet_get_batcher (device : value) (split : string) :
  quiet (get_batcher w device split).
Proof.
  unfold get_batcher.
  repeat first [quiet_step
               | match goal with |- quiet (if ?b then _ else _) =>
                   destruct b end].
Qed.

(** The setup ends, by returning or by raising, and touches neither a test
    example nor an attribute of the pipeline object other than [device]. *)
Lemma quiet_run_test_setup : quiet (run_test_setup w).
Proof.
  unfold run_test_setup.
  repeat first [ apply quiet_log_info_format | apply quiet_get_batcher
               | quiet_step ].
Qed.

Lemma run_test_after_setup (fuel : nat) (s : state) :
  run_test w fuel s
  = (after_setup (run_test_setup w s).1, (run_test_setup w s).2).
Proof.
  unfold run_test. unfold mbind at 1. unfold M_bind at 1.
  destruct (run_test_setup w s) as [[[l args]|e|] s1]; reflexivity.
Qed.

End TestRun.

Section ClaimsTestRun.
Import Pipeline Trace.

(** C10, counterexample: on a pipeline built with [dataset=None], the
    constructor's default, in a world where every attribute is there and
    every call returns, [run_test] raises [AttributeError] at
    [dataset.get_split] of line 178; the name [train_sampler] is never
    read. *)
Lemma C10_counterexample :
  (run_test obliging 1 (fresh VNone)).1 = Throw (AttributeError "get_split")
  /\ (run_test obliging 1 (fresh VNone)).1
     <> Throw (NameError "train_sampler").
Proof. split; [vm_compute; reflexivity | vm_compute; discriminate]. Qed.

(** C10, as amended: in every world, for every pipeline object and every
    bound on the inference loop, [run_test] ends with an exception: the one
    its setup (lines 161-182) raises, or, when the setup completes,
    [NameError] for [train_sampler].  It ends in the state the setup left:
    no event of the run belongs to a processed test example, and no
    attribute of the pipeline object other than [device] has changed, so
    [test_accs] and [test_ious] are never assigned. *)
Theorem C10_run_test_never_reaches_the_loop (w : world) (fuel : nat)
    (s : state) :
  run_test w fuel s
  = (after_setup (run_test_setup w s).1, (run_test_setup w s).2)
  /\ (exists e, (run_test w fuel s).1 = Throw e)
  /\ (forall x, (run_test_setup w s).1 = Done x ->
        (run_test w fuel s).1 = Throw (NameError "train_sampler"))
  /\ (exists evs, trace (run_test w fuel s).2 = trace s ++ evs
                  /\ forallb (fun e => negb (example_event e)) evs = true)
  /\ attrs (run_test w fuel s).2 !! "test_accs" = attrs s !! "test_accs"
  /\ attrs (run_test w fuel s).2 !! "test_ious" = attrs s !! "test_ious".
Proof.
  pose proof (run_test_after_setup w fuel s) as Hrun.
  destruct (quiet_run_test_setup w s) as [Hend [Hev Hattr]].
  rewrite Hrun. simpl. split; [reflexivity|].
  split; [|split; [|split; [exact Hev|split; apply Hattr; discriminate]]].
  - destruct (run_test_setup w s).1 as [x|e|]; simpl; eauto. congruence.
  - intros x ->. reflexivity.
Qed.

(** With a dataset, in the obliging world, the run gets as far as line 183. *)
Lemma C10_witness :
  (run_test obliging 1 (fresh (VObj "dataset"))).1
  = Throw (NameError "train_sampler").
Proof.
  destruct (C10_run_test_never_reaches_the_loop obliging 1
              (fresh (VObj "dataset"))) as (_ & _ & H & _).
  eapply H. vm_compute. reflexivity.
Defined.

End ClaimsTestRun.
(** * Further properties of pointnet.py *)


Section ForwardShape.
Context {T : TensorLib}.
Import Pointnet.



(** X2: a network with more FP stages than SA stages never completes a
    forward pass: whatever the input, the decoder loop reaches an index
    below the first depth, or fails before. *)
Theorem X2_more_FP_than_SA_stages_never_returns (self : Pointnet2MSG)
    (pc : tensor) :
  (length (SA_modules self) < length (FP_modules self))%nat ->
  is_ok (forward self pc) = false.
Proof.
  intros Hlen. unfold forward, forward_history, forward_decode.
  destruct (forward_encode self pc) as [l0|] eqn:Henc; [|reflexivity].
  destruct (forward_encode_history self pc l0 Henc)
    as (raw & _ & H1 & H2 & _ & _).
  simpl. rewrite py_range3_down.
  assert (Hfail : is_ok (for_in (forward_FP_step self)
                    ((fun k : nat => - Z.of_nat (S k))
                       <$> seq 0 (length (FP_modules self))) l0) = false).
  { apply (for_in_seq_fails
             (fun _ (l : history) =>
                length l.1 = S (length (SA_modules self)))
             _ _ _ 0 (length (SA_modules self))); [exact H1| | |lia].
    - intros k t t' _ Ht Hs.
      destruct (forward_FP_step_writes _ _ _ _ Hs) as [-> _]. exact Ht.
    - intros t Ht. unfold forward_FP_step.
      destruct (py_index (FP_modules self) _); [|reflexivity]. simpl.
      rewrite (py_index_out_of_range t.1
                 (- Z.of_nat (S (length (SA_modules self))) - 1))
        by (rewrite Ht; lia).
      reflexivity. }
  destruct (for_in _ _ l0); [discriminate | reflexivity].
Qed.

End ForwardShape.

Section ForwardShapeWitnesses.
Import Pointnet Model Examples.


(** X2 at a network without SA stages and with one FP stage. *)
Lemma X2_witness :
  is_ok (forward (T := Shape.lib)
           {| SA_modules := []; FP_modules := [{| mlp := [4; 8] |}] |}
           [1; 16; 7]) = false.
Proof.
  apply (X2_more_FP_than_SA_stages_never_returns (T := Shape.lib)).
  simpl. lia.
Defined.

End ForwardShapeWitnesses.

(** ** Construction of the network: what is built, and when it fails *)

Section InitMore.
Import Pointnet Ref Model.

Lemma py_index_cases {A} (l : list A) (i : Z) :
  (exists a, py_index l i = Ok a) \/ py_index l i = Raise IndexError.
Proof.
  unfold py_index. destruct (_ && _); [|right; reflexivity].
  destruct (l !! _); [left; eauto | right; reflexivity].
Qed.

(** X3: whenever [Pointnet2MSG.__init__] returns, it has built one SA
    stage per configured stage and one FP stage per entry of [fp_mlps], and
    every SA stage is a stage without scales that pools with
    ["max_pool"]: a configured scale makes the constructor of its stage
    raise at line 153. *)
Theorem X3_init_builds_stages_without_scales u c0 cfg
    (fp_mlps : list (list Z)) (self : Pointnet2MSG) :
  Pointnet2MSG_init c0 u cfg fp_mlps = Ok self ->
  length (SA_modules self) = length (SA_npoints cfg)
  /\ length (FP_modules self) = length fp_mlps
  /\ forall (i : nat) m, SA_modules self !! i = Some m ->
       SA_npoints cfg !! i = Some (npoint m)
       /\ m = bare_stage (npoint m) "max_pool".
Proof.
  unfold Pointnet2MSG_init. intros H.
  destruct (Pointnet2MSG_init_SA c0 u cfg) as [s|] eqn:HSA; [|discriminate].
  cbn [mbind result_bind] in H.
  destruct (for_in _ _ []) as [fps|] eqn:HFP; [|discriminate].
  cbn [mbind result_bind] in H. injection H as <-. simpl.
  destruct (Pointnet2MSG_init_SA_inv u c0 cfg s HSA) as (Hlen & _ & _ & Hm).
  split; [exact Hlen|]. split; [|exact Hm].
  rewrite py_range_seq in HFP.
  apply (for_in_seq_inv (fun k (fps : list FPModule) => length fps = k))
    in HFP; [exact HFP | reflexivity |].
  intros k t t' _ Ht Hs. unfold FP_init_step in Hs.
  destruct (if _ <? _ then _ else _) as [pre|]; [|discriminate].
  cbn [mbind result_bind] in Hs.
  destruct (py_index (skip_channel_list s) _); [|discriminate].
  cbn [mbind result_bind] in Hs.
  destruct (py_index fp_mlps _); [|discriminate].
  cbn [mbind result_bind] in Hs. injection Hs as <-.
  rewrite length_app, Ht. simpl. lia.
Qed.

(** X4: when the loop over the SA stages completes, with at least one SA
    stage and at least two more FP stages than SA stages,
    [Pointnet2MSG.__init__] raises [IndexError]: the loop over [fp_mlps]
    reads [skip_channel_list] past its end. *)
Theorem X4_init_too_many_FP_stages u c0 cfg (fp_mlps : list (list Z)) :
  is_ok (Pointnet2MSG_init_SA c0 u cfg) = true ->
  (0 < length (SA_npoints cfg))%nat ->
  (length (SA_npoints cfg) + 2 <= length fp_mlps)%nat ->
  Pointnet2MSG_init c0 u cfg fp_mlps = Raise IndexError.
Proof.
  intros HSA Hpos Hlen. unfold Pointnet2MSG_init.
  destruct (Pointnet2MSG_init_SA c0 u cfg) as [s|] eqn:Es; [|discriminate].
  cbn [mbind result_bind].
  destruct (Pointnet2MSG_init_SA_inv u c0 cfg s Es) as (_ & Hsk & Ho & _).
  assert (Hout : exists c, out_channels s = Some c).
  { rewrite Ho. destruct (SA_npoints cfg); [simpl in Hpos; lia | eauto]. }
  assert (Hskip : length (skip_channel_list s) = S (length (SA_npoints cfg))).
  { rewrite Hsk. simpl. rewrite length_replicate. reflexivity. }
  clear Hsk Ho Es HSA.
  assert (Hpre : forall k : nat,
    let pre := if Z.of_nat k + 1 <? Z.of_nat (length fp_mlps)
               then m ← py_index fp_mlps (Z.of_nat k + 1); py_index m (-1)
               else match out_channels s with
                    | Some c => Ok c
                    | None => Raise (UnboundLocalError "out_channels")
                    end in
    (exists c, pre = Ok c) \/ pre = Raise IndexError).
  { intros k. cbv zeta. destruct (_ <? _).
    - destruct (py_index_cases fp_mlps (Z.of_nat k + 1)) as [[m ->]| ->];
        [|right; reflexivity].
      simpl. apply py_index_cases.
    - destruct Hout as [c ->]. left. eauto. }
  rewrite py_range_seq.
  rewrite (for_in_seq_raises (fun _ _ => True) (FP_init_step fp_mlps s)
             Z.of_nat IndexError (length fp_mlps) 0
             (S (length (SA_npoints cfg))) [] I); [reflexivity| | |lia].
  - intros k t _ _. unfold FP_init_step.
    destruct (Hpre k) as [[c ->]| ->]; [|left; reflexivity]. simpl.
    destruct (py_index_cases (skip_channel_list s) (Z.of_nat k))
      as [[w ->]| ->]; [|left; reflexivity]. simpl.
    destruct (py_index_cases fp_mlps (Z.of_nat k)) as [[m ->]| ->];
      [|left; reflexivity].
    right. eexists. split; [reflexivity | exact I].
  - intros t _. unfold FP_init_step.
    rewrite (py_index_out_of_range (skip_channel_list s)
               (Z.of_nat (S (length (SA_npoints cfg)))))
      by (rewrite Hskip; lia).
    destruct (Hpre (S (length (SA_npoints cfg)))) as [[c ->]| ->];
      reflexivity.
Qed.

(** X5: a configuration without SA stages builds only the empty network:
    with any FP stage configured the constructor fails, and with exactly one
    it raises [UnboundLocalError], because [out_channels] is assigned only
    inside the loop over the SA stages. *)
Theorem X5_init_without_SA_stages u c0 cfg (fp_mlps : list (list Z)) :
  SA_npoints cfg = [] ->
  (fp_mlps = [] ->
   Pointnet2MSG_init c0 u cfg fp_mlps
   = Ok {| SA_modules := []; FP_modules := [] |})
  /\ (fp_mlps <> [] -> is_ok (Pointnet2MSG_init c0 u cfg fp_mlps) = false)
  /\ (length fp_mlps = 1%nat ->
      Pointnet2MSG_init c0 u cfg fp_mlps
      = Raise (UnboundLocalError "out_channels")).
Proof.
  intros Hnp. unfold Pointnet2MSG_init, Pointnet2MSG_init_SA.
  rewrite Hnp. simpl. split; [intros ->; reflexivity|]. split.
  - intros Hne. rewrite py_range_seq.
    destruct fp_mlps as [|m0 [|m1 fp]]; [done|reflexivity|].
    assert (H : is_ok (for_in
                (FP_init_step (m0 :: m1 :: fp)
                   {| in_channels := c0; out_channels := None;
                      skip_channel_list := [c0]; modules := [] |})
                (Z.of_nat <$> seq 0 (length (m0 :: m1 :: fp))) [])
              = false).
    { apply (for_in_seq_fails (fun _ _ => True) _ _ _ 0 1); [exact I| | |].
      - intros; exact I.
      - intros t _. unfold FP_init_step.
        destruct (if _ <? _ then _ else _); reflexivity.
      - simpl. lia. }
    destruct (for_in _ _ []); [discriminate | reflexivity].
  - intros Hlen. destruct fp_mlps as [|m0 [|m1 fp]]; try discriminate.
    reflexivity.
Qed.

End InitMore.

Section InitMoreWitnesses.
Import Pointnet Ref Model Examples.

(** X3 at three stages without scales and one FP stage. *)
Lemma X3_witness :
  length (SA_modules {| SA_modules := [bare_stage (Some 8) "max_pool";
                                       bare_stage (Some 4) "max_pool";
                                       bare_stage None "max_pool"];
                        FP_modules := [{| mlp := [4; 32] |}] |})
  = length (SA_npoints bare_cfg)
  /\ Pointnet2MSG_init 4 true bare_cfg [[32]]
     = Ok {| SA_modules := [bare_stage (Some 8) "max_pool";
                            bare_stage (Some 4) "max_pool";
                            bare_stage None "max_pool"];
             FP_modules := [{| mlp := [4; 32] |}] |}.
Proof.
  assert (H : Pointnet2MSG_init 4 true bare_cfg [[32]]
              = Ok {| SA_modules := [bare_stage (Some 8) "max_pool";
                                     bare_stage (Some 4) "max_pool";
                                     bare_stage None "max_pool"];
                      FP_modules := [{| mlp := [4; 32] |}] |})
    by reflexivity.
  split; [|exact H].
  exact (proj1 (X3_init_builds_stages_without_scales true 4 bare_cfg [[32]]
                  _ H)).
Defined.

(** X4 at three SA stages without scales and five FP stages. *)
Lemma X4_witness :
  Pointnet2MSG_init 4 true bare_cfg [[8]; [8]; [8]; [8]; [8]]
  = Raise IndexError.
Proof.
  apply X4_init_too_many_FP_stages; [reflexivity | simpl; lia | simpl; lia].
Defined.

(** X5 at the empty configuration with one FP stage. *)
Lemma X5_witness :
  Pointnet2MSG_init 6 true
    {| SA_npoints := []; SA_radius := []; SA_nsample := []; SA_mlps := [] |}
    [[128; 128]]
  = Raise (UnboundLocalError "out_channels").
Proof.
  apply (X5_init_without_SA_stages true 6
           {| SA_npoints := []; SA_radius := []; SA_nsample := [];
              SA_mlps := [] |} [[128; 128]] eq_refl).
  reflexivity.
Defined.

End InitMoreWitnesses.

(** ** Splitting the input *)

Section BreakUp.
Context {T : TensorLib} {L : TensorLaws T}.

(** X6: [_break_up_pc] on a [(B, N, w)] cloud returns the first
    [min(3, w)] columns as coordinates; with more than 3 columns the others
    come back as features of size [(B, w - 3, N)], with 3 or fewer the
    features are [None].  A cloud with fewer than 3 columns is not rejected
    here.  A tensor without dimensions raises [IndexError]. *)
Theorem X6_break_up_pc_shapes (pc : tensor) :
  (forall b n w, size pc = [b; n; w] -> 0 <= w ->
     exists feats,
       _break_up_pc pc = Ok (slice_last 0 (Some 3) pc, feats)
       /\ size (slice_last 0 (Some 3) pc) = [b; n; Z.min 3 w]
       /\ (3 < w -> exists f, feats = Some f /\ size f = [b; w - 3; n])
       /\ (w <= 3 -> feats = None))
  /\ (size pc = [] -> _break_up_pc pc = Raise IndexError).
Proof.
  split.
  - intros b n w Hpc Hw.
    assert (Hl : py_index (size pc) (-1) = Ok w)
      by (rewrite Hpc; apply (py_index_last [b; n])).
    unfold _break_up_pc. rewrite Hl. simpl.
    pose proof (slice_xyz_size pc b n w Hpc Hw) as Hx.
    destruct (Z.ltb_spec 3 w) as [Hlt|Hge].
    + pose proof (slice_features_size pc b n w Hpc Hw) as Hf.
      destruct (transpose_size _ _ _ _ Hf) as (f & -> & Hfs).
      exists (Some f). split; [reflexivity|]. split; [exact Hx|].
      split; [|lia]. intros _. exists f. split; [reflexivity|].
      rewrite Hfs. do 2 f_equal. lia.
    + exists None. split; [reflexivity|]. split; [exact Hx|].
      split; [lia | reflexivity].
  - intros Hpc. unfold _break_up_pc. rewrite Hpc. reflexivity.
Qed.

End BreakUp.

(** X6 at a cloud of 16 points with two columns only. *)
Lemma X6_witness :
  exists feats,
    _break_up_pc (T := Shape.lib) [1; 16; 2]
    = Ok (slice_last (TensorLib := Shape.lib) 0 (Some 3) [1; 16; 2], feats)
    /\ size (TensorLib := Shape.lib)
         (slice_last (TensorLib := Shape.lib) 0 (Some 3) [1; 16; 2])
       = [1; 16; Z.min 3 2]
    /\ (3 < 2 -> exists f, feats = Some f
                           /\ size (TensorLib := Shape.lib) f = [1; 2 - 3; 16])
    /\ (2 <= 3 -> feats = None).
Proof.
  apply (proj1 (X6_break_up_pc_shapes (T := Shape.lib) [1; 16; 2]) 1 16 2);
    [reflexivity | lia].
Defined.

(** ** More on the SA stage *)

Section StageMore.
Context {T : TensorLib} {L : TensorLaws T}.
Import Pointnet Ref Model.

(** X7: when centres are passed to the forward pass of a ball-query stage
    they are returned as they are, whatever [npoint] says, and the features
    have one column for each of them. *)
Theorem X7_explicit_centres_are_kept u p radii ns (m : list (list Z)) pm
    ch b n k (xyz c : tensor) feats :
  stage_ok radii ns m = true -> pm = "max_pool" \/ pm = "avg_pool" ->
  size xyz = [b; n; 3] -> 0 < n -> size c = [b; k; 3] -> 0 < k ->
  feat_ok b ch n feats -> (feats = None -> u = true) ->
  exists out,
    SA_forward (mk_stage u (Some p) radii ns ch m pm) (Some xyz) feats
      (Some c) = Ok (Some c, out)
    /\ size out = [b; sumZ (final_width <$> m); k].
Proof.
  intros Hok Hpm Hx Hn Hc Hk Hf Hu.
  destruct (stage_ok_spec _ _ _ Hok) as (Hlen & Hne & Hpos & Hall).
  destruct (stage_nets u ch m Hall) as [Hnets Hsum].
  destruct (transpose_size xyz _ _ _ Hx) as (fl & Hfl & _).
  destruct (SA_forward_scales (Some k) u radii ns
              ((fun s => (ch + xyz_width u) :: s) <$> m) pm b n ch xyz
              (Some c) feats
              ltac:(rewrite length_fmap; exact Hlen) Hpos Hnets Hx Hn
              ltac:(exists c; done) Hk Hf Hu Hpm
              ltac:(destruct m; [done | discriminate]))
    as (lst & out & Hrun & Hcat & Hos).
  assert (Hrun' :
    for_in (SA_forward_step (mk_stage u (Some p) radii ns ch m pm) xyz
              (Some c) feats)
           (py_range (length (groupers (mk_stage u (Some p) radii ns ch m
                                          pm)))) [] = Ok lst)
    by exact Hrun.
  exists out. split; [|rewrite Hos, Hsum; reflexivity].
  unfold SA_forward. change (not_none "transpose" (Some xyz)) with (Ok xyz).
  cbn [mbind result_bind]. rewrite Hfl. cbn [mbind result_bind].
  rewrite Hrun'. cbn [mbind result_bind]. rewrite Hcat. reflexivity.
Qed.

(** X8: a stage without scales can be constructed, and the caller's lists
    are not touched; its forward pass never returns, since it ends by
    concatenating an empty list of tensors. *)
Theorem X8_stage_without_scales :
  (forall np u pm (h : heap),
     PointnetSAModuleMSG_init np [] [] [] u pm h
     = (Ok {| npoint := np; groupers := []; mlps := []; pool_method := pm |},
        h))
  /\ (forall self xyz feats new_xyz,
        groupers self = [] ->
        is_ok (SA_forward self xyz feats new_xyz) = false).
Proof.
  split; [reflexivity|].
  intros self xyz feats new_xyz Hg. apply SA_forward_no_scales, Hg.
Qed.

End StageMore.

Section StageMoreWitnesses.
Import Pointnet Ref Model.

(** X7 at a stage with target 8 that is handed 5 centres. *)
Lemma X7_witness :
  exists out,
    SA_forward (T := Shape.lib)
      (mk_stage true (Some 8) [0.1%Q; 0.2%Q] [4; 8] 3 [[8; 16]; [32]]
         "max_pool")
      (Some [2; 16; 3]) (Some [2; 3; 16]) (Some [2; 5; 3])
    = Ok (Some [2; 5; 3], out)
    /\ size (TensorLib := Shape.lib) out
       = [2; sumZ (final_width <$> [[8; 16]; [32]]); 5].
Proof.
  apply (X7_explicit_centres_are_kept (T := Shape.lib) true 8
           [0.1%Q; 0.2%Q] [4; 8] [[8; 16]; [32]] "max_pool" 3 2 16 5
           [2; 16; 3] [2; 5; 3] (Some [2; 3; 16]));
    try reflexivity; try (left; reflexivity); try lia; discriminate.
Defined.

(** X8 at the stage without scales on 16 points. *)
Lemma X8_witness :
  is_ok (SA_forward (T := Shape.lib)
           {| npoint := Some 4; groupers := []; mlps := [];
              pool_method := "max_pool" |}
           (Some [2; 16; 3]) (Some [2; 3; 16]) None) = false.
Proof.
  apply (proj2 (X8_stage_without_scales (T := Shape.lib))). reflexivity.
Defined.

End StageMoreWitnesses.
(** ** More on the construction of a stage *)

Section StoreMore.
Import Pointnet Ref.

(** X9: the single-scale [PointnetSAModule] is never built.  Its one scale
    makes the constructor raise [NameError] at line 153, where
    [pointnet2_utils] is read, whatever the arguments; the caller's list
    [mlp] is left as it was. *)
Theorem X9_single_scale_stage_is_never_built (l : loc) np radius nsample u pm
    (h : heap) :
  PointnetSAModule_init l np radius nsample u pm h
  = (Raise (NameError "pointnet2_utils"), h).
Proof. apply SA_init_unbound; done. Qed.

(** X10: with [use_xyz=False] the constructor of a stage never writes to
    the caller's lists, whether it returns or raises. *)
Theorem X10_without_use_xyz_nothing_is_written np radii nsamples
    (mlps : list loc) pm (h : heap) :
  (PointnetSAModuleMSG_init np radii nsamples mlps false pm h).2 = h.
Proof.
  destruct (SA_init_cases np radii nsamples mlps false pm h)
    as [E|[E|[_ E]]]; rewrite E; reflexivity.
Qed.

(** X11: how the constructor of a stage ends.  With lists of equal length
    and at least one scale it raises [NameError] at the first scale and
    the caller's lists are as they were; it returns only when there is no
    scale at all, and then the stage without scales. *)
Theorem X11_constructor_returns_only_without_scales np radii nsamples
    (mlps : list loc) u pm (h : heap) :
  (length radii = length nsamples -> length nsamples = length mlps ->
   radii <> [] ->
   PointnetSAModuleMSG_init np radii nsamples mlps u pm h
   = (Raise (NameError "pointnet2_utils"), h))
  /\ (forall self,
        (PointnetSAModuleMSG_init np radii nsamples mlps u pm h).1 = Ok self ->
        (radii = [] /\ nsamples = [] /\ mlps = [])
        /\ self = bare_stage np pm).
Proof.
  split; [apply SA_init_unbound|].
  intros self.
  destruct (SA_init_cases np radii nsamples mlps u pm h)
    as [E|[E|[Hnil E]]]; rewrite E; simpl; try discriminate.
  intros H. injection H as <-. done.
Qed.

End StoreMore.

Section StoreMoreWitnesses.
Import Pointnet Ref.

(** X10 at two scales that share one list. *)
Lemma X10_witness :
  (PointnetSAModuleMSG_init (Some 4) [0.1%Q; 0.2%Q] [4; 4] [0%nat; 0%nat]
     false "max_pool" [[3; 8]]).2 = [[3; 8]].
Proof.
  exact (X10_without_use_xyz_nothing_is_written (Some 4) [0.1%Q; 0.2%Q]
           [4; 4] [0%nat; 0%nat] "max_pool" [[3; 8]]).
Defined.

(** X11 at two scales that share one list, with [use_xyz=True]. *)
Lemma X11_witness :
  PointnetSAModuleMSG_init (Some 4) [0.1%Q; 0.2%Q] [4; 4] [0%nat; 0%nat]
    true "max_pool" [[3; 8]]
  = (Raise (NameError "pointnet2_utils"), [[3; 8]]).
Proof.
  apply (proj1 (X11_constructor_returns_only_without_scales (Some 4)
                  [0.1%Q; 0.2%Q] [4; 4] [0%nat; 0%nat] true "max_pool"
                  [[3; 8]])); [reflexivity | reflexivity | discriminate].
Defined.

End StoreMoreWitnesses.

(** ** More on the FP stage *)

Section FPMore.
Context {T : TensorLib} {L : TensorLaws T}.
Import Pointnet.

(** X12: [PointnetFPModule.forward].  With [known] given it raises
    [NameError] at line 209, where [pointnet2_utils] is read.  With [known]
    [None] it returns features of size [(B, mlp[-1], n)] for the [n] points
    of [unknown], broadcast from the single column of [known_feats];
    [unknow_feats], when given, is concatenated after them, so the
    transform takes [C2 + C1] channels, and [C2] alone when [unknow_feats]
    is [None].  Without [known_feats] the pass never returns. *)
Theorem X12_FP_forward_shape :
  (forall ws w b n c1 c2 (unknown unknow_feats : option tensor)
          (kf : tensor),
     xyz_ok b n unknown -> size kf = [b; c2; 1] ->
     feat_ok b c1 n unknow_feats ->
     exists out,
       FP_forward {| mlp := (c2 + c1) :: ws ++ [w] |} unknown None
         unknow_feats (Some kf) = Ok out
       /\ size out = [b; w; n])
  /\ (forall self (k : tensor) (unknown unknow_feats known_feats
                                  : option tensor),
        FP_forward self unknown (Some k) unknow_feats known_feats
        = Raise (NameError "pointnet2_utils"))
  /\ (forall self (unknown known unknow_feats : option tensor),
        is_ok (FP_forward self unknown known unknow_feats None) = false).
Proof.
  split; [intros; apply (FP_forward_broadcast_size ws w b n c1 c2);
          assumption|].
  split; [intros; apply FP_forward_unbound|].
  intros. apply FP_forward_no_known_feats.
Qed.

End FPMore.

(** X12 at 16 dense points and one sparse point, widths 8 and 3. *)
Lemma X12_witness :
  exists out,
    FP_forward (T := Shape.lib) {| Pointnet.mlp := (8 + 3) :: [32] ++ [16] |}
      (Some [2; 16; 3]) None (Some [2; 3; 16]) (Some [2; 8; 1])
    = Ok out
    /\ size (TensorLib := Shape.lib) out = [2; 16; 16].
Proof.
  apply (proj1 (X12_FP_forward_shape (T := Shape.lib)) [32] 16 2 16 3 8
           (Some [2; 16; 3]) (Some [2; 3; 16]) [2; 8; 1]);
    [eexists; split; reflexivity | reflexivity | reflexivity].
Defined.

(** ** More on the interpolation weights *)

Section WeightsMore.
Local Open Scope Q_scope.

Lemma recip_antitone (d d' : Q) :
  0 <= d -> d <= d' -> 1 / (d' + eps) <= 1 / (d + eps).
Proof.
  intros Hd Hle. pose proof eps_pos as He.
  apply Qle_shift_div_r; [lra|].
  assert (E : 1 / (d + eps) * (d' + eps) == (d' + eps) / (d + eps))
    by (field; lra).
  rewrite E. apply Qle_shift_div_l; lra.
Qed.

Lemma div_mono (r r' N : Q) : 0 < N -> r <= r' -> r / N <= r' / N.
Proof.
  intros HN Hr. apply Qle_shift_div_l; [exact HN|].
  assert (E : r / N * N == r) by (field; lra).
  rewrite E. exact Hr.
Qed.

(** X13: the interpolation weights are ordered against the distances: of
    two of the three neighbours the nearer one never has the smaller
    weight, and neighbours at the same distance have the same weight. *)
Theorem X13_nearer_neighbour_weighs_more (d1 d2 d3 : Q) :
  0 <= d1 -> 0 <= d2 -> 0 <= d3 ->
  exists w1 w2 w3,
    weight [d1; d2; d3] = [w1; w2; w3]
    /\ (d1 <= d2 -> w2 <= w1) /\ (d2 <= d1 -> w1 <= w2)
    /\ (d2 <= d3 -> w3 <= w2) /\ (d3 <= d2 -> w2 <= w3)
    /\ (d1 <= d3 -> w3 <= w1) /\ (d3 <= d1 -> w1 <= w3).
Proof.
  intros H1 H2 H3.
  pose proof (recip_pos d1 H1) as P1. pose proof (recip_pos d2 H2) as P2.
  pose proof (recip_pos d3 H3) as P3.
  assert (HN : 0 < norm [d1; d2; d3]).
  { unfold norm. simpl. lra. }
  eexists _, _, _. split; [reflexivity|].
  repeat split; intros Hle; apply div_mono; try exact HN;
    apply recip_antitone; assumption.
Qed.

Lemma X13_witness :
  exists w1 w2 w3,
    weight [0; 1; 3 # 2] = [w1; w2; w3]
    /\ (0 <= 1 -> w2 <= w1) /\ (1 <= 0 -> w1 <= w2)
    /\ (1 <= 3 # 2 -> w3 <= w2) /\ ((3 # 2) <= 1 -> w2 <= w3)
    /\ (0 <= 3 # 2 -> w3 <= w1) /\ ((3 # 2) <= 0 -> w1 <= w3).
Proof.
  apply (X13_nearer_neighbour_weighs_more 0 1 (3 # 2)); discriminate.
Defined.

End WeightsMore.

Section WeightsNear.
Local Open Scope Q_scope.

(** X14: a neighbour much nearer than the two others takes almost all the
    weight: when the second and the third distance are at least [delta],
    the first weight is at least [1 - 2 (d1 + 1e-8) / delta].  At distance 0
    it falls short of 1 by at most [2e-8 / delta]. *)
Theorem X14_near_neighbour_takes_the_weight (d1 d2 d3 delta : Q) :
  0 <= d1 -> 0 < delta -> delta <= d2 -> delta <= d3 ->
  exists w1 w2 w3,
    weight [d1; d2; d3] = [w1; w2; w3]
    /\ 1 - (d1 + eps) * (2 / delta) <= w1 /\ w1 < 1.
Proof.
  intros H1 Hd H2 H3. pose proof eps_pos as He.
  pose proof (recip_pos d1 H1) as P1.
  pose proof (recip_pos d2 ltac:(lra)) as P2.
  pose proof (recip_pos d3 ltac:(lra)) as P3.
  assert (B2 : 1 / (d2 + eps) <= 1 / delta).
  { apply Qle_shift_div_l; [lra|].
    assert (E : 1 / (d2 + eps) * delta == delta / (d2 + eps))
      by (field; lra).
    rewrite E. apply Qle_shift_div_r; lra. }
  assert (B3 : 1 / (d3 + eps) <= 1 / delta).
  { apply Qle_shift_div_l; [lra|].
    assert (E : 1 / (d3 + eps) * delta == delta / (d3 + eps))
      by (field; lra).
    rewrite E. apply Qle_shift_div_r; lra. }
  assert (HN : norm [d1; d2; d3]
               == 1 / (d1 + eps) + (1 / (d2 + eps) + 1 / (d3 + eps)))
    by (unfold norm; simpl; ring).
  assert (E1 : (d1 + eps) * (1 / (d1 + eps)) == 1) by (field; lra).
  assert (Et : 2 / delta == 1 / delta + 1 / delta) by (field; lra).
  eexists _, _, _. split; [reflexivity|].
  set (N := norm [d1; d2; d3]) in *.
  set (r1 := 1 / (d1 + eps)) in *. set (r2 := 1 / (d2 + eps)) in *.
  set (r3 := 1 / (d3 + eps)) in *. set (a := d1 + eps) in *.
  set (t := 1 / delta) in *.
  assert (Ha : 0 < a) by (unfold a; lra).
  split.
  - apply Qle_shift_div_l; [lra|]. rewrite HN, Et.
    assert (Hs : 0 <= a * (t + t) * (r2 + r3)).
    { apply Qmult_le_0_compat; [apply Qmult_le_0_compat|]; lra. }
    assert (Hr : a * (t + t) * r1 == t + t).
    { transitivity (a * r1 * (t + t)); [ring|]. rewrite E1. ring. }
    assert (Hx : (1 - a * (t + t)) * (r1 + (r2 + r3))
                 == r1 + (r2 + r3) - a * (t + t) * r1
                    - a * (t + t) * (r2 + r3)) by ring.
    rewrite Hx, Hr. lra.
  - apply Qlt_shift_div_r; lra.
Qed.

Lemma X14_witness :
  exists w1 w2 w3,
    weight [0; 1; 3 # 2] = [w1; w2; w3]
    /\ 1 - (0 + eps) * (2 / 1) <= w1 /\ w1 < 1.
Proof.
  apply (X14_near_neighbour_takes_the_weight 0 1 (3 # 2) 1);
    try reflexivity; discriminate.
Defined.

End WeightsNear.

(** ** A global stage in the middle of the encoder *)

Section GlobalStage.
Context {T : TensorLib}.
Import Pointnet.

Lemma SA_forward_global (m : SAModule) (xyz feats c : option tensor)
    (out : tensor) :
  npoint m = None -> SA_forward m xyz feats None = Ok (c, out) -> c = None.
Proof.
  intros _ Hf. apply SA_forward_centres in Hf as [Hc _]. exact Hc.
Qed.

(** The encoder loop does not get past the stage after a global one. *)
Lemma forward_encode_after_global (self : Pointnet2MSG) (pc : tensor)
    (i : nat) (m : SAModule) :
  SA_modules self !! i = Some m -> npoint m = None ->
  (S i < length (SA_modules self))%nat ->
  is_ok (forward_encode self pc) = false.
Proof.
  intros Hm Hnp Hlen. unfold forward_encode.
  destruct (_break_up_pc pc) as [[xyz feats]|]; [|reflexivity]. simpl.
  rewrite py_range_seq.
  apply (for_in_seq_fails
           (fun k (l : history) =>
              length l.1 = S k /\ length l.2 = S k
              /\ ((i < k)%nat -> l.1 !! S i = Some None))
           _ _ _ 0 (S i)); [simpl; repeat split; lia| | |lia].
  - intros k t t' Hk (H1 & H2 & H3) Hs.
    destruct (forward_SA_step_appends _ _ _ _ Hs) as (x & y & Hx & Hy).
    rewrite Hx, Hy, !length_app, H1, H2. simpl.
    split; [lia|]. split; [lia|]. intros Hik.
    destruct (decide (k = i)) as [->|Hne].
    + rewrite lookup_app_r by lia. rewrite H1, Nat.sub_diag. simpl.
      f_equal. unfold forward_SA_step in Hs.
      rewrite (py_index_nat _ _ _ Hm) in Hs. simpl in Hs.
      destruct (py_index t.1 (Z.of_nat i)) as [xi|]; [|discriminate].
      destruct (py_index t.2 (Z.of_nat i)) as [fi|]; [|discriminate].
      simpl in Hs.
      destruct (SA_forward m xi fi None) as [[c out]|] eqn:Hf;
        [|discriminate].
      pose proof (SA_forward_global m xi fi c out Hnp Hf) as ->.
      simpl in Hs. injection Hs as Hs. rewrite <- Hs in Hx. simpl in Hx.
      apply app_inv_head in Hx. congruence.
    + rewrite lookup_app_l by lia. apply H3. lia.
  - intros t (H1 & H2 & H3). unfold forward_SA_step.
    destruct (py_index (SA_modules self) _) as [m'|]; [|reflexivity].
    simpl. rewrite (py_index_nat t.1 (S i) None (H3 ltac:(lia))). simpl.
    destruct (py_index t.2 _); reflexivity.
Qed.

(** X22: a global SA stage ([npoint=None]) must be the last one.  It
    returns [None] for its centres, and the stage after it calls
    [xyz.transpose] on that: a network with an SA stage after a global one
    never completes a forward pass. *)
Theorem X22_global_stage_must_be_last (self : Pointnet2MSG) (pc : tensor)
    (i : nat) (m : SAModule) :
  SA_modules self !! i = Some m -> npoint m = None ->
  (S i < length (SA_modules self))%nat ->
  is_ok (forward self pc) = false.
Proof.
  intros Hm Hnp Hlen. unfold forward, forward_history.
  pose proof (forward_encode_after_global self pc i m Hm Hnp Hlen) as Henc.
  destruct (forward_encode self pc); [discriminate | reflexivity].
Qed.

(** X23: a stage with a target count that is handed no centres has to
    sample them, and lines 101-103 read [pointnet2_utils]: the pass
    returns on no input, and on every cloud of three columns it raises
    [NameError] before any scale is grouped. *)
Theorem X23_sampling_stage_never_returns {L : TensorLaws T} (self : SAModule)
    (m : Z) :
  npoint self = Some m ->
  (forall xyz feats : option tensor,
     is_ok (SA_forward self xyz feats None) = false)
  /\ (forall (xyz : tensor) (feats : option tensor) b n,
        size xyz = [b; n; 3] ->
        SA_forward self (Some xyz) feats None
        = Raise (NameError "pointnet2_utils")).
Proof.
  intros Hnp. split.
  - intros xyz feats. apply (SA_forward_sampling_fails self xyz feats m Hnp).
  - intros xyz feats b n Hx.
    apply (SA_forward_sampling_unbound self xyz feats m b n Hnp Hx).
Qed.

(** X24: no network with two or more SA stages completes a forward pass.
    Its first stage is called without centres: with a target count it
    raises at the sampling, without one it returns [None] for the centres
    and the second stage fails on them. *)
Theorem X24_two_SA_stages_never_complete (self : Pointnet2MSG) (pc : tensor) :
  (2 <= length (SA_modules self))%nat -> is_ok (forward self pc) = false.
Proof.
  intros Hlen. unfold forward, forward_history.
  assert (Henc : is_ok (forward_encode self pc) = false).
  { destruct (SA_modules self) as [|m0 ms] eqn:Hms; [simpl in Hlen; lia|].
    destruct (npoint m0) as [k|] eqn:Hnp.
    - unfold forward_encode.
      destruct (_break_up_pc pc) as [[xyz feats]|]; [|reflexivity].
      cbn [mbind result_bind]. rewrite py_range_seq, Hms.
      apply (for_in_seq_fails (fun _ _ => True) _ _ _ 0 0);
        [exact I | intros; exact I | | simpl; lia].
      intros t _. unfold forward_SA_step. rewrite Hms.
      change (py_index (m0 :: ms) (Z.of_nat 0)) with (Ok m0).
      cbn [mbind result_bind].
      destruct (py_index t.1 (Z.of_nat 0)) as [x|]; [|reflexivity].
      cbn [mbind result_bind].
      destruct (py_index t.2 (Z.of_nat 0)) as [f|]; [|reflexivity].
      cbn [mbind result_bind].
      pose proof (SA_forward_sampling_fails m0 x f k Hnp) as Hf.
      destruct (SA_forward m0 x f None); [discriminate | reflexivity].
    - apply (forward_encode_after_global self pc 0 m0);
        [rewrite Hms; reflexivity | exact Hnp | rewrite Hms; exact Hlen]. }
  destruct (forward_encode self pc); [discriminate | reflexivity].
Qed.

End GlobalStage.

(** X22 at a global stage followed by a second stage. *)
Lemma X22_witness :
  is_ok (forward (T := Shape.lib)
           {| Pointnet.SA_modules :=
                [Model.mk_stage true None [1%Q] [4] 3 [[8]] "max_pool";
                 Model.mk_stage true (Some 1) [1%Q] [4] 8 [[16]] "max_pool"];
              Pointnet.FP_modules := [] |}
           [1; 16; 6]) = false.
Proof.
  apply (X22_global_stage_must_be_last (T := Shape.lib) _ _ 0%nat
           (Model.mk_stage true None [1%Q] [4] 3 [[8]] "max_pool"));
    [reflexivity | reflexivity | simpl; lia].
Defined.

(** X23 at a stage with target 8 on 16 points. *)
Lemma X23_witness :
  SA_forward (T := Shape.lib)
    (Model.mk_stage true (Some 8) [0.1%Q] [4] 3 [[8]] "max_pool")
    (Some [2; 16; 3]) (Some [2; 3; 16]) None
  = Raise (NameError "pointnet2_utils").
Proof.
  apply (proj2 (X23_sampling_stage_never_returns (T := Shape.lib)
                  (Model.mk_stage true (Some 8) [0.1%Q] [4] 3 [[8]]
                     "max_pool") 8 eq_refl) [2; 16; 3] (Some [2; 3; 16])
           2 16).
  reflexivity.
Defined.

(** X24 at two stages with target counts. *)
Lemma X24_witness :
  is_ok (forward (T := Shape.lib)
           {| Pointnet.SA_modules :=
                [Model.mk_stage true (Some 8) [1%Q] [4] 3 [[8]] "max_pool";
                 Model.mk_stage true (Some 4) [1%Q] [4] 8 [[16]] "max_pool"];
              Pointnet.FP_modules := [] |}
           [1; 16; 6]) = false.
Proof.
  apply (X24_two_SA_stages_never_complete (T := Shape.lib)). simpl. lia.
Defined.

(** * Further properties of semantic_segmentation.py *)

(** ** What the methods read *)

Section SoundFacts.
Import Pipeline Reads.
Variables (w : world) (names : list string).

Lemma clean_here {A} (m : M A) (s : state) : (m s).2 = s -> clean names m s.
Proof.
  intros H. unfold clean. rewrite H. exists []. rewrite app_nil_r.
  split; reflexivity.
Qed.

Lemma clean_emit {A} (m : M A) (s : state) (e : event) :
  (m s).2 = emit e s -> reads names e = false -> clean names m s.
Proof.
  intros H He. unfold clean. rewrite H. exists [e]. split; [reflexivity|].
  simpl. rewrite He. reflexivity.
Qed.

Lemma sound_ret strict {A} (a : A) : sound names strict (mret a).
Proof.
  intros s. split; [apply clean_here; reflexivity|].
  intros _. split; [discriminate | reflexivity].
Qed.

Lemma sound_raise strict {A} (e : exn) :
  sound names strict (raise (A := A) e).
Proof.
  intros s. split; [apply clean_here; reflexivity|].
  intros _. split; [discriminate | reflexivity].
Qed.

Lemma sound_bind strict {A B} (m : M A) (f : A -> M B) :
  sound names strict m -> (forall a, sound names strict (f a)) ->
  sound names strict (m ≫= f).
Proof.
  intros Hm Hf s. destruct (Hm s) as [(e1 & Ht1 & He1) Hs1].
  unfold clean, mbind, M_bind.
  destruct (m s) as [[a|e|] s1] eqn:Em; simpl in *.
  - destruct (Hf a s1) as [(e2 & Ht2 & He2) Hs2]. split.
    + exists (e1 ++ e2). rewrite Ht2, Ht1, app_assoc, forallb_app, He1, He2.
      split; reflexivity.
    + intros Hst. destruct (Hs1 Hst) as [_ Ha1].
      destruct (Hs2 Hst) as [Hd2 Ha2]. split; [exact Hd2 | congruence].
  - split; [exists e1; done|]. intros Hst. destruct (Hs1 Hst). done.
  - split; [exists e1; done|]. intros Hst. destruct (Hs1 Hst). done.
Qed.

Lemma sound_weaken {A} (m : M A) :
  sound names true m -> sound names false m.
Proof. intros H s. split; [apply H | discriminate]. Qed.

Lemma of_result_ends' {A} (r : result A) : of_result r <> Diverges.
Proof. destruct r; discriminate. Qed.

Lemma sound_getattr strict (o : value) (name : string) :
  existsb (String.eqb name) names = false ->
  sound names strict (getattr w o name).
Proof.
  intros He s. unfold clean, getattr.
  destruct o; simpl;
    try (split; [eexists [_]; split; [reflexivity|];
                 simpl; rewrite He; reflexivity
                | intros _; split; [apply of_result_ends' | reflexivity]]).
  - split; [exists []; rewrite app_nil_r; split; reflexivity|].
    intros _. split; [discriminate | reflexivity].
  - destruct (attrs s !! name); simpl;
      (split; [exists []; rewrite app_nil_r; split; reflexivity|];
       intros _; split; [discriminate | reflexivity]).
Qed.

Lemma sound_call strict (f : value) (args : list value) :
  sound names strict (call w f args).
Proof.
  intros s. unfold clean, call.
  destruct f; simpl;
    try (split; [eexists [_]; split; reflexivity
                | intros _; split; [apply of_result_ends' | reflexivity]]).
  split; [exists []; rewrite app_nil_r; split; reflexivity|].
  intros _. split; [discriminate | reflexivity].
Qed.

Lemma sound_setattr (o : value) (name : string) (v : value) :
  sound names false (setattr o name v).
Proof.
  intros s. split; [|discriminate]. unfold clean, setattr.
  destruct o; simpl; try (eexists [_]; split; reflexivity);
    exists []; rewrite app_nil_r; split; reflexivity.
Qed.

Lemma sound_load_global strict (name : string) :
  sound names strict (load_global name).
Proof.
  unfold load_global.
  destruct (existsb _ _); [apply sound_ret | apply sound_raise].
Qed.

Lemma sound_hasattr_self strict (name : string) :
  sound names strict (hasattr_self name).
Proof.
  intros s. split; [apply clean_here; reflexivity|].
  intros _. split; [discriminate | reflexivity].
Qed.

Lemma sound_diverges {A} :
  sound names false (fun s => (Diverges (A := A), s)).
Proof. intros s. split; [apply clean_here; reflexivity | discriminate]. Qed.

End SoundFacts.

Section SoundLoops.
Import Pipeline Reads.
Variables (w : world) (names : list string).

Ltac sound_step :=
  first
    [ apply sound_ret | apply sound_raise | apply sound_load_global
    | apply sound_call | apply sound_hasattr_self
    | apply sound_getattr; reflexivity
    | apply sound_setattr
    | apply sound_bind; [|intros ?] ].

(** The state [s'] extends [s] by events that read none of the names. *)
Let ext (s s' : state) : Prop :=
  exists evs, trace s' = trace s ++ evs
              /\ forallb (fun e => negb (reads names e)) evs = true.

Lemma ext_trans (s1 s2 s3 : state) : ext s1 s2 -> ext s2 s3 -> ext s1 s3.
Proof.
  intros (e1 & H1 & He1) (e2 & H2 & He2). exists (e1 ++ e2).
  rewrite H2, H1, app_assoc, forallb_app, He1, He2. split; reflexivity.
Qed.

Lemma sound_for_each strict {A} (body : A -> M unit) (l : list A) :
  (forall a, sound names strict (body a)) ->
  sound names strict (for_each body l).
Proof.
  intros Hb. induction l as [|a l IH]; simpl; [apply sound_ret|].
  apply sound_bind; [apply Hb | intros _; exact IH].
Qed.

Lemma sound_next_ strict (it : value) :
  existsb (String.eqb "__next__") names = false ->
  sound names strict (next_ w it).
Proof.
  intros Hn.
  assert (H : sound names strict (f ← getattr w it "__next__"; call w f []))
    by (apply sound_bind; [apply sound_getattr; exact Hn
                          | intros ?; apply sound_call]).
  intros s. specialize (H s). unfold clean, next_ in *.
  destruct ((f ← getattr w it "__next__"; call w f []) s) as [[v|e|] s1];
    simpl in *; destruct H as [Hc Hs]; try destruct (is_stop e); simpl;
    (split; [exact Hc|]); intros Hst; destruct (Hs Hst) as [Hd Ha];
    (split; [done | exact Ha]).
Qed.

Lemma sound_for_iter (fuel : nat) (it : value) (body : value -> M unit) :
  existsb (String.eqb "__next__") names = false ->
  (forall v, sound names false (body v)) ->
  sound names false (for_iter w fuel it body).
Proof.
  intros Hn Hb. induction fuel as [|fuel IH]; simpl; [apply sound_diverges|].
  apply sound_bind; [apply sound_next_; exact Hn|].
  intros [v|]; [|apply sound_ret].
  apply sound_bind; [apply Hb | intros _; exact IH].
Qed.

Lemma sound_collect (fuel : nat) (it : value) (acc : list value) :
  existsb (String.eqb "__next__") names = false ->
  sound names false (collect w fuel it acc).
Proof.
  intros Hn. revert acc.
  induction fuel as [|fuel IH]; intros acc; simpl; [apply sound_diverges|].
  apply sound_bind; [apply sound_next_; exact Hn|].
  intros [v|]; [apply IH | apply sound_ret].
Qed.

Lemma sound_take_next strict (n : nat) (it : value) :
  existsb (String.eqb "__next__") names = false ->
  sound names strict (take_next w n it).
Proof.
  intros Hn. induction n as [|n IH]; simpl; [apply sound_ret|].
  apply sound_bind; [apply sound_next_; exact Hn|].
  intros [v|]; [|apply sound_raise].
  apply sound_bind; [exact IH | intros ?; apply sound_ret].
Qed.

Lemma sound_iter_ strict (v : value) :
  existsb (String.eqb "__iter__") names = false ->
  sound names strict (iter_ w v).
Proof.
  intros Hi. unfold iter_.
  destruct v; try apply sound_raise;
    (apply sound_bind; [apply sound_getattr; exact Hi
                       | intros ?; apply sound_call]).
Qed.

Lemma sound_unpack strict (n : nat) (v : value) :
  existsb (String.eqb "__next__") names = false ->
  existsb (String.eqb "__iter__") names = false ->
  sound names strict (unpack w n v).
Proof.
  intros Hn Hi. unfold unpack.
  apply sound_bind; [apply sound_iter_; exact Hi | intros it].
  apply sound_bind; [apply sound_take_next; exact Hn | intros xs].
  apply sound_bind; [apply sound_next_; exact Hn | intros [x|]];
    [apply sound_raise | apply sound_ret].
Qed.

Lemma sound_with_ strict {A} (cm : value) (body : M A) :
  existsb (String.eqb "__enter__") names = false ->
  existsb (String.eqb "__exit__") names = false ->
  sound names strict body -> sound names strict (with_ w cm body).
Proof.
  intros Hen Hex Hb.
  assert (He : sound names strict
                 (enter ← getattr w cm "__enter__"; call w enter []))
    by (apply sound_bind; [apply sound_getattr; exact Hen
                          | intros ?; apply sound_call]).
  assert (Hx : sound names strict
                 (exit ← getattr w cm "__exit__"; call w exit []))
    by (apply sound_bind; [apply sound_getattr; exact Hex
                          | intros ?; apply sound_call]).
  clear Hen Hex. intros s. unfold clean, with_.
  destruct (He s) as [Ec Es]. unfold clean in Ec.
  destruct ((enter ← getattr w cm "__enter__"; call w enter []) s)
    as [[v|e|] s1]; simpl in Ec, Es; simpl;
    [|split; [exact Ec|]; intros Hst; destruct (Es Hst) as [Hd Ha];
      (split; [|exact Ha]);
      first [discriminate | exfalso; apply Hd; reflexivity]..].
  destruct (Hb s1) as [Bc Bs]. unfold clean in Bc.
  destruct (body s1) as [r s2]; simpl in Bc, Bs.
  destruct (Hx s2) as [Xc Xs]. unfold clean in Xc.
  assert (H12 : ext s s2) by (eapply ext_trans; eassumption).
  assert (H13 : ext s
                  ((exit ← getattr w cm "__exit__"; call w exit []) s2).2)
    by (eapply ext_trans; eassumption).
  destruct r as [a|e|].
  - destruct ((exit ← getattr w cm "__exit__"; call w exit []) s2)
      as [[v'|e'|] s3]; simpl in Xs, H13; simpl; (split; [exact H13|]);
      intros Hst; destruct (Es Hst), (Bs Hst), (Xs Hst);
      (split; [done | congruence]).
  - destruct ((exit ← getattr w cm "__exit__"; call w exit []) s2)
      as [[v'|e'|] s3]; simpl in Xs, H13; simpl; (split; [exact H13|]);
      intros Hst; destruct (Es Hst), (Bs Hst), (Xs Hst);
      (split; [done | congruence]).
  - simpl. split; [exact H12|]. intros Hst. destruct (Bs Hst). done.
Qed.

Lemma sound_no_grad strict {A} (body : M A) :
  existsb (String.eqb "__enter__") names = false ->
  existsb (String.eqb "__exit__") names = false ->
  existsb (String.eqb "no_grad") names = false ->
  sound names strict body -> sound names strict (no_grad w body).
Proof.
  intros Hen Hex Hng Hb. unfold no_grad.
  apply sound_bind; [apply sound_load_global | intros torch].
  apply sound_bind; [apply sound_getattr; exact Hng | intros f].
  apply sound_bind; [apply sound_call | intros cm].
  apply sound_with_; assumption.
Qed.

End SoundLoops.

Ltac sound_side := solve [reflexivity | assumption].

Ltac sound_step :=
  first
    [ apply sound_ret | apply sound_raise | apply sound_load_global
    | apply sound_call | apply sound_hasattr_self
    | apply sound_getattr; sound_side
    | apply sound_setattr
    | apply sound_next_; sound_side
    | apply sound_iter_; sound_side
    | apply sound_unpack; sound_side
    | apply sound_collect; sound_side
    | apply sound_no_grad; [sound_side..|]
    | apply sound_for_each; intros ?
    | apply sound_for_iter; [sound_side | intros ?]
    | apply sound_bind; [|intros ?]
    | match goal with
      | |- Reads.sound _ _ (if ?b then _ else _) => destruct b
      | |- Reads.sound _ _ (match ?x with _ => _ end) => destruct x
      end ].

Ltac sound_unfold :=
  unfold Pipeline.getitem, Pipeline.log_info, Pipeline.log_info_format,
    Pipeline.binop, Pipeline.py_eq, Pipeline.py_ne, Pipeline.py_add,
    Pipeline.py_sub, Pipeline.py_mod, Pipeline.subscript,
    Pipeline.store_subscript, Pipeline.np_zeros, Pipeline.count_visited,
    Pipeline.current_buffer, Pipeline.store_current_buffer,
    Pipeline.construct, Pipeline.log_to_file, Pipeline.timestamp_now,
    Pipeline.torch_dataloader, Pipeline.data_loader, Pipeline.load_builtin,
    Pipeline.add_text, Pipeline.set_point_sampler, Pipeline.get_batcher,
    Pipeline.concatenate_buffers, Pipeline.save_config, Pipeline.save_ckpt,
    Pipeline.load_ckpt_with, Pipeline.update_tests, Pipeline.run_valid_body,
    Pipeline.run_valid_setup, Pipeline.run_valid, Pipeline.run_train_epoch,
    Pipeline.for_range, Pipeline.run_train.

Ltac sound_auto := repeat first [sound_step | progress sound_unfold].

Section ReadsOfTheMethods.
Import Pipeline Reads.
Variable w : world.

(** X15: [run_train] never trains.  In no world and for no pipeline object
    does it read [zero_grad], [backward] or [step] of any object, clip a
    gradient or write a scalar to the summary: the training steps and the
    call of [save_logs] are commented out in the source, and what is left
    of an epoch validates and saves a checkpoint. *)
Theorem X15_run_train_never_trains (fuel : nat) (s : state) :
  exists evs,
    trace (run_train w fuel s).2 = trace s ++ evs
    /\ forallb (fun e => negb (reads training_names e)) evs = true.
Proof.
  assert (H : sound training_names false (run_train w fuel))
    by sound_auto.
  apply H.
Qed.

End ReadsOfTheMethods.

Section ThrowsFacts.
Import Pipeline Reads.
Variables (w : world) (names : list string) (P : gmap string value -> Prop).

Lemma throws_bind_l {A B} (m : M A) (f : A -> M B) :
  throws names P m -> throws names P (m ≫= f).
Proof.
  intros Hm s HP. destruct (Hm s HP) as ((e & He) & Ha & Hc).
  unfold clean, mbind, M_bind in *.
  destruct (m s) as [[a|e'|] s1]; simpl in *; try discriminate.
  injection He as ->. split; [eauto|]. split; assumption.
Qed.

Lemma throws_bind_r {A B} (m : M A) (f : A -> M B) :
  sound names true m -> (forall a, throws names P (f a)) ->
  throws names P (m ≫= f).
Proof.
  intros Hm Hf s HP. destruct (Hm s) as [(e1 & Ht1 & He1) Hs].
  destruct (Hs eq_refl) as [Hd Ha].
  unfold clean, mbind, M_bind in *.
  destruct (m s) as [[a|e|] s1]; simpl in *.
  - destruct (Hf a s1) as ((e & He) & Ha2 & (e2 & Ht2 & He2)).
    { rewrite Ha. exact HP. }
    split; [eauto|]. split; [congruence|].
    exists (e1 ++ e2). rewrite Ht2, Ht1, app_assoc, forallb_app, He1, He2.
    split; reflexivity.
  - split; [eauto|]. split; [exact Ha|]. exists e1. split; assumption.
  - congruence.
Qed.

Lemma throws_raise {A} (e : exn) : throws names P (raise (A := A) e).
Proof.
  intros s _. split; [eexists; reflexivity|]. split; [reflexivity|].
  exists []. rewrite app_nil_r. split; reflexivity.
Qed.

End ThrowsFacts.

Section Missing.
Import Pipeline Reads.
Variables (w : world) (names : list string).

(** Reading an attribute the pipeline object does not have. *)
Lemma throws_missing {A} (name : string) (f : value -> M A) :
  throws names (fun a => a !! name = None) (getattr w VSelf name ≫= f).
Proof.
  apply throws_bind_l. intros s Hs. unfold clean. simpl. rewrite Hs. simpl.
  split; [eexists; reflexivity|]. split; [reflexivity|].
  exists []. rewrite app_nil_r. split; reflexivity.
Qed.

End Missing.

Ltac throws_step :=
  first
    [ apply throws_missing
    | apply throws_raise
    | apply throws_bind_r; [solve [sound_auto] | intros ?] ].

Section BlockedMethods.
Import Pipeline Reads.
Variable w : world.

(** X16: on a pipeline object without the attribute [batcher], which only
    [run_train] assigns, [run_valid] ends with an exception before its
    loop: it assigns no attribute (so none of [valid_losses], [valid_accs]
    and [valid_ious]), never asks the loader for a batch and never calls
    [get_loss]. *)
Theorem X16_run_valid_needs_the_batcher (fuel : nat) (s : state) :
  attrs s !! "batcher" = None ->
  (exists e, (run_valid w fuel s).1 = Throw e)
  /\ attrs (run_valid w fuel s).2 = attrs s
  /\ exists evs,
       trace (run_valid w fuel s).2 = trace s ++ evs
       /\ forallb (fun e => negb (reads loop_names e)) evs = true.
Proof.
  assert (H : throws loop_names (fun a => a !! "batcher" = None)
                (run_valid w fuel)).
  { unfold run_valid. do 2 throws_step. apply throws_bind_l.
    unfold data_loader. do 4 throws_step. apply throws_missing. }
  apply H.
Qed.

End BlockedMethods.

Section UpdateTests.
Import Pipeline Reads.
Variable w : world.

Lemma clean_bind_or (n1 n2 : list string) {A B} (m : M A) (f : A -> M B) :
  sound n1 false m -> sound n2 false m ->
  (forall a s1, clean n1 (f a) s1 \/ clean n2 (f a) s1) ->
  forall s, clean n1 (m ≫= f) s \/ clean n2 (m ≫= f) s.
Proof.
  intros H1 H2 Hf s.
  destruct (H1 s) as [(e1 & Ht1 & He1) _].
  destruct (H2 s) as [(e2 & Ht2 & He2) _].
  unfold clean, mbind, M_bind in *.
  destruct (m s) as [[a|e|] s1]; simpl in *;
    [|left; exists e1; split; assumption..].
  destruct (Hf a s1) as [(e & Ht & He)|(e & Ht & He)]; [left|right].
  - exists (e1 ++ e). rewrite Ht, Ht1, app_assoc, forallb_app, He1, He.
    split; reflexivity.
  - exists (e2 ++ e). rewrite Ht, Ht2, app_assoc, forallb_app, He2, He.
    split; reflexivity.
Qed.

(** X17: one call of [update_tests] either opens the buffers of a new
    cloud or accumulates into the buffers of the current one, never both:
    a call that appends a buffer does not call [model.update_probs] and
    stores nothing, so the batch that opens a cloud is not accumulated; a
    call that accumulates appends no buffer. *)
Theorem X17_update_tests_opens_or_accumulates (sampler inputs results : value)
    (s : state) :
  (exists evs,
     trace (update_tests w sampler inputs results s).2 = trace s ++ evs
     /\ forallb (fun e => negb (reads accumulating_names e)) evs = true)
  \/ (exists evs,
        trace (update_tests w sampler inputs results s).2 = trace s ++ evs
        /\ forallb (fun e => negb (reads opening_names e)) evs = true).
Proof.
  revert s. unfold update_tests.
  apply clean_bind_or; [sound_auto..|]. intros cur.
  apply clean_bind_or; [sound_auto..|]. intros cloud_id.
  apply clean_bind_or; [sound_auto..|]. intros changed s1.
  destruct (truthy changed); [left | right].
  - assert (H : sound accumulating_names false
      (cloud_id ← getattr w sampler "cloud_id";
       _ ← setattr VSelf "curr_cloud_id" cloud_id;
       possibilities ← getattr w sampler "possibilities";
       cloud_id ← getattr w sampler "cloud_id";
       p ← subscript w possibilities cloud_id;
       shape ← getattr w p "shape";
       num_points ← subscript w shape (VInt 0);
       tqdm ← load_global "tqdm";
       format ← getattr w (VStr "validation {}/{}") "format";
       cur ← getattr w VSelf "curr_cloud_id";
       len ← load_global "len";
       dataset ← getattr w sampler "dataset";
       n ← call w len [dataset];
       desc ← call w format [cur; n];
       pbar ← call w tqdm [num_points; desc];
       _ ← setattr VSelf "pbar" pbar;
       _ ← setattr VSelf "pbar_update" (VInt 0);
       test_probs ← getattr w VSelf "test_probs";
       append ← getattr w test_probs "append";
       z ← np_zeros w (model ← getattr w VSelf "model";
                       cfg ← getattr w model "cfg";
                       num_classes ← getattr w cfg "num_classes";
                       mret (VList [num_points; num_classes])) "float16";
       _ ← call w append [z];
       test_labels ← getattr w VSelf "test_labels";
       append ← getattr w test_labels "append";
       z ← np_zeros w (mret (VList [num_points])) "int16";
       _ ← call w append [z];
       mret tt)) by sound_auto.
    apply H.
  - assert (H : sound opening_names false
      (possibilities ← getattr w sampler "possibilities";
       cloud_id ← getattr w sampler "cloud_id";
       this_possiblility ← subscript w possibilities cloud_id;
       pbar ← getattr w VSelf "pbar";
       update ← getattr w pbar "update";
       visited ← count_visited w this_possiblility;
       pbar_update ← getattr w VSelf "pbar_update";
       delta ← py_sub w visited pbar_update;
       _ ← call w update [delta];
       visited ← count_visited w this_possiblility;
       _ ← setattr VSelf "pbar_update" visited;
       model ← getattr w VSelf "model";
       update_probs ← getattr w model "update_probs";
       probs ← current_buffer w "test_probs";
       labels ← current_buffer w "test_labels";
       r ← call w update_probs [inputs; results; probs; labels];
       xs ← unpack w 2 r;
       _ ← store_current_buffer w "test_probs" (default VNone (xs !! 0%nat));
       store_current_buffer w "test_labels" (default VNone (xs !! 1%nat))))
      by sound_auto.
    apply H.
Qed.

End UpdateTests.

Section Batcher.
Import Pipeline Reads.
Variable w : world.

Lemma bind_Done {A B} (m : M A) (f : A -> M B) (s s' : state) (b : B) :
  (m ≫= f) s = (Done b, s') ->
  exists a s1, m s = (Done a, s1) /\ f a s1 = (Done b, s').
Proof.
  unfold mbind, M_bind. destruct (m s) as [[a|e|] s1]; [eauto|discriminate..].
Qed.

(** X18: [get_batcher] ignores its argument [split], ends, and assigns no
    attribute.  When it returns, it has returned [None] or its last step
    was to construct one batcher: [DefaultBatcher()] without arguments or
    [ConcatBatcher(device)]. *)
Theorem X18_get_batcher_constructs_one_batcher (device : value)
    (split : string) (s : state) :
  (forall split', get_batcher w device split' s = get_batcher w device split s)
  /\ (get_batcher w device split s).1 <> Diverges
  /\ attrs (get_batcher w device split s).2 = attrs s
  /\ forall v,
       (get_batcher w device split s).1 = Done v ->
       v = VNone
       \/ (exists tr,
             trace (get_batcher w device split s).2
             = tr ++ [ECall (VObj "DefaultBatcher") []])
       \/ (exists tr,
             trace (get_batcher w device split s).2
             = tr ++ [ECall (VObj "ConcatBatcher") [device]]).
Proof.
  split; [reflexivity|].
  assert (H : sound [] true (get_batcher w device split)) by sound_auto.
  destruct (H s) as [_ Hs]. destruct (Hs eq_refl) as [Hd Ha].
  split; [exact Hd|]. split; [exact Ha|].
  intros v Hv.
  destruct (get_batcher w device split s) as [r s'] eqn:E. simpl in *.
  subst r. unfold get_batcher in E.
  apply bind_Done in E as (g & s1 & _ & E).
  apply bind_Done in E as (model & s2 & _ & E).
  apply bind_Done in E as (cfg & s3 & _ & E).
  apply bind_Done in E as (name & s4 & _ & E).
  destruct (str_eq name "DefaultBatcher").
  - right. left. exists (trace s4).
    apply bind_Done in E as (c & s5 & Hc & E).
    injection Hc as <- <-. unfold call in E. injection E as _ <-.
    reflexivity.
  - destruct (str_eq name "ConcatBatcher").
    + right. right. exists (trace s4).
      apply bind_Done in E as (c & s5 & Hc & E).
      injection Hc as <- <-. unfold call in E. injection E as _ <-.
      reflexivity.
    + left. injection E as <- _. reflexivity.
Qed.

End Batcher.

Section Checkpoints.
Import Pipeline Reads.
Variable w : world.

(** X19: [load_ckpt] ends and assigns no attribute of the pipeline
    object.  When a path is given, [is_resume] has no effect; the call with
    [is_resume=True] is the one [run_test] makes. *)
Theorem X19_load_ckpt_assigns_nothing (ckpt_path is_resume : value)
    (s : state) :
  (load_ckpt_with w ckpt_path is_resume s).1 <> Diverges
  /\ attrs (load_ckpt_with w ckpt_path is_resume s).2 = attrs s
  /\ (is_none ckpt_path = false ->
      forall is_resume',
        load_ckpt_with w ckpt_path is_resume' s
        = load_ckpt_with w ckpt_path is_resume s)
  /\ load_ckpt_with w ckpt_path (VBool true) s = load_ckpt w ckpt_path s.
Proof.
  assert (H : sound [] true (load_ckpt_with w ckpt_path is_resume))
    by sound_auto.
  destruct (H s) as [_ Hs]. destruct (Hs eq_refl) as [Hd Ha].
  split; [exact Hd|]. split; [exact Ha|]. split; [|reflexivity].
  intros Hp r'. destruct ckpt_path; try discriminate; reflexivity.
Qed.

Lemma sound_ext names strict {A} (m m' : M A) :
  (forall s, m s = m' s) -> sound names strict m' -> sound names strict m.
Proof. intros E H s. unfold clean. rewrite E. apply H. Qed.

Lemma sound_assoc names strict {A B C} (m : M A) (f : A -> M B)
    (g : B -> M C) :
  sound names strict (m ≫= fun a => f a ≫= g) ->
  sound names strict ((m ≫= f) ≫= g).
Proof.
  apply sound_ext. intros s. unfold mbind, M_bind.
  destruct (m s) as [[a|e|] s1]; reflexivity.
Qed.

Lemma sound_if_bind names strict {A B} (c : bool) (x y : M A)
    (g : A -> M B) :
  sound names strict (if c then x ≫= g else y ≫= g) ->
  sound names strict ((if c then x else y) ≫= g).
Proof. destruct c; exact id. Qed.

Lemma sound_ret_bind names strict {A B} (a : A) (g : A -> M B) :
  sound names strict (g a) -> sound names strict (mret a ≫= g).
Proof. intros H s. exact (H s). Qed.

(** X20: without a path and with a false [is_resume], [load_ckpt] restores
    nothing, also when the checkpoint directory holds a checkpoint: it
    reads neither [torch.load] nor the [load_state_dict] of any object. *)
Theorem X20_load_ckpt_without_resume_restores_nothing (is_resume : value)
    (s : state) :
  truthy is_resume = false ->
  exists evs,
    trace (load_ckpt_with w VNone is_resume s).2 = trace s ++ evs
    /\ forallb (fun e => negb (reads restoring_names e)) evs = true.
Proof.
  intros Hr.
  assert (H : sound restoring_names true (load_ckpt_with w VNone is_resume)).
  { unfold load_ckpt_with. change (is_none VNone) with true. cbv iota.
    repeat first
      [ exact (sound_ret restoring_names true tt)
      | match goal with
        | |- sound _ _ (if truthy is_resume then _ else _) =>
            rewrite Hr; cbv iota
        end
      | apply sound_assoc | apply sound_if_bind | apply sound_ret_bind
      | sound_step | progress unfold log_info ]. }
  apply H.
Qed.

(** X21: in a world in which no path exists, [load_ckpt] with a path ends
    with an exception and restores nothing. *)
Theorem X21_load_ckpt_of_a_missing_file_raises (ckpt_path is_resume : value)
    (s : state) :
  nothing_exists w -> is_none ckpt_path = false ->
  (exists e, (load_ckpt_with w ckpt_path is_resume s).1 = Throw e)
  /\ attrs (load_ckpt_with w ckpt_path is_resume s).2 = attrs s
  /\ exists evs,
       trace (load_ckpt_with w ckpt_path is_resume s).2 = trace s ++ evs
       /\ forallb (fun e => negb (reads restoring_names e)) evs = true.
Proof.
  intros Hw Hp.
  assert (H : throws restoring_names (fun _ => True)
                (load_ckpt_with w ckpt_path is_resume)).
  { unfold load_ckpt_with. do 6 throws_step. rewrite Hp.
    intros s1 _. unfold clean, mbind, M_bind. simpl.
    destruct (ext_call w (trace s1) (VObj "exists") [ckpt_path])
      as [v|e] eqn:E; simpl.
    - rewrite (Hw _ _ _ E). simpl.
      split; [eexists; reflexivity|]. split; [reflexivity|].
      eexists [_]. split; reflexivity.
    - split; [eexists; reflexivity|]. split; [reflexivity|].
      eexists [_]. split; reflexivity. }
  apply (H s I).
Qed.

End Checkpoints.

Section CheckpointWitnesses.
Import Pipeline Trace Reads.

(** X19 at the path ["ckpt.pth"]. *)
Lemma X19_witness :
  load_ckpt_with obliging (VStr "ckpt.pth") (VBool false)
    (fresh (VObj "dataset"))
  = load_ckpt_with obliging (VStr "ckpt.pth") (VBool true)
      (fresh (VObj "dataset")).
Proof.
  destruct (X19_load_ckpt_assigns_nothing obliging (VStr "ckpt.pth")
              (VBool true) (fresh (VObj "dataset"))) as (_ & _ & H & _).
  apply H. reflexivity.
Defined.

(** X20 at [is_resume=False], in the world where every call returns. *)
Lemma X20_witness :
  exists evs,
    trace (load_ckpt_with obliging VNone (VBool false)
             (fresh (VObj "dataset"))).2
    = trace (fresh (VObj "dataset")) ++ evs
    /\ forallb (fun e => negb (reads restoring_names e)) evs = true.
Proof.
  apply X20_load_ckpt_without_resume_restores_nothing. reflexivity.
Defined.

Lemma no_files_nothing_exists : nothing_exists no_files.
Proof. intros tr args v H. simpl in H. injection H as <-. reflexivity. Qed.

(** X21 at the path ["ckpt.pth"] in the world without files: the
    exception is [FileNotFoundError]. *)
Lemma X21_witness :
  (exists e, (load_ckpt_with no_files (VStr "ckpt.pth") (VBool true)
                (fresh (VObj "dataset"))).1 = Throw e)
  /\ (load_ckpt_with no_files (VStr "ckpt.pth") (VBool true)
        (fresh (VObj "dataset"))).1
     = Throw (OtherError "FileNotFoundError").
Proof.
  split; [|vm_compute; reflexivity].
  apply (X21_load_ckpt_of_a_missing_file_raises no_files (VStr "ckpt.pth")
           (VBool true) (fresh (VObj "dataset")) no_files_nothing_exists).
  reflexivity.
Defined.

(** X16 on a pipeline object built without a batcher: the exception is the
    [AttributeError] for [batcher]. *)
Lemma X16_witness :
  (exists e, (run_valid obliging 1 (fresh (VObj "dataset"))).1 = Throw e)
  /\ (run_valid obliging 1 (fresh (VObj "dataset"))).1
     = Throw (AttributeError "batcher").
Proof.
  split; [|vm_compute; reflexivity].
  apply (X16_run_valid_needs_the_batcher obliging 1
           (fresh (VObj "dataset"))).
  reflexivity.
Defined.

(** X18 for a model whose configuration names no known batcher. *)
Lemma X18_witness :
  VNone = VNone
  \/ (exists tr,
        trace (get_batcher obliging (VObj "device") "test"
                 (fresh (VObj "dataset"))).2
        = tr ++ [ECall (VObj "DefaultBatcher") []])
  \/ (exists tr,
        trace (get_batcher obliging (VObj "device") "test"
                 (fresh (VObj "dataset"))).2
        = tr ++ [ECall (VObj "ConcatBatcher") [VObj "device"]]).
Proof.
  destruct (X18_get_batcher_constructs_one_batcher obliging (VObj "device")
              "test" (fresh (VObj "dataset"))) as (_ & _ & _ & H).
  apply H. vm_compute. reflexivity.
Defined.

End CheckpointWitnesses.
